(** * The dialogue-to-video pipeline of devplan-backend

    A shallow embedding of the three services that make up the pipeline:

    - [TemplateSelectorService]   (services/templateSelectorService.ts)
    - [SpeechToTextMoodAnalysisService]
                                  (services/speechToTextMoodAnalysisService.ts)
    - [VideoGenerationService]    (services/videoGenerationService.ts)

    JavaScript numbers are IEEE binary64 values, so they are embedded as
    Rocq's primitive floats; strings are byte strings (the UTF-8 encoding of
    the JavaScript string); a value that may be [null] or [undefined] is an
    [option].  Calls to [logInfo] and [logError] only write to the log and
    are left out. *)

From Stdlib Require Import List String Ascii Bool Arith ZArith Lia.
From Stdlib.Strings Require Import Byte.
From Stdlib Require Import PrimFloat DecimalString.
From Stdlib Require FloatAxioms SpecFloat FloatOps.
Import ListNotations.
Open Scope string_scope.

Set Implicit Arguments.
Set Warnings "-inexact-float".

(** ** JavaScript values *)

Definition number := float.

(** [!s] for a string: only the empty string is falsy. *)
Definition truthy_string (s : string) : bool :=
  match s with
  | EmptyString => false
  | String _ _ => true
  end.

(** Truthiness of a [string | undefined] value. *)
Definition truthy_ostring (s : option string) : bool :=
  match s with
  | Some s => truthy_string s
  | None => false
  end.

(** Truthiness of a number: [0], [-0] and [NaN] are falsy. *)
Definition truthy_number (x : number) : bool :=
  negb (PrimFloat.eqb x 0%float) && PrimFloat.eqb x x.

(** [a || b] on numbers. *)
Definition or_number (a b : number) : number :=
  if truthy_number a then a else b.

(** [Array.prototype.includes] and [Array.prototype.some] on string arrays. *)
Definition includes (l : list string) (s : string) : bool :=
  existsb (String.eqb s) l.

(** An exception value: [new Error(message)] or a runtime [TypeError]. *)
Record JsError : Type := mkError { message : string }.

(** Outcome of synchronous code that may throw. *)
Inductive Result (A : Type) : Type :=
| Ok (a : A)
| Throw (e : JsError).
Arguments Ok {A} a.
Arguments Throw {A} e.

Definition try_catch_sync {A} (body : Result A) (handler : JsError -> Result A)
  : Result A :=
  match body with
  | Ok a => Ok a
  | Throw e => handler e
  end.

(** ** The shared data model (common/src) *)

Module Emotion.
Record t : Type := mk {
  name : string;
  intensity : number;
  confidence : number
}.
End Emotion.

Record MoodAnalysis : Type := mkMoodAnalysis {
  overall_mood : string;
  confidence_score : number;
  emotions : list Emotion.t;
  sentiment_score : number;
  key_themes : list string;
  risk_indicators : list string;
  recommendations : list string
}.

(** ** services/templateSelectorService.ts *)

Module TemplateSelectorService.

Record TemplateSuggestion : Type := mkSuggestion {
  templateId : string;
  confidence : number;
  reasoning : string;
  fallbackUsed : bool
}.

Record TemplateMetadata : Type := mkTemplateMetadata {
  mood_profile : option (list string);
  intensity_level : option string;
  therapeutic_focus : option (list string);
  preview_url : option string
}.

Record Template : Type := mkTemplate {
  id : string;
  template_name : string;
  description : string;
  category : string;
  avatar_url : string;
  voice_id : string;
  is_active : bool;
  metadata : option TemplateMetadata
}.

Definition defaultTemplateId : string := "default-therapist".

Inductive IntensityLevel : Type := low | medium | high.

Definition IntensityLevel_eqb (a b : IntensityLevel) : bool :=
  match a, b with
  | low, low | medium, medium | high, high => true
  | _, _ => false
  end.

Record SelectionFactors : Type := mkFactors {
  overallMood : string;
  confidenceScore : number;
  sentimentScore : number;
  primaryEmotion : string;
  intensityLevel : IntensityLevel;
  riskIndicators : nat;
  keyThemes : list string
}.

(** [emotions.reduce((prev, current) => current.intensity > prev.intensity ?
    current : prev)]: without an initial value the first element seeds the
    accumulator. *)
Definition getPrimaryEmotion (emotions : list Emotion.t) : string :=
  match emotions with
  | [] => "neutral"
  | first :: rest =>
      Emotion.name
        (fold_left
              (fun prev current =>
                 if PrimFloat.ltb (Emotion.intensity prev)
                      (Emotion.intensity current)
                 then current else prev)
              rest first)
  end.

Definition calculateIntensityLevel (moodAnalysis : MoodAnalysis)
  : IntensityLevel :=
  let avgIntensity :=
    ((confidence_score moodAnalysis
      + PrimFloat.abs (sentiment_score moodAnalysis)) / 2)%float in
  if PrimFloat.ltb avgIntensity 0.3%float then low
  else if PrimFloat.ltb avgIntensity 0.7%float then medium
  else high.

Definition extractSelectionFactors (moodAnalysis : MoodAnalysis)
  : SelectionFactors :=
  {| overallMood := overall_mood moodAnalysis;
     confidenceScore := confidence_score moodAnalysis;
     sentimentScore := sentiment_score moodAnalysis;
     primaryEmotion := getPrimaryEmotion (emotions moodAnalysis);
     intensityLevel := calculateIntensityLevel moodAnalysis;
     riskIndicators := List.length (risk_indicators moodAnalysis);
     keyThemes := key_themes moodAnalysis |}.

Definition someTheme (factors : SelectionFactors) (vocabulary : list string)
  : bool :=
  existsb (fun theme => includes vocabulary theme) (keyThemes factors).

Definition suggestion (templateId : string) (confidence : number)
    (reasoning : string) : TemplateSuggestion :=
  {| templateId := templateId; confidence := confidence;
     reasoning := reasoning; fallbackUsed := false |}.

Definition applySelectionLogic (factors : SelectionFactors)
  : TemplateSuggestion :=
  if (0 <? riskIndicators factors)%nat then
    suggestion "crisis-support-therapist" 0.95%float
      "Risk indicators detected - using crisis support template"
  else if (overallMood factors =? "positive")
          && PrimFloat.ltb 0.6%float (sentimentScore factors)
          && includes ["joy"; "excitement"; "happiness"]
               (primaryEmotion factors) then
    suggestion "motivational-coach" 0.85%float
      "High positive sentiment with joy - using motivational coach template"
  else if (overallMood factors =? "negative")
          && PrimFloat.ltb (sentimentScore factors) (-0.6)%float
          && includes ["sadness"; "anxiety"; "stress"]
               (primaryEmotion factors) then
    suggestion "empathetic-therapist" 0.90%float
      "High negative sentiment with distress - using empathetic therapist template"
  else if (overallMood factors =? "negative")
          && PrimFloat.ltb (sentimentScore factors) (-0.2)%float then
    suggestion "supportive-counselor" 0.80%float
      "Moderate negative sentiment - using supportive counselor template"
  else if (overallMood factors =? "neutral")
          && IntensityLevel_eqb (intensityLevel factors) low then
    suggestion "life-coach" 0.75%float
      "Neutral mood with low intensity - using life coach template"
  else if someTheme factors ["work"; "career"; "professional"] then
    suggestion "career-counselor" 0.85%float
      "Work-related themes detected - using career counselor template"
  else if someTheme factors ["family"; "relationship"; "marriage"] then
    suggestion "family-therapist" 0.85%float
      "Family-related themes detected - using family therapist template"
  else if someTheme factors ["health"; "wellness"; "fitness"] then
    suggestion "wellness-coach" 0.80%float
      "Health-related themes detected - using wellness coach template"
  else
    suggestion "general-therapist" 0.70%float
      "General mood profile - using general therapist template".

(** The body of the [try] block.  Reading a property of [null] or
    [undefined] raises a [TypeError]; this happens at the first access,
    [moodAnalysis.overall_mood]. *)
Definition suggestTemplate_body (moodAnalysis : option MoodAnalysis)
  : Result TemplateSuggestion :=
  match moodAnalysis with
  | None =>
      Throw (mkError "Cannot read properties of null (reading 'overall_mood')")
  | Some moodAnalysis =>
      let factors := extractSelectionFactors moodAnalysis in
      Ok (applySelectionLogic factors)
  end.

Definition defaultSuggestion : TemplateSuggestion :=
  {| templateId := defaultTemplateId;
     confidence := 0.0%float;
     reasoning := "Default template used due to analysis error";
     fallbackUsed := true |}.

Definition suggestTemplate (moodAnalysis : option MoodAnalysis)
  : Result TemplateSuggestion :=
  try_catch_sync (suggestTemplate_body moodAnalysis)
    (fun _ => Ok defaultSuggestion).

(** The function is [async] but awaits nothing; its value is the resolved
    boolean.  An array is always truthy, so [!availableTemplates] never
    fires on a list. *)
Definition validateTemplateId (templateId : string)
    (availableTemplates : list Template) : bool :=
  if negb (truthy_string templateId) then false
  else existsb (fun template => (id template =? templateId) && is_active template)
         availableTemplates.

Definition getFallbackTemplateId (availableTemplates : list Template)
  : string :=
  match find (fun template => is_active template && (category template =? "general"))
          availableTemplates with
  | Some generalTemplate => id generalTemplate
  | None =>
      match find (fun template => is_active template) availableTemplates with
      | Some firstActiveTemplate => id firstActiveTemplate
      | None => defaultTemplateId
      end
  end.

(** The rule table in the words of the design: an ordered list of
    conditions with their outcomes, read top to bottom, the first match
    winning, and the general template when nothing matches. *)
Definition ruleTable : list ((SelectionFactors -> bool) * TemplateSuggestion) :=
  [ (fun f => (0 <? riskIndicators f)%nat,
     suggestion "crisis-support-therapist" 0.95%float
       "Risk indicators detected - using crisis support template");
    (fun f => (overallMood f =? "positive")
              && PrimFloat.ltb 0.6%float (sentimentScore f)
              && includes ["joy"; "excitement"; "happiness"] (primaryEmotion f),
     suggestion "motivational-coach" 0.85%float
       "High positive sentiment with joy - using motivational coach template");
    (fun f => (overallMood f =? "negative")
              && PrimFloat.ltb (sentimentScore f) (-0.6)%float
              && includes ["sadness"; "anxiety"; "stress"] (primaryEmotion f),
     suggestion "empathetic-therapist" 0.90%float
       "High negative sentiment with distress - using empathetic therapist template");
    (fun f => (overallMood f =? "negative")
              && PrimFloat.ltb (sentimentScore f) (-0.2)%float,
     suggestion "supportive-counselor" 0.80%float
       "Moderate negative sentiment - using supportive counselor template");
    (fun f => (overallMood f =? "neutral")
              && IntensityLevel_eqb (intensityLevel f) low,
     suggestion "life-coach" 0.75%float
       "Neutral mood with low intensity - using life coach template");
    (fun f => someTheme f ["work"; "career"; "professional"],
     suggestion "career-counselor" 0.85%float
       "Work-related themes detected - using career counselor template");
    (fun f => someTheme f ["family"; "relationship"; "marriage"],
     suggestion "family-therapist" 0.85%float
       "Family-related themes detected - using family therapist template");
    (fun f => someTheme f ["health"; "wellness"; "fitness"],
     suggestion "wellness-coach" 0.80%float
       "Health-related themes detected - using wellness coach template") ].

Definition generalSuggestion : TemplateSuggestion :=
  suggestion "general-therapist" 0.70%float
    "General mood profile - using general therapist template".

Fixpoint firstMatch
    (rules : list ((SelectionFactors -> bool) * TemplateSuggestion))
    (otherwise : TemplateSuggestion) (factors : SelectionFactors)
  : TemplateSuggestion :=
  match rules with
  | [] => otherwise
  | (condition, outcome) :: rest =>
      if condition factors then outcome
      else firstMatch rest otherwise factors
  end.

End TemplateSelectorService.


(** ** Asynchronous code

    An [async] function is a computation over the trace of the effects it
    has performed so far.  Awaiting a rejected promise throws; a [throw]
    keeps every effect performed before it. *)

Definition M (S A : Type) : Type := S -> Result A * S.

Definition ret {S A} (a : A) : M S A := fun s => (Ok a, s).

Definition throw {S A} (e : JsError) : M S A := fun s => (Throw e, s).

Definition bind {S A B} (m : M S A) (k : A -> M S B) : M S B :=
  fun s =>
    match m s with
    | (Ok a, s') => k a s'
    | (Throw e, s') => (Throw e, s')
    end.

Definition try_catch {S A} (body : M S A) (handler : JsError -> M S A)
  : M S A :=
  fun s =>
    match body s with
    | (Ok a, s') => (Ok a, s')
    | (Throw e, s') => handler e s'
    end.

(** [await p] for a promise that is already settled. *)
Definition await {S A} (p : Result A) : M S A := fun s => (p, s).

Declare Scope async_scope.
Delimit Scope async_scope with async.
Notation "x <- m ;; k" := (bind m (fun x => k))
  (at level 61, m at next level, right associativity) : async_scope.
Notation "m ;; k" := (bind m (fun _ => k))
  (at level 61, right associativity) : async_scope.

(** Template-literal interpolation of a non-negative integer. *)
Definition show_nat (n : nat) : string :=
  NilZero.string_of_uint (Nat.to_uint n).

Definition show_N (n : N) : string :=
  NilZero.string_of_uint (N.to_uint n).

(** [String.prototype.includes]. *)
Definition string_includes (haystack needle : string) : bool :=
  match String.index 0 needle haystack with
  | Some _ => true
  | None => false
  end.

(** ** services/speechToTextMoodAnalysisService.ts *)

Module SpeechToTextMoodAnalysisService.

(** API response types.  A field the JSON body may lack is an [option]. *)

Module ElevenLabsTranscriptionResponse.
Record t : Type := mk {
  text : option string;
  confidence : number;
  language : option string
}.
End ElevenLabsTranscriptionResponse.

Module ElevenLabsSentimentResponse.
Record emotion : Type := mkEmotion {
  name : string;
  intensity : number
}.
Record t : Type := mk {
  sentiment : string;
  confidence : number;
  emotions : option (list emotion)
}.
End ElevenLabsSentimentResponse.

Module GoogleAITranscriptionResponse.
Record alternative : Type := mkAlternative {
  transcript : string;
  confidence : number
}.
Record result : Type := mkResult {
  alternatives : list alternative
}.
Record t : Type := mk {
  results : option (list result);
  languageCode : option string
}.
End GoogleAITranscriptionResponse.

Module GoogleAISentimentResponse.
Record sentiment : Type := mkSentiment {
  score : number;
  magnitude : number
}.
Record sentence : Type := mkSentence {
  content : string;
  sentence_sentiment : sentiment
}.
Record t : Type := mk {
  documentSentiment : sentiment;
  sentences : list sentence
}.
End GoogleAISentimentResponse.

(** What each provider adapter hands back to [analyzeAudio]. *)
Module ProviderResult.
Record t : Type := mk {
  transcript : string;
  moodAnalysis : MoodAnalysis;
  confidence : number
}.
End ProviderResult.

Module AnalysisResult.
Record metadata_t : Type := mkMetadata {
  retryCount : nat;
  fallbackUsed : bool;
  neutralFallbackApplied : bool;
  languageOverride : bool
}.
Record t : Type := mk {
  transcript : string;
  language : string;
  moodAnalysis : MoodAnalysis;
  confidence : number;
  apiUsed : string;
  processingTime : Z;
  metadata : metadata_t
}.
End AnalysisResult.

(** The [Response] object a resolved [fetch] yields; [json] is the settled
    outcome of [response.json()], [None] standing for a [null] body. *)
Record HttpResponse (T : Type) : Type := mkResponse {
  ok : bool;
  status : nat;
  json : Result (option T)
}.

Inductive Endpoint : Type :=
| ElevenLabsSpeechToText
| ElevenLabsSentimentAnalysis
| GoogleSpeechRecognize
| GoogleAnalyzeSentiment.

Definition url (e : Endpoint) : string :=
  match e with
  | ElevenLabsSpeechToText => "https://api.elevenlabs.io/v1/speech-to-text"
  | ElevenLabsSentimentAnalysis =>
      "https://api.elevenlabs.io/v1/sentiment-analysis"
  | GoogleSpeechRecognize =>
      "https://speech.googleapis.com/v1/speech:recognize"
  | GoogleAnalyzeSentiment =>
      "https://language.googleapis.com/v1/documents:analyzeSentiment"
  end.

Definition Endpoint_eqb (a b : Endpoint) : bool :=
  match a, b with
  | ElevenLabsSpeechToText, ElevenLabsSpeechToText
  | ElevenLabsSentimentAnalysis, ElevenLabsSentimentAnalysis
  | GoogleSpeechRecognize, GoogleSpeechRecognize
  | GoogleAnalyzeSentiment, GoogleAnalyzeSentiment => true
  | _, _ => false
  end.

(** The observable effects of the service, in the order they happen. *)
Inductive Event : Type :=
| Now
| Fetch (endpoint : Endpoint)
| Delay (ms : Z).

Definition Trace : Type := list Event.

Definition is_fetch (endpoint : Endpoint) (ev : Event) : bool :=
  match ev with
  | Fetch e => Endpoint_eqb e endpoint
  | _ => false
  end.

Definition is_now (ev : Event) : bool :=
  match ev with
  | Now => true
  | _ => false
  end.

(** How many times an endpoint has been called so far. *)
Definition calls (endpoint : Endpoint) (tr : Trace) : nat :=
  List.length (filter (is_fetch endpoint) tr).

(** The delays slept so far, in order. *)
Fixpoint delays (tr : Trace) : list Z :=
  match tr with
  | [] => []
  | Delay ms :: tr' => ms :: delays tr'
  | _ :: tr' => delays tr'
  end.

(** Everything the service does not define itself: its configuration, the
    clock, the four remote endpoints (the n-th call to an endpoint gets the
    n-th answer) and the two Unicode-aware string built-ins it uses. *)
Record World : Type := mkWorld {
  ELEVENLABS_API_KEY : string;
  GOOGLE_AI_STUDIO_API_KEY : string;
  clock : nat -> Z;
  elevenLabsSpeechToText :
    nat -> list byte ->
    Result (HttpResponse ElevenLabsTranscriptionResponse.t);
  elevenLabsSentimentAnalysis :
    nat -> string -> Result (HttpResponse ElevenLabsSentimentResponse.t);
  googleSpeechRecognize :
    nat -> list byte -> Result (HttpResponse GoogleAITranscriptionResponse.t);
  googleAnalyzeSentiment :
    nat -> string -> Result (HttpResponse GoogleAISentimentResponse.t);
  toLowerCase : string -> string;
  splitWhitespace : string -> list string
}.

Definition maxRetries : nat := 2.
Definition retryDelayMs : Z := 1000.

Section Service.

Variable w : World.

Local Open Scope async_scope.

Definition Async (A : Type) : Type := M Trace A.

Definition emit (ev : Event) : Async unit :=
  fun tr => (Ok tt, (tr ++ [ev])%list).

(** [Date.now()]. *)
Definition now : Async Z :=
  fun tr => (Ok (clock w (List.length (filter is_now tr))), (tr ++ [Now])%list).

(** [await fetch(url, ...)]. *)
Definition fetch {T} (endpoint : Endpoint)
    (answer : nat -> Result (HttpResponse T)) : Async (HttpResponse T) :=
  fun tr => (answer (calls endpoint tr), (tr ++ [Fetch endpoint])%list).

Definition delay (ms : Z) : Async unit := emit (Delay ms).

Definition callElevenLabsTranscription (audioBuffer : list byte)
  : Async (option ElevenLabsTranscriptionResponse.t) :=
  try_catch
    (response <- fetch ElevenLabsSpeechToText
                   (fun n => elevenLabsSpeechToText w n audioBuffer) ;;
     if negb (ok response) then
       throw (mkError ("ElevenLabs transcription failed: "
                       ++ show_nat (status response)))
     else
       data <- await (json response) ;;
       ret data)
    (fun error => ret None).

Definition callElevenLabsSentiment (text : string)
  : Async (option ElevenLabsSentimentResponse.t) :=
  try_catch
    (response <- fetch ElevenLabsSentimentAnalysis
                   (fun n => elevenLabsSentimentAnalysis w n text) ;;
     if negb (ok response) then
       throw (mkError ("ElevenLabs sentiment analysis failed: "
                       ++ show_nat (status response)))
     else
       data <- await (json response) ;;
       ret data)
    (fun error => ret None).

Definition callGoogleAITranscription (audioBuffer : list byte)
  : Async (option GoogleAITranscriptionResponse.t) :=
  try_catch
    (response <- fetch GoogleSpeechRecognize
                   (fun n => googleSpeechRecognize w n audioBuffer) ;;
     if negb (ok response) then
       throw (mkError ("Google AI transcription failed: "
                       ++ show_nat (status response)))
     else
       data <- await (json response) ;;
       ret data)
    (fun error => ret None).

Definition callGoogleAISentiment (text : string)
  : Async (option GoogleAISentimentResponse.t) :=
  try_catch
    (response <- fetch GoogleAnalyzeSentiment
                   (fun n => googleAnalyzeSentiment w n text) ;;
     if negb (ok response) then
       throw (mkError ("Google AI sentiment analysis failed: "
                       ++ show_nat (status response)))
     else
       data <- await (json response) ;;
       ret data)
    (fun error => ret None).

(** [hebrewPattern.test(text)], the pattern being the code points U+0590
    to U+05FF, on the UTF-8 bytes: the Hebrew block is
    the two-byte sequences D6 90..BF and D7 80..BF. *)
Fixpoint hebrewPattern_test (text : string) : bool :=
  match text with
  | EmptyString => false
  | String c rest =>
      match rest with
      | String d _ =>
          let c := nat_of_ascii c in
          let d := nat_of_ascii d in
          ((c =? 214)%nat && (144 <=? d)%nat && (d <=? 191)%nat)
          || ((c =? 215)%nat && (128 <=? d)%nat && (d <=? 191)%nat)
          || hebrewPattern_test rest
      | EmptyString => false
      end
  end.

(** [/[a-zA-Z]/.test(text)]. *)
Fixpoint englishPattern_test (text : string) : bool :=
  match text with
  | EmptyString => false
  | String c rest =>
      let c := nat_of_ascii c in
      ((97 <=? c)%nat && (c <=? 122)%nat)
      || ((65 <=? c)%nat && (c <=? 90)%nat)
      || englishPattern_test rest
  end.

Definition detectLanguage (text : string) : string :=
  if hebrewPattern_test text then "hebrew"
  else if englishPattern_test text then "english"
  else "unknown".

Definition mapSentimentToScore (sentiment : string) : number :=
  if sentiment =? "positive" then 0.8%float
  else if sentiment =? "negative" then (-0.8)%float
  else if sentiment =? "neutral" then 0.0%float
  else 0.0%float.

Definition mapGoogleSentimentToMood (score : number) : string :=
  if PrimFloat.ltb 0.1%float score then "positive"
  else if PrimFloat.ltb score (-0.1)%float then "negative"
  else "neutral".

Definition mapGoogleSentimentToEmotions
    (documentSentiment : GoogleAISentimentResponse.sentiment)
  : list Emotion.t :=
  let score := GoogleAISentimentResponse.score documentSentiment in
  if PrimFloat.ltb 0.3%float score then
    [Emotion.mk "joy" score 0.8%float]
  else if PrimFloat.ltb score (-0.3)%float then
    [Emotion.mk "sadness" (PrimFloat.abs score) 0.8%float]
  else
    [Emotion.mk "neutral" 0.5%float 0.6%float].

Definition extractKeyThemes (text : string) : list string :=
  let words := splitWhitespace w (toLowerCase w text) in
  let commonThemes :=
    ["work"; "family"; "health"; "stress"; "happiness"; "anxiety";
     "success"; "failure"] in
  firstn 3
    (filter (fun theme => existsb (fun word => string_includes word theme) words)
       commonThemes).

Definition detectRiskIndicators (text : string) : list string :=
  let riskKeywords :=
    ["suicide"; "harm"; "danger"; "hopeless"; "worthless"] in
  let lowerText := toLowerCase w text in
  filter (fun keyword => string_includes lowerText keyword) riskKeywords.

Definition generateRecommendations (mood : string) (emotions : list Emotion.t)
  : list string :=
  let recommendations :=
    if mood =? "positive" then
      ["Continue with current positive practices";
       "Share your positive experiences with others"]
    else if mood =? "negative" then
      ["Consider speaking with a mental health professional";
       "Practice self-care and stress management techniques"]
    else if mood =? "neutral" then
      ["Explore activities that bring you joy";
       "Consider setting new goals or challenges"]
    else [] in
  firstn 3 recommendations.

Definition applyNeutralFallback (moodAnalysis : MoodAnalysis) : MoodAnalysis :=
  {| overall_mood := "neutral";
     confidence_score := 0.5%float;
     emotions := [Emotion.mk "neutral" 0.5%float 0.5%float];
     sentiment_score := 0.0%float;
     key_themes := key_themes moodAnalysis;
     risk_indicators := risk_indicators moodAnalysis;
     recommendations :=
       ["Consider re-recording with clearer audio";
        "Try speaking more slowly and clearly"] |}.

Definition createNeutralMoodAnalysis : MoodAnalysis :=
  {| overall_mood := "neutral";
     confidence_score := 0.0%float;
     emotions := [Emotion.mk "neutral" 0.5%float 0.0%float];
     sentiment_score := 0.0%float;
     key_themes := [];
     risk_indicators := [];
     recommendations :=
       ["Unable to analyze audio. Please try re-recording with clearer audio."] |}.

Definition elevenLabsEmotions
    (sentiment : ElevenLabsSentimentResponse.t)
    (reported : list ElevenLabsSentimentResponse.emotion) : list Emotion.t :=
  map (fun emotion =>
         Emotion.mk (ElevenLabsSentimentResponse.name emotion)
           (ElevenLabsSentimentResponse.intensity emotion)
           (ElevenLabsSentimentResponse.confidence sentiment))
    reported.

(** The [moodAnalysis] object literal of [tryElevenLabsAnalysis]. *)
Definition elevenLabsMoodAnalysis (text : string)
    (sentiment : ElevenLabsSentimentResponse.t)
    (reported : list ElevenLabsSentimentResponse.emotion) : MoodAnalysis :=
  let mood := ElevenLabsSentimentResponse.sentiment sentiment in
  {| overall_mood := mood;
     confidence_score := ElevenLabsSentimentResponse.confidence sentiment;
     emotions := elevenLabsEmotions sentiment reported;
     sentiment_score := mapSentimentToScore mood;
     key_themes := extractKeyThemes text;
     risk_indicators := detectRiskIndicators text;
     recommendations :=
       generateRecommendations mood (elevenLabsEmotions sentiment reported) |}.

(** One pass through the body of the [try] block of
    [tryElevenLabsAnalysis]: it either returns the adapter's result or
    throws.  [sentiment.emotions.map] throws when the response has no
    [emotions]. *)
Definition elevenLabsAttempt (audioBuffer : list byte)
  : Async ProviderResult.t :=
  let noTranscript := mkError "No transcript received from ElevenLabs" in
  transcription <- callElevenLabsTranscription audioBuffer ;;
  match transcription with
  | None => throw noTranscript
  | Some transcription =>
      match ElevenLabsTranscriptionResponse.text transcription with
      | None => throw noTranscript
      | Some text =>
          if negb (truthy_string text) then throw noTranscript
          else
            sentiment <- callElevenLabsSentiment text ;;
            match sentiment with
            | None =>
                throw (mkError "No sentiment analysis received from ElevenLabs")
            | Some sentiment =>
                match ElevenLabsSentimentResponse.emotions sentiment with
                | None =>
                    throw (mkError
                      "Cannot read properties of undefined (reading 'map')")
                | Some reported =>
                    let moodAnalysis :=
                      elevenLabsMoodAnalysis text sentiment reported in
                    ret (ProviderResult.mk text moodAnalysis
                           (ElevenLabsTranscriptionResponse.confidence
                              transcription))
                end
            end
      end
  end.

(** [for (let attempt = ...; attempt <= this.maxRetries; attempt++)] with
    [remaining] iterations still to run.  The [try] body returns from the
    function; the [catch] block sleeps, unless this was the last attempt,
    and the loop goes on. *)
Fixpoint elevenLabsLoop (audioBuffer : list byte) (remaining attempt : nat)
  : Async (option ProviderResult.t) :=
  match remaining with
  | O => ret None
  | S remaining' =>
      try_catch
        (result <- elevenLabsAttempt audioBuffer ;; ret (Some result))
        (fun error =>
           (if (attempt <? maxRetries)%nat
            then delay (retryDelayMs * 2 ^ Z.of_nat attempt)
            else ret tt) ;;
           elevenLabsLoop audioBuffer remaining' (S attempt))
  end.

Definition tryElevenLabsAnalysis (audioBuffer : list byte) (retryCount : nat)
  : Async (option ProviderResult.t) :=
  if negb (truthy_string (ELEVENLABS_API_KEY w)) then ret None
  else elevenLabsLoop audioBuffer (maxRetries + 1) 0.

(** [results.map(result => result.alternatives[0]?.transcript)
            .filter(Boolean).join(' ')]. *)
Definition googleTranscript
    (results : list GoogleAITranscriptionResponse.result) : string :=
  let firsts :=
    map (fun result =>
           option_map GoogleAITranscriptionResponse.transcript
             (hd_error (GoogleAITranscriptionResponse.alternatives result)))
      results in
  String.concat " "
    (map (fun t => match t with Some t => t | None => "" end)
       (filter truthy_ostring firsts)).

(** [transcription.results[0]?.alternatives[0]?.confidence || 0.5]. *)
Definition googleConfidence
    (results : list GoogleAITranscriptionResponse.result) : number :=
  match hd_error results with
  | None => 0.5%float
  | Some first =>
      match hd_error (GoogleAITranscriptionResponse.alternatives first) with
      | None => 0.5%float
      | Some alternative =>
          or_number (GoogleAITranscriptionResponse.confidence alternative)
            0.5%float
      end
  end.

(** The [moodAnalysis] object literal of [tryGoogleAIAnalysis]. *)
Definition googleMoodAnalysis (transcript : string)
    (sentiment : GoogleAISentimentResponse.t) : MoodAnalysis :=
  let documentSentiment :=
    GoogleAISentimentResponse.documentSentiment sentiment in
  let score := GoogleAISentimentResponse.score documentSentiment in
  {| overall_mood := mapGoogleSentimentToMood score;
     confidence_score := PrimFloat.abs score;
     emotions := mapGoogleSentimentToEmotions documentSentiment;
     sentiment_score := score;
     key_themes := extractKeyThemes transcript;
     risk_indicators := detectRiskIndicators transcript;
     recommendations :=
       generateRecommendations (mapGoogleSentimentToMood score)
         (mapGoogleSentimentToEmotions documentSentiment) |}.

Definition googleAttempt (audioBuffer : list byte) : Async ProviderResult.t :=
  let noTranscript := mkError "No transcript received from Google AI" in
  transcription <- callGoogleAITranscription audioBuffer ;;
  match transcription with
  | None => throw noTranscript
  | Some transcription =>
      match GoogleAITranscriptionResponse.results transcription with
      | None => throw noTranscript
      | Some results =>
          if (List.length results =? 0)%nat then throw noTranscript
          else
            let transcript := googleTranscript results in
            if negb (truthy_string transcript) then
              throw (mkError "Empty transcript from Google AI")
            else
              sentiment <- callGoogleAISentiment transcript ;;
              match sentiment with
              | None =>
                  throw (mkError
                    "No sentiment analysis received from Google AI")
              | Some sentiment =>
                  let moodAnalysis := googleMoodAnalysis transcript sentiment in
                  let confidence := googleConfidence results in
                  ret (ProviderResult.mk transcript moodAnalysis confidence)
              end
      end
  end.

Fixpoint googleLoop (audioBuffer : list byte) (remaining attempt : nat)
  : Async (option ProviderResult.t) :=
  match remaining with
  | O => ret None
  | S remaining' =>
      try_catch
        (result <- googleAttempt audioBuffer ;; ret (Some result))
        (fun error =>
           (if (attempt <? maxRetries)%nat
            then delay (retryDelayMs * 2 ^ Z.of_nat attempt)
            else ret tt) ;;
           googleLoop audioBuffer remaining' (S attempt))
  end.

Definition tryGoogleAIAnalysis (audioBuffer : list byte) (retryCount : nat)
  : Async (option ProviderResult.t) :=
  if negb (truthy_string (GOOGLE_AI_STUDIO_API_KEY w)) then ret None
  else googleLoop audioBuffer (maxRetries + 1) 0.

(** The first half of the [try] block of [analyzeAudio]: ElevenLabs, then
    Google AI Studio when ElevenLabs gave nothing.  The boolean is
    [fallbackUsed]. *)
Definition runProviders (audioBuffer : list byte) (retryCount : nat)
  : Async (bool * option ProviderResult.t) :=
  result <- tryElevenLabsAnalysis audioBuffer retryCount ;;
  match result with
  | Some _ => ret (false, result)
  | None =>
      result <- tryGoogleAIAnalysis audioBuffer retryCount ;;
      ret (true, result)
  end.

Definition analyzeAudio (audioBuffer : list byte)
    (originalLanguage : option string) : Async AnalysisResult.t :=
  startTime <- now ;;
  let retryCount := 0 in
  try_catch
    (providers <- runProviders audioBuffer retryCount ;;
     let fallbackUsed := fst providers in
     match snd providers with
     | None => throw (mkError "All API providers failed")
     | Some result =>
         let detectedLanguage :=
           detectLanguage (ProviderResult.transcript result) in
         let languageOverride :=
           match originalLanguage with
           | Some originalLanguage =>
               truthy_string originalLanguage
               && negb (originalLanguage =? "unknown")
               && negb (detectedLanguage =? originalLanguage)
           | None => false
           end in
         let neutralFallbackApplied :=
           PrimFloat.ltb (ProviderResult.confidence result) 0.6%float in
         let moodAnalysis :=
           if neutralFallbackApplied
           then applyNeutralFallback (ProviderResult.moodAnalysis result)
           else ProviderResult.moodAnalysis result in
         endTime <- now ;;
         let processingTime := (endTime - startTime)%Z in
         ret {| AnalysisResult.transcript := ProviderResult.transcript result;
                AnalysisResult.language := detectedLanguage;
                AnalysisResult.moodAnalysis := moodAnalysis;
                AnalysisResult.confidence := ProviderResult.confidence result;
                AnalysisResult.apiUsed :=
                  if fallbackUsed then "google" else "elevenlabs";
                AnalysisResult.processingTime := processingTime;
                AnalysisResult.metadata :=
                  {| AnalysisResult.retryCount := retryCount;
                     AnalysisResult.fallbackUsed := fallbackUsed;
                     AnalysisResult.neutralFallbackApplied :=
                       neutralFallbackApplied;
                     AnalysisResult.languageOverride := languageOverride |} |}
     end)
    (fun error =>
       endTime <- now ;;
       ret {| AnalysisResult.transcript := "";
              AnalysisResult.language := "unknown";
              AnalysisResult.moodAnalysis := createNeutralMoodAnalysis;
              AnalysisResult.confidence := 0%float;
              AnalysisResult.apiUsed := "fallback";
              AnalysisResult.processingTime := (endTime - startTime)%Z;
              AnalysisResult.metadata :=
                {| AnalysisResult.retryCount := retryCount;
                   AnalysisResult.fallbackUsed := true;
                   AnalysisResult.neutralFallbackApplied := true;
                   AnalysisResult.languageOverride := false |} |}).

End Service.

(** The retry loop the two adapters have in common, over any attempt
    body; [elevenLabsLoop] and [googleLoop] are its two instances. *)
Fixpoint retryLoop (attemptBody : Async ProviderResult.t)
    (remaining attempt : nat) : Async (option ProviderResult.t) :=
  match remaining with
  | O => ret None
  | S remaining' =>
      try_catch
        (bind attemptBody (fun result => ret (Some result)))
        (fun error =>
           bind (if (attempt <? maxRetries)%nat
                 then delay (retryDelayMs * 2 ^ Z.of_nat attempt)
                 else ret tt)
             (fun _ => retryLoop attemptBody remaining' (S attempt)))
  end.

(** The retry policy in the words of the design: [n] attempts on one
    adapter, numbered from [attempt], each opening with a call to the
    adapter's transcription endpoint, and a wait of
    [retryDelayMs * 2^attemptIndex] between two consecutive attempts. *)
Fixpoint expectedSchedule (transcription : Endpoint) (attempt n : nat)
  : list Event :=
  match n with
  | O => []
  | S n' =>
      Fetch transcription ::
      match n' with
      | O => []
      | S _ =>
          Delay (retryDelayMs * 2 ^ Z.of_nat attempt)
          :: expectedSchedule transcription (S attempt) n'
      end
  end.

(** The attempts on an adapter and the waits, as they appear in a trace. *)
Definition attemptsAndDelays (transcription : Endpoint) (tr : Trace)
  : list Event :=
  filter (fun ev =>
            match ev with
            | Fetch e => Endpoint_eqb e transcription
            | Delay _ => true
            | Now => false
            end) tr.

(** The events an adapter with the given two endpoints may produce. *)
Definition adapterEvent (transcription sentiment : Endpoint) (ev : Event)
  : bool :=
  match ev with
  | Fetch e => Endpoint_eqb e transcription || Endpoint_eqb e sentiment
  | Delay _ => true
  | Now => false
  end.

(** What a result handed back by the ElevenLabs adapter rests on: a
    transcription response carrying its text and confidence, and a sentiment
    response for that text carrying the reported emotions. *)
Definition elevenLabsReported (w : World) (audioBuffer : list byte)
    (r : ProviderResult.t) : Prop :=
  exists n m response transcription response' sentiment reported,
    elevenLabsSpeechToText w n audioBuffer = Ok response
    /\ json response = Ok (Some transcription)
    /\ ElevenLabsTranscriptionResponse.text transcription
       = Some (ProviderResult.transcript r)
    /\ ProviderResult.confidence r
       = ElevenLabsTranscriptionResponse.confidence transcription
    /\ elevenLabsSentimentAnalysis w m (ProviderResult.transcript r)
       = Ok response'
    /\ json response' = Ok (Some sentiment)
    /\ ElevenLabsSentimentResponse.emotions sentiment = Some reported
    /\ ProviderResult.moodAnalysis r
       = elevenLabsMoodAnalysis w (ProviderResult.transcript r) sentiment
           reported.

(** The same for the Google adapter. *)
Definition googleReported (w : World) (audioBuffer : list byte)
    (r : ProviderResult.t) : Prop :=
  exists n m response transcription results response' sentiment,
    googleSpeechRecognize w n audioBuffer = Ok response
    /\ json response = Ok (Some transcription)
    /\ GoogleAITranscriptionResponse.results transcription = Some results
    /\ ProviderResult.transcript r = googleTranscript results
    /\ ProviderResult.confidence r = googleConfidence results
    /\ googleAnalyzeSentiment w m (ProviderResult.transcript r) = Ok response'
    /\ json response' = Ok (Some sentiment)
    /\ ProviderResult.moodAnalysis r
       = googleMoodAnalysis w (ProviderResult.transcript r) sentiment.

End SpeechToTextMoodAnalysisService.

(** ** Mutable local variables

    A function whose [catch] blocks read variables assigned inside the
    [try] keeps those variables next to the trace for the duration of the
    call. *)

Definition lift {S L A} (m : M S A) : M (S * L) A :=
  fun sl => let (r, s') := m (fst sl) in (r, (s', snd sl)).

Definition with_locals {S L A} (init : L) (m : M (S * L) A) : M S A :=
  fun s => let (r, sl) := m (s, init) in (r, fst sl).

Definition read {S L} : M (S * L) L := fun sl => (Ok (snd sl), sl).

Definition assign {S L} (update : L -> L) : M (S * L) unit :=
  fun sl => (Ok tt, (fst sl, update (snd sl))).

(** ** services/videoGenerationService.ts *)

Module VideoGenerationService.

Inductive VideoProvider : Type := D_ID | JOGG.

Inductive VideoStatus : Type := pending | processing | completed | failed.

Record PayloadTemplateMetadata : Type := mkPayloadTemplateMetadata {
  avatar_style : option string;
  voice_id : option string
}.

Record VideoGenerationPayload : Type := mkPayload {
  transcript : string;
  moodAnalysis : option MoodAnalysis;
  templateMetadata : option PayloadTemplateMetadata
}.

(** [response.data] of a provider call. *)
Record ProviderData : Type := mkProviderData {
  video_url : option string;
  download_url : option string
}.

Record VideoGenerationResult : Type := mkVideoResult {
  videoUrl : string;
  provider : VideoProvider;
  status : VideoStatus;
  errorMessage : option string;
  duration : option number;
  providerResponse : option ProviderData
}.

Record DIDRequest : Type := mkDIDRequest {
  script : string;
  did_mood : option MoodAnalysis;
  did_template : option PayloadTemplateMetadata
}.

Record AvatarSettings : Type := mkAvatarSettings {
  style : string;
  expression : string;
  voice_tone : number
}.

Record JOGGRequest : Type := mkJOGGRequest {
  text : string;
  jogg_mood : option MoodAnalysis;
  jogg_template : option PayloadTemplateMetadata;
  avatar_settings : AvatarSettings
}.

Definition VIDEO_GEN_TIMEOUT_MS : Z := 120000.
Definition STORAGE_RETRY_LIMIT : nat := 3.
Definition PROVIDER_RETRY_LIMIT : nat := 2.

Inductive Event : Type :=
| Now
| Post (provider : VideoProvider)
| Get (url : string)
| UploadBuffer (filePath : string).

Definition Trace : Type := list Event.

Definition is_now (ev : Event) : bool :=
  match ev with Now => true | _ => false end.

Definition is_post (p : VideoProvider) (ev : Event) : bool :=
  match ev, p with
  | Post D_ID, D_ID | Post JOGG, JOGG => true
  | _, _ => false
  end.

Definition is_get (ev : Event) : bool :=
  match ev with Get _ => true | _ => false end.

Definition is_upload (ev : Event) : bool :=
  match ev with UploadBuffer _ => true | _ => false end.

Definition count (p : Event -> bool) (tr : Trace) : nat :=
  List.length (filter p tr).

(** The collaborators: the clock, the two video providers behind
    [axios.post], the media download behind [axios.get] and the blob store
    behind [storageService.uploadBuffer].  The n-th call of a kind gets the
    n-th answer. *)
Record World : Type := mkWorld {
  clock : nat -> N;
  did_post : nat -> DIDRequest -> Result (option ProviderData);
  jogg_post : nat -> JOGGRequest -> Result (option ProviderData);
  axios_get : nat -> string -> Result (list byte);
  storage_uploadBuffer :
    nat -> list byte -> string -> string -> bool -> Result string
}.

(** The function's [let] variables. *)
Record Locals : Type := mkLocals {
  l_provider : VideoProvider;
  l_providerResponse : option ProviderData;
  l_videoUrl : option string;
  l_errorMessage : option string;
  l_status : VideoStatus
}.

Definition set_provider (v : VideoProvider) (l : Locals) : Locals :=
  mkLocals v (l_providerResponse l) (l_videoUrl l) (l_errorMessage l)
    (l_status l).

Definition set_providerResponse (v : option ProviderData) (l : Locals)
  : Locals :=
  mkLocals (l_provider l) v (l_videoUrl l) (l_errorMessage l) (l_status l).

Definition set_videoUrl (v : option string) (l : Locals) : Locals :=
  mkLocals (l_provider l) (l_providerResponse l) v (l_errorMessage l)
    (l_status l).

Definition set_errorMessage (v : option string) (l : Locals) : Locals :=
  mkLocals (l_provider l) (l_providerResponse l) (l_videoUrl l) v (l_status l).

Definition set_status (v : VideoStatus) (l : Locals) : Locals :=
  mkLocals (l_provider l) (l_providerResponse l) (l_videoUrl l)
    (l_errorMessage l) v.

(** [a || b] on [string | undefined] operands. *)
Definition or_ostring (a b : option string) : option string :=
  if truthy_ostring a then a else b.

Section Service.

Variable w : World.

Local Open Scope async_scope.

Definition Async (A : Type) : Type := M Trace A.

Definition now : Async N :=
  fun tr => (Ok (clock w (count is_now tr)), (tr ++ [Now])%list).

Definition post_DID (requestBody : DIDRequest)
  : Async (option ProviderData) :=
  fun tr =>
    (did_post w (count (is_post D_ID) tr) requestBody, (tr ++ [Post D_ID])%list).

Definition post_JOGG (requestBody : JOGGRequest)
  : Async (option ProviderData) :=
  fun tr =>
    (jogg_post w (count (is_post JOGG) tr) requestBody,
     (tr ++ [Post JOGG])%list).

Definition get (url : string) : Async (list byte) :=
  fun tr => (axios_get w (count is_get tr) url, (tr ++ [Get url])%list).

Definition uploadBuffer (buffer : list byte) (filePath contentType : string)
    (encrypt : bool) : Async string :=
  fun tr =>
    (storage_uploadBuffer w (count is_upload tr) buffer filePath contentType
       encrypt,
     (tr ++ [UploadBuffer filePath])%list).

Definition didRequestBody (payload : VideoGenerationPayload) : DIDRequest :=
  {| script := transcript payload;
     did_mood := moodAnalysis payload;
     did_template := templateMetadata payload |}.

(** [response.data?.video_url]. *)
Definition didVideoUrl (data : option ProviderData) : option string :=
  match data with
  | Some d => video_url d
  | None => None
  end.

Definition callDIDApi (payload : VideoGenerationPayload)
  : Async (option string * option ProviderData) :=
  let requestBody := didRequestBody payload in
  data <- post_DID requestBody ;;
  ret (didVideoUrl data, data).

Definition joggRequestBody (payload : VideoGenerationPayload) : JOGGRequest :=
  {| text := transcript payload;
     jogg_mood := moodAnalysis payload;
     jogg_template := templateMetadata payload;
     avatar_settings :=
       {| style :=
            match templateMetadata payload with
            | Some t =>
                match or_ostring (avatar_style t) (Some "professional") with
                | Some s => s
                | None => "professional"
                end
            | None => "professional"
            end;
          expression :=
            match moodAnalysis payload with
            | Some m =>
                if truthy_string (overall_mood m) then overall_mood m
                else "neutral"
            | None => "neutral"
            end;
          voice_tone :=
            match moodAnalysis payload with
            | Some m => or_number (sentiment_score m) 0%float
            | None => 0%float
            end |} |}.

(** [response.data?.video_url || response.data?.download_url]. *)
Definition joggVideoUrl (data : option ProviderData) : option string :=
  match data with
  | Some d => or_ostring (video_url d) (download_url d)
  | None => None
  end.

Definition callJOGGApi (payload : VideoGenerationPayload)
  : Async (option string * option ProviderData) :=
  let requestBody := joggRequestBody payload in
  data <- post_JOGG requestBody ;;
  ret (joggVideoUrl data, data).

(** One pass through the [try] block of [uploadVideoToStorage]. *)
Definition uploadAttempt (videoUrl userId dialogueId : string) : Async string :=
  videoBuffer <- get videoUrl ;;
  timestamp <- now ;;
  let fileName :=
    "videos/" ++ userId ++ "/" ++ dialogueId ++ "/" ++ show_N timestamp
    ++ "_avatar.mp4" in
  uploadedUrl <- uploadBuffer videoBuffer fileName "video/mp4" true ;;
  ret uploadedUrl.

(** The recursion of [uploadVideoToStorage], on the number of retries
    still allowed: [retry < STORAGE_RETRY_LIMIT] holds exactly when
    [STORAGE_RETRY_LIMIT - retry] is a successor. *)
Fixpoint uploadLoop (videoUrl userId dialogueId : string)
    (remaining retry : nat) : Async string :=
  try_catch
    (uploadAttempt videoUrl userId dialogueId)
    (fun error =>
       match remaining with
       | S remaining' =>
           uploadLoop videoUrl userId dialogueId remaining' (S retry)
       | O => throw error
       end).

Definition uploadVideoToStorage (videoUrl userId dialogueId : string)
    (retry : nat) : Async string :=
  uploadLoop videoUrl userId dialogueId (STORAGE_RETRY_LIMIT - retry) retry.

Definition AsyncL (A : Type) : Type := M (Trace * Locals) A.

(** The body of the provider loop; [true] stands for [break]. *)
Definition providerIteration (payload : VideoGenerationPayload) : AsyncL bool :=
  try_catch
    (didResult <- lift (callDIDApi payload) ;;
     assign (set_provider D_ID) ;;
     assign (set_providerResponse (snd didResult)) ;;
     assign (set_videoUrl (fst didResult)) ;;
     if negb (truthy_ostring (fst didResult)) then
       throw (mkError "D-ID API did not return a video URL")
     else
       assign (set_status processing) ;;
       ret true)
    (fun error =>
       assign (set_provider JOGG) ;;
       try_catch
         (joggResult <- lift (callJOGGApi payload) ;;
          assign (set_providerResponse (snd joggResult)) ;;
          assign (set_videoUrl (fst joggResult)) ;;
          if negb (truthy_ostring (fst joggResult)) then
            throw (mkError "JOGG API did not return a video URL")
          else
            assign (set_status processing) ;;
            ret true)
         (fun joggError =>
            assign (set_errorMessage (Some (message joggError))) ;;
            assign (set_status failed) ;;
            ret false)).

(** [for (let attempt = ...; attempt < PROVIDER_RETRY_LIMIT; attempt++)]
    with [remaining] iterations still to run. *)
Fixpoint providerLoop (payload : VideoGenerationPayload)
    (remaining attempt : nat) : AsyncL unit :=
  match remaining with
  | O => ret tt
  | S remaining' =>
      stop <- providerIteration payload ;;
      if stop then ret tt
      else providerLoop payload remaining' (S attempt)
  end.

Definition initialLocals : Locals :=
  {| l_provider := D_ID;
     l_providerResponse := None;
     l_videoUrl := Some "";
     l_errorMessage := None;
     l_status := failed |}.

(** The provider loop as [generateAvatarVideo] enters it. *)
Definition runProviderLoop (payload : VideoGenerationPayload) (tr : Trace)
  : Result unit * (Trace * Locals) :=
  providerLoop payload PROVIDER_RETRY_LIMIT 0 (tr, initialLocals).

Definition generateAvatarVideo (payload : VideoGenerationPayload)
    (userId dialogueId templateId videoId : string)
  : Async VideoGenerationResult :=
  with_locals initialLocals
    (providerLoop payload PROVIDER_RETRY_LIMIT 0 ;;
     l <- read ;;
     match l_videoUrl l with
     | Some (String _ _ as videoUrl) =>
         uploaded <-
           try_catch
             (storageUrl <- lift (uploadVideoToStorage videoUrl userId
                                    dialogueId 0) ;;
              assign (set_status completed) ;;
              ret (inl storageUrl))
             (fun storageError =>
                assign (set_errorMessage (Some (message storageError))) ;;
                assign (set_status failed) ;;
                l <- read ;;
                ret (inr {| videoUrl := "";
                            provider := l_provider l;
                            status := l_status l;
                            errorMessage := l_errorMessage l;
                            duration := None;
                            providerResponse := None |})) ;;
         match uploaded with
         | inr failure => ret failure
         | inl storageUrl =>
             l <- read ;;
             ret {| videoUrl := storageUrl;
                    provider := l_provider l;
                    status := l_status l;
                    errorMessage := l_errorMessage l;
                    duration := None;
                    providerResponse := l_providerResponse l |}
         end
     | _ =>
         let errorMessage :=
           or_ostring (l_errorMessage l)
             (Some "Both video providers failed to generate video.") in
         ret {| videoUrl := "";
                provider := l_provider l;
                status := failed;
                errorMessage := errorMessage;
                duration := None;
                providerResponse := None |}
     end).

End Service.

(** The media URL held in the locals is the one a call to the provider
    named in the locals returned, in a call made between the traces [tr0]
    and [tr]. *)
Definition acceptedFrom (w : World) (payload : VideoGenerationPayload)
    (tr0 tr : Trace) (l : Locals) : Prop :=
  match l_provider l with
  | D_ID =>
      exists n data,
        count (is_post D_ID) tr0 <= n < count (is_post D_ID) tr
        /\ did_post w n (didRequestBody payload) = Ok data
        /\ didVideoUrl data = l_videoUrl l
        /\ l_providerResponse l = data
  | JOGG =>
      exists n data,
        count (is_post JOGG) tr0 <= n < count (is_post JOGG) tr
        /\ jogg_post w n (joggRequestBody payload) = Ok data
        /\ joggVideoUrl data = l_videoUrl l
        /\ l_providerResponse l = data
  end.

(** A URL handed out by the blob store. *)
Definition storageBacked (w : World) (url : string) : Prop :=
  exists n buffer filePath,
    storage_uploadBuffer w n buffer filePath "video/mp4" true = Ok url.

(** Whether a call to D-ID left the provider loop: it did when the call
    resolved with a media URL. *)
Definition didDelivered (answer : Result (option ProviderData)) : bool :=
  match answer with
  | Ok data => truthy_ostring (didVideoUrl data)
  | Throw _ => false
  end.

(** The message the inner [catch] of the provider loop records for a call
    to JOGG: the one of the rejection, or the one of the error thrown for
    want of a media URL; none when JOGG delivered. *)
Definition joggFailureMessage (answer : Result (option ProviderData))
  : option string :=
  match answer with
  | Ok data =>
      if truthy_ostring (joggVideoUrl data) then None
      else Some "JOGG API did not return a video URL"
  | Throw joggError => Some (message joggError)
  end.

(** The object name [uploadVideoToStorage] builds at the given time. *)
Definition storagePath (userId dialogueId : string) (timestamp : N) : string :=
  "videos/" ++ userId ++ "/" ++ dialogueId ++ "/" ++ show_N timestamp
  ++ "_avatar.mp4".


(** What a call made while storing the media of [videoUrl] may be: the
    download of that URL, a reading of the clock, or an upload under the
    dialogue's folder, named after a reading of the clock. *)
Definition storageEvent (w : World) (userId dialogueId videoUrl : string)
    (ev : Event) : Prop :=
  match ev with
  | Get url => url = videoUrl
  | Now => True
  | UploadBuffer filePath =>
      exists n, filePath = storagePath userId dialogueId (clock w n)
  | Post _ => False
  end.

(** A media URL one of the two providers returned for the payload. *)
Definition providerUrl (w : World) (payload : VideoGenerationPayload)
    (url : string) : Prop :=
  (exists n data,
      did_post w n (didRequestBody payload) = Ok data
      /\ didVideoUrl data = Some url)
  \/ (exists n data,
         jogg_post w n (joggRequestBody payload) = Ok data
         /\ joggVideoUrl data = Some url).

End VideoGenerationService.

(** ** services/storage.ts, the bucket set-up

    [initializeBuckets], [createDirectory] and [isStorageAvailable] over
    the Supabase storage client.  A call of the client resolves to
    [{ data, error }] or rejects. *)

Module StorageService.

Definition bucketName : string := "devplan-video-therapy".

Record Bucket : Type := mkBucket {
  name : string
}.

Record Answer (A : Type) : Type := mkAnswer {
  data : option A;
  error : option JsError
}.

Record BucketOptions : Type := mkBucketOptions {
  public : bool;
  allowedMimeTypes : list string;
  fileSizeLimit : N
}.

Inductive Event : Type :=
| ListBuckets
| CreateBucket (id : string) (options : BucketOptions)
| Upload (bucket path contentType : string).

Definition Trace : Type := list Event.

Definition is_upload (ev : Event) : bool :=
  match ev with Upload _ _ _ => true | _ => false end.

Definition is_list (ev : Event) : bool :=
  match ev with ListBuckets => true | _ => false end.

Definition is_create (ev : Event) : bool :=
  match ev with CreateBucket _ _ => true | _ => false end.

(** The storage back end.  The n-th call of a kind gets the n-th
    answer. *)
Record World : Type := mkWorld {
  storage_listBuckets : nat -> Result (Answer (list Bucket));
  storage_createBucket :
    nat -> string -> BucketOptions -> Result (Answer unit);
  storage_upload : nat -> string -> string -> string -> Result (Answer unit)
}.

Section Service.

Variable w : World.

Local Open Scope async_scope.

Definition Async (A : Type) : Type := M Trace A.

Definition listBuckets : Async (Answer (list Bucket)) :=
  fun tr =>
    (storage_listBuckets w (List.length (filter is_list tr)),
     (tr ++ [ListBuckets])%list).

Definition createBucket (id : string) (options : BucketOptions)
  : Async (Answer unit) :=
  fun tr =>
    (storage_createBucket w (List.length (filter is_create tr)) id options,
     (tr ++ [CreateBucket id options])%list).

(** [supabase.storage.from(bucket).upload(path, new Uint8Array(0),
    { contentType })]. *)
Definition upload (bucket path contentType : string) : Async (Answer unit) :=
  fun tr =>
    (storage_upload w (List.length (filter is_upload tr)) bucket path
       contentType,
     (tr ++ [Upload bucket path contentType])%list).

Definition createDirectory (path : string) : Async unit :=
  try_catch
    (answer <- upload bucketName (path ++ "/.keep")
                 "application/octet-stream" ;;
     match error answer with
     | Some error =>
         if negb (string_includes (message error) "already exists")
         then throw error
         else ret tt
     | None => ret tt
     end)
    (fun error => ret tt).

(** [buckets.some(...)] on a [null] list raises a [TypeError]. *)
Definition initializeBuckets : Async unit :=
  try_catch
    (answer <- listBuckets ;;
     match error answer with
     | Some listError => throw listError
     | None =>
         match data answer with
         | None =>
             throw (mkError
                      "Cannot read properties of null (reading 'some')")
         | Some buckets =>
             let bucketExists :=
               existsb (fun bucket => name bucket =? bucketName) buckets in
             (if negb bucketExists then
                created <-
                  createBucket bucketName
                    {| public := false;
                       allowedMimeTypes :=
                         ["audio/*"; "video/*"; "image/*"; "text/*"];
                       fileSizeLimit := (100 * 1024 * 1024)%N |} ;;
                match error created with
                | Some createError => throw createError
                | None => ret tt
                end
              else ret tt) ;;
             createDirectory "audio" ;;
             createDirectory "video" ;;
             createDirectory "avatars" ;;
             createDirectory "transcripts"
         end
     end)
    (fun error => throw error).

Definition isStorageAvailable : Async bool :=
  try_catch
    (answer <- listBuckets ;;
     match error answer with
     | Some _ => ret false
     | None =>
         match data answer with
         | None =>
             throw (mkError
                      "Cannot read properties of null (reading 'some')")
         | Some buckets =>
             ret (existsb (fun bucket => name bucket =? bucketName) buckets)
         end
     end)
    (fun error => ret false).

End Service.

(** The four placeholder uploads of [initializeBuckets]. *)
Definition directoryUploads : list Event :=
  [Upload bucketName "audio/.keep" "application/octet-stream";
   Upload bucketName "video/.keep" "application/octet-stream";
   Upload bucketName "avatars/.keep" "application/octet-stream";
   Upload bucketName "transcripts/.keep" "application/octet-stream"].

End StorageService.

(** ** routes/templates.ts and routes/dialogues.ts

    The route handlers that call the three services.  A Supabase query
    resolves to [{ data, error }]; the queries of a handler are reads, and
    their outcomes are the handler's arguments. *)

Module Supabase.

Record PostgrestError : Type := mkError {
  code : string;
  details : string
}.

Record Answer (A : Type) : Type := mkAnswer {
  data : option A;
  error : option PostgrestError
}.

End Supabase.

(** The columns of a [dialogues] row the handlers read. *)
Record Dialogue : Type := mkDialogue {
  dialogue_transcript : option string;
  dialogue_content : option string;
  analysis : option MoodAnalysis;
  analysis_status : option string
}.

(** [!dialogue.analysis || dialogue.analysis_status !== 'completed']. *)
Definition analysisMissing (dialogue : Dialogue) : bool :=
  match analysis dialogue with
  | None => true
  | Some _ =>
      match analysis_status dialogue with
      | Some status => negb (status =? "completed")
      | None => true
      end
  end.

Module TemplateRoutes.

Import TemplateSelectorService.

Module SuggestionData.
Record t : Type := mk {
  suggestion : TemplateSuggestion;
  availableTemplates : nat;
  dialogueAnalysisStatus : option string
}.
End SuggestionData.

(** [res.status(status).json(createErrorResponse(error))] and
    [res.json(createSuccessResponse(data))]. *)
Inductive Reply : Type :=
| Failure (status : nat) (error : string)
| Success (data : SuggestionData.t).

(** GET /suggest/:dialogueId.  Reading [dialogue.analysis] of a missing
    row raises a [TypeError], which [asyncHandler] hands to the error
    middleware. *)
Definition suggest (dialogueQuery : Supabase.Answer Dialogue)
    (templatesQuery : Supabase.Answer (list Template)) : Result Reply :=
  match Supabase.error dialogueQuery with
  | Some dialogueError =>
      if Supabase.code dialogueError =? "PGRST116" then
        Ok (Failure 404 "Dialogue not found")
      else Ok (Failure 500 "Failed to fetch dialogue")
  | None =>
      match Supabase.data dialogueQuery with
      | None =>
          Throw (mkError "Cannot read properties of null (reading 'analysis')")
      | Some dialogue =>
          if analysisMissing dialogue then
            Ok (Failure 400 "Analysis not available")
          else
            match Supabase.error templatesQuery with
            | Some templatesError => Ok (Failure 500 "Failed to fetch templates")
            | None =>
                match Supabase.data templatesQuery with
                | None | Some [] => Ok (Failure 404 "No templates available")
                | Some templates =>
                    match suggestTemplate (analysis dialogue) with
                    | Throw e => Throw e
                    | Ok suggestion =>
                        let suggestedTemplate :=
                          find (fun t => id t =? templateId suggestion)
                            templates in
                        let suggestion :=
                          match suggestedTemplate with
                          | Some _ => suggestion
                          | None =>
                              {| templateId :=
                                   getFallbackTemplateId templates;
                                 confidence := confidence suggestion;
                                 reasoning :=
                                   "Original suggestion not available, using fallback template";
                                 fallbackUsed := true |}
                          end in
                        Ok (Success
                              {| SuggestionData.suggestion := suggestion;
                                 SuggestionData.availableTemplates :=
                                   List.length templates;
                                 SuggestionData.dialogueAnalysisStatus :=
                                   analysis_status dialogue |})
                    end
                end
            end
      end
  end.

End TemplateRoutes.

Module DialogueRoutes.

Import TemplateSelectorService.

(** *** POST /:id/generate, up to the choice of the template *)

Record TemplateChoice : Type := mkChoice {
  finalTemplate : Template;
  finalTemplateId : string;
  templateFallbackUsed : bool;
  templateFallbackReason : string
}.

(** Either the handler has answered with an error, or it goes on to create
    the video row with the template it chose. *)
Inductive Outcome : Type :=
| Failure (status : nat) (error : string)
| Chosen (choice : TemplateChoice).

(** The handler from the validation of the request to the lookup of the
    final template.  [validationErrors] are the messages express-validator
    produced for the request; [template_id] is the id in the body. *)
Definition chooseTemplate (validationErrors : list string)
    (template_id : option string)
    (dialogueQuery : Supabase.Answer Dialogue)
    (templatesQuery : Supabase.Answer (list Template)) : Result Outcome :=
  match validationErrors with
  | msg :: _ => Ok (Failure 400 msg)
  | [] =>
      match Supabase.error dialogueQuery, Supabase.data dialogueQuery with
      | Some _, _ | None, None => Ok (Failure 404 "Dialogue not found")
      | None, Some dialogue =>
          if analysisMissing dialogue then
            Ok (Failure 400
                  "Mood analysis must be completed before generating video. Please wait for analysis to complete.")
          else
            match Supabase.error templatesQuery,
                  Supabase.data templatesQuery with
            | Some _, _ | None, None | None, Some [] =>
                Ok (Failure 500
                      "Template data is currently unavailable. Please try again later.")
            | None, Some availableTemplates =>
                let proposal :=
                  if negb (truthy_ostring template_id) then
                    match suggestTemplate (analysis dialogue) with
                    | Throw e => Throw e
                    | Ok suggestion =>
                        Ok (templateId suggestion, fallbackUsed suggestion,
                            reasoning suggestion)
                    end
                  else
                    Ok (match template_id with
                        | Some finalTemplateId => finalTemplateId
                        | None => ""
                        end, false, "") in
                match proposal with
                | Throw e => Throw e
                | Ok (finalTemplateId, templateFallbackUsed,
                      templateFallbackReason) =>
                    let isValidTemplate :=
                      validateTemplateId finalTemplateId availableTemplates in
                    let fallbackTemplateId :=
                      getFallbackTemplateId availableTemplates in
                    let finalTemplateId :=
                      if isValidTemplate then finalTemplateId
                      else fallbackTemplateId in
                    let templateFallbackUsed :=
                      if isValidTemplate then templateFallbackUsed
                      else true in
                    let templateFallbackReason :=
                      if isValidTemplate then templateFallbackReason
                      else "Invalid template ID provided. Using fallback template: "
                           ++ fallbackTemplateId in
                    match find (fun t => id t =? finalTemplateId)
                            availableTemplates with
                    | None =>
                        Ok (Failure 500
                              "Template configuration error. Please contact support.")
                    | Some finalTemplate =>
                        Ok (Chosen
                              {| finalTemplate := finalTemplate;
                                 finalTemplateId := finalTemplateId;
                                 templateFallbackUsed := templateFallbackUsed;
                                 templateFallbackReason :=
                                   templateFallbackReason |})
                    end
                end
            end
      end
  end.

(** *** triggerAnalysis *)

(** The [analysis_metadata] objects the function writes. *)
Inductive AnalysisMetadata : Type :=
| Analyzed (metadata : SpeechToTextMoodAnalysisService.AnalysisResult.metadata_t)
    (api_used : string) (processing_time : Z) (confidence : number)
    (analyzed_at : string)
| AnalysisFailed (error : string) (failed_at : string).

(** The object handed to [.update(...)]; a key the object lacks is
    [None]. *)
Record DialogueUpdate : Type := mkDialogueUpdate {
  u_transcript : option string;
  u_mood_analysis : option MoodAnalysis;
  u_analysis_status : option string;
  u_language : option string;
  u_analysis_metadata : option AnalysisMetadata;
  u_status : option string
}.

Inductive DbEvent : Type :=
| ToISOString
| Update (dialogueId : string) (data : DialogueUpdate).

Definition is_reading (ev : DbEvent) : bool :=
  match ev with ToISOString => true | Update _ _ => false end.

Definition is_update (ev : DbEvent) : bool :=
  match ev with Update _ _ => true | ToISOString => false end.

(** The database behind [supabase.from('dialogues').update(...)] and the
    clock behind [new Date().toISOString()].  The n-th call of a kind gets
    the n-th answer.  An update that resolves is [Ok tt], whatever
    [{ data, error }] it resolves with: the function does not look at the
    reply.  [Throw] is a rejected promise; [instanceofError] tells whether
    the value it rejected with is an [Error], the only kind of value whose
    [message] the [catch] block reads. *)
Record Database : Type := mkDatabase {
  isoClock : nat -> string;
  dialogues_update : nat -> string -> DialogueUpdate -> Result unit;
  instanceofError : JsError -> bool
}.

Section TriggerAnalysis.

Variable db : Database.
Variable w : SpeechToTextMoodAnalysisService.World.

Local Open Scope async_scope.

Definition Job (A : Type) : Type :=
  M (SpeechToTextMoodAnalysisService.Trace * list DbEvent) A.

Definition toISOString : Job string :=
  fun s =>
    (Ok (isoClock db (List.length (filter is_reading (snd s)))),
     (fst s, (snd s ++ [ToISOString])%list)).

Definition update (dialogueId : string) (data : DialogueUpdate) : Job unit :=
  fun s =>
    (dialogues_update db (List.length (filter is_update (snd s))) dialogueId
       data,
     (fst s, (snd s ++ [Update dialogueId data])%list)).

Definition processingUpdate : DialogueUpdate :=
  {| u_transcript := None;
     u_mood_analysis := None;
     u_analysis_status := Some "processing";
     u_language := None;
     u_analysis_metadata := None;
     u_status := None |}.

(** [updateData], after the conditional assignment of [status]. *)
Definition completedUpdate
    (analysisResult : SpeechToTextMoodAnalysisService.AnalysisResult.t)
    (analyzed_at : string) : DialogueUpdate :=
  {| u_transcript :=
       Some (SpeechToTextMoodAnalysisService.AnalysisResult.transcript
               analysisResult);
     u_mood_analysis :=
       Some (SpeechToTextMoodAnalysisService.AnalysisResult.moodAnalysis
               analysisResult);
     u_analysis_status := Some "completed";
     u_language :=
       Some (SpeechToTextMoodAnalysisService.AnalysisResult.language
               analysisResult);
     u_analysis_metadata :=
       Some (Analyzed
               (SpeechToTextMoodAnalysisService.AnalysisResult.metadata
                  analysisResult)
               (SpeechToTextMoodAnalysisService.AnalysisResult.apiUsed
                  analysisResult)
               (SpeechToTextMoodAnalysisService.AnalysisResult.processingTime
                  analysisResult)
               (SpeechToTextMoodAnalysisService.AnalysisResult.confidence
                  analysisResult)
               analyzed_at);
     u_status :=
       if PrimFloat.ltb 0%float
            (SpeechToTextMoodAnalysisService.AnalysisResult.confidence
               analysisResult)
       then Some "analyzed" else None |}.

(** The object of the [catch] block, with
    [error instanceof Error ? error.message : 'Unknown error']. *)
Definition failedUpdate (error : JsError) (failed_at : string)
  : DialogueUpdate :=
  {| u_transcript := None;
     u_mood_analysis := None;
     u_analysis_status := Some "failed";
     u_language := None;
     u_analysis_metadata :=
       Some (AnalysisFailed
               (if instanceofError db error then message error
                else "Unknown error")
               failed_at);
     u_status := None |}.

Definition triggerAnalysis (dialogueId : string) (audioBuffer : list byte)
    (originalLanguage : option string) : Job unit :=
  try_catch
    (update dialogueId processingUpdate ;;
     analysisResult <-
       lift (SpeechToTextMoodAnalysisService.analyzeAudio w audioBuffer
               originalLanguage) ;;
     analyzed_at <- toISOString ;;
     update dialogueId (completedUpdate analysisResult analyzed_at))
    (fun error =>
       failed_at <- toISOString ;;
       update dialogueId (failedUpdate error failed_at)).

End TriggerAnalysis.

(** *** The video generation job of POST /:id/generate *)

(** The two objects the job hands to [.update(...)] on the video row.  The
    first one also copies the row's [metadata] and adds [provider_response]
    to it; of that object only [provider_response] is recorded. *)
Inductive VideoUpdate : Type :=
| Finished (video_url : string)
    (status : VideoGenerationService.VideoStatus)
    (provider : VideoGenerationService.VideoProvider)
    (duration : number) (error_message : option string)
    (provider_response : option VideoGenerationService.ProviderData)
| JobFailed (error_message : string).

Section VideoJob.

Variable videos_update : nat -> string -> VideoUpdate -> Result unit.
Variable w : VideoGenerationService.World.

Local Open Scope async_scope.

Definition updateVideo (videoId : string) (data : VideoUpdate)
  : M (VideoGenerationService.Trace * list (string * VideoUpdate)) unit :=
  fun s =>
    (videos_update (List.length (snd s)) videoId data,
     (fst s, (snd s ++ [(videoId, data)])%list)).

(** The body of the job, from the call of [generateAvatarVideo] on. *)
Definition videoJob (payload : VideoGenerationService.VideoGenerationPayload)
    (userId dialogueId finalTemplateId videoId : string)
  : M (VideoGenerationService.Trace * list (string * VideoUpdate)) unit :=
  try_catch
    (result <-
       lift (VideoGenerationService.generateAvatarVideo w payload userId
               dialogueId finalTemplateId videoId) ;;
     updateVideo videoId
       (Finished (VideoGenerationService.videoUrl result)
          (VideoGenerationService.status result)
          (VideoGenerationService.provider result)
          (match VideoGenerationService.duration result with
           | Some duration => or_number duration 0%float
           | None => 0%float
           end)
          (VideoGenerationService.errorMessage result)
          (VideoGenerationService.providerResponse result)))
    (fun err => updateVideo videoId (JobFailed (message err))).

End VideoJob.

End DialogueRoutes.

(** ** Sample inputs

    Concrete profiles, templates and worlds on which the theorems below are
    exercised. *)

Module Samples.

Import TemplateSelectorService.

Definition hopelessButCheerful : MoodAnalysis :=
  {| overall_mood := "positive";
     confidence_score := 0.9%float;
     emotions := [Emotion.mk "joy" 0.9%float 0.9%float];
     sentiment_score := 0.8%float;
     key_themes := ["work"];
     risk_indicators := ["hopeless"];
     recommendations := [] |}.

Definition template (id category : string) (is_active : bool) : Template :=
  {| id := id; template_name := id; description := ""; category := category;
     avatar_url := ""; voice_id := ""; is_active := is_active;
     metadata := None |}.

Definition catalogue : list Template :=
  [ template "inactive-template" "test" false;
    template "empathetic-therapist" "emotional" true;
    template "general-therapist" "general" true ].

(** An active template whose id is the empty string. *)
Definition namelessTemplate : Template := template "" "general" true.

(** ASCII stand-ins for the two string built-ins. *)
Definition asciiLower (c : ascii) : ascii :=
  let n := nat_of_ascii c in
  if ((65 <=? n) && (n <=? 90))%nat then ascii_of_nat (n + 32) else c.

Fixpoint asciiToLowerCase (s : string) : string :=
  match s with
  | EmptyString => EmptyString
  | String c rest => String (asciiLower c) (asciiToLowerCase rest)
  end.

Definition asciiSpace (c : ascii) : bool :=
  let n := nat_of_ascii c in
  (((9 <=? n) && (n <=? 13)) || (n =? 32))%nat.

Fixpoint splitFrom (s current : string) (afterSpace : bool) : list string :=
  match s with
  | EmptyString => [current]
  | String c rest =>
      if asciiSpace c then
        if afterSpace then splitFrom rest current true
        else current :: splitFrom rest EmptyString true
      else splitFrom rest (current ++ String c EmptyString) false
  end.

Definition asciiSplitWhitespace (s : string) : list string :=
  splitFrom s EmptyString false.

Module Speech.

Import SpeechToTextMoodAnalysisService.

Definition respond {T} (body : T) : Result (HttpResponse T) :=
  Ok {| ok := true; status := 200; json := Ok (Some body) |}.

Definition unreachable {T} : Result (HttpResponse T) :=
  Throw (mkError "API error").

Definition world
    (speechToText :
       nat -> Result (HttpResponse ElevenLabsTranscriptionResponse.t))
    (sentimentAnalysis :
       nat -> Result (HttpResponse ElevenLabsSentimentResponse.t))
    (speechRecognize :
       nat -> Result (HttpResponse GoogleAITranscriptionResponse.t))
    (analyzeSentiment :
       nat -> Result (HttpResponse GoogleAISentimentResponse.t)) : World :=
  {| ELEVENLABS_API_KEY := "test-elevenlabs-key";
     GOOGLE_AI_STUDIO_API_KEY := "test-google-key";
     clock := fun n => (1000 + 250 * Z.of_nat n)%Z;
     elevenLabsSpeechToText := fun n _ => speechToText n;
     elevenLabsSentimentAnalysis := fun n _ => sentimentAnalysis n;
     googleSpeechRecognize := fun n _ => speechRecognize n;
     googleAnalyzeSentiment := fun n _ => analyzeSentiment n;
     toLowerCase := asciiToLowerCase;
     splitWhitespace := asciiSplitWhitespace |}.

(** Every endpoint is down. *)
Definition allDown : World :=
  world (fun _ => unreachable) (fun _ => unreachable)
        (fun _ => unreachable) (fun _ => unreachable).

(** ElevenLabs hears a cry for help, but only faintly. *)
Definition faintCry : World :=
  world
    (fun _ => respond
       (ElevenLabsTranscriptionResponse.mk
          (Some "I feel HOPELESS and worthless") 0.3%float (Some "en")))
    (fun _ => respond
       (ElevenLabsSentimentResponse.mk "negative" 0.9%float
          (Some [ElevenLabsSentimentResponse.mkEmotion "sadness" 0.9%float])))
    (fun _ => unreachable) (fun _ => unreachable).

(** ElevenLabs transcribes with confidence and reports no emotion. *)
Definition noEmotions : World :=
  world
    (fun _ => respond
       (ElevenLabsTranscriptionResponse.mk
          (Some "Hello, this is a test transcript") 0.95%float (Some "en")))
    (fun _ => respond
       (ElevenLabsSentimentResponse.mk "positive" 0.88%float (Some [])))
    (fun _ => unreachable) (fun _ => unreachable).

(** ElevenLabs fails once, then answers. *)
Definition secondTry : World :=
  world
    (fun n =>
       match n with
       | O => unreachable
       | S _ => respond
                  (ElevenLabsTranscriptionResponse.mk
                     (Some "Retry test transcript") 0.9%float (Some "en"))
       end)
    (fun _ => respond
       (ElevenLabsSentimentResponse.mk "positive" 0.85%float
          (Some [ElevenLabsSentimentResponse.mkEmotion "joy" 0.8%float])))
    (fun _ => unreachable) (fun _ => unreachable).

Definition audio : list byte := [x6d; x6f; x63; x6b].

End Speech.

Module Video.

Import VideoGenerationService.

Definition payload : VideoGenerationPayload :=
  {| transcript := "Hello, this is a test transcript.";
     moodAnalysis := Some hopelessButCheerful;
     templateMetadata :=
       Some {| avatar_style := Some "professional";
               voice_id := Some "voice123" |} |}.

Definition world
    (did jogg : nat -> Result (option ProviderData))
    (download : nat -> Result (list byte))
    (upload : nat -> Result string) : World :=
  {| clock := fun n => (1700000000000 + 1000 * N.of_nat n)%N;
     did_post := fun n _ => did n;
     jogg_post := fun n _ => jogg n;
     axios_get := fun n _ => download n;
     storage_uploadBuffer := fun n _ _ _ _ => upload n |}.

Definition storageUrl : string := "https://storage.example.com/video.mp4".

(** D-ID answers without a media URL, JOGG delivers, storage works. *)
Definition didWithoutUrl : World :=
  world
    (fun _ => Ok (Some {| video_url := None; download_url := None |}))
    (fun _ => Ok (Some {| video_url := Some "https://jogg.ai/video456.mp4";
                          download_url := None |}))
    (fun _ => Ok [x00; x01])
    (fun _ => Ok storageUrl).

(** D-ID delivers, but the media can never be downloaded. *)
Definition downloadDown : World :=
  world
    (fun _ => Ok (Some {| video_url := Some "https://d-id.com/video123.mp4";
                          download_url := None |}))
    (fun _ => Throw (mkError "JOGG API unavailable"))
    (fun _ => Throw (mkError "Download failed"))
    (fun _ => Ok storageUrl).



(** Neither provider can be reached. *)
Definition providersDown : World :=
  world
    (fun _ => Throw (mkError "D-ID API unavailable"))
    (fun _ => Throw (mkError "JOGG API unavailable"))
    (fun _ => Ok [x00; x01])
    (fun _ => Ok storageUrl).

(** Both providers are down at first; D-ID recovers for the second round. *)
Definition didRecovers : World :=
  world
    (fun n =>
       match n with
       | O => Throw (mkError "D-ID API unavailable")
       | S _ => Ok (Some {| video_url := Some "https://d-id.com/video123.mp4";
                            download_url := None |})
       end)
    (fun _ => Throw (mkError "JOGG API unavailable"))
    (fun _ => Ok [x00; x01])
    (fun _ => Ok storageUrl).

End Video.

Module Routes.

Definition found {A : Type} (row : A) : Supabase.Answer A :=
  {| Supabase.data := Some row; Supabase.error := None |}.

(** A dialogue whose analysis is complete and carries a risk indicator. *)
Definition analysedDialogue : Dialogue :=
  {| dialogue_transcript := Some "I feel hopeless";
     dialogue_content := None;
     analysis := Some hopelessButCheerful;
     analysis_status := Some "completed" |}.

(** A database whose updates all resolve. *)
Definition database : DialogueRoutes.Database :=
  {| DialogueRoutes.isoClock := fun _ => "2024-01-01T00:00:00.000Z";
     DialogueRoutes.dialogues_update := fun _ _ _ => Ok tt;
     DialogueRoutes.instanceofError := fun _ => true |}.

End Routes.

Module Storage.

Import StorageService.

(** The bucket is there, and every upload is turned down. *)
Definition bucketPresent : World :=
  {| storage_listBuckets :=
       fun _ => Ok {| data := Some [mkBucket "avatars";
                                    mkBucket "devplan-video-therapy"];
                      error := None |};
     storage_createBucket :=
       fun _ _ _ => Throw (mkError "not permitted");
     storage_upload :=
       fun _ _ _ _ =>
         Ok {| data := None;
               error := Some (mkError "row-level security violation") |} |}.

(** The bucket is missing; it can be created, and the first upload finds
    its placeholder already there. *)
Definition bucketMissing : World :=
  {| storage_listBuckets :=
       fun _ => Ok {| data := Some [mkBucket "avatars"]; error := None |};
     storage_createBucket :=
       fun _ _ _ => Ok {| data := Some tt; error := None |};
     storage_upload :=
       fun n _ _ _ =>
         match n with
         | O => Ok {| data := None;
                      error :=
                        Some (mkError "The resource already exists") |}
         | S _ => Ok {| data := Some tt; error := None |}
         end |}.

End Storage.

End Samples.

Unset Implicit Arguments.

(** * The embedding on sample inputs *)

Section Replay.

Import SpeechToTextMoodAnalysisService.

Example suggest_motivational_coach :
  TemplateSelectorService.suggestTemplate
    (Some {| overall_mood := "positive"; confidence_score := 0.9%float;
             emotions := [Emotion.mk "joy" 0.9%float 0.9%float;
                          Emotion.mk "excitement" 0.8%float 0.9%float];
             sentiment_score := 0.8%float;
             key_themes := ["success"; "achievement"];
             risk_indicators := []; recommendations := [] |})
  = Ok (TemplateSelectorService.suggestion "motivational-coach" 0.85%float
          "High positive sentiment with joy - using motivational coach template").
Proof. vm_compute. reflexivity. Qed.

Example suggest_empathetic_therapist :
  TemplateSelectorService.suggestTemplate
    (Some {| overall_mood := "negative"; confidence_score := 0.8%float;
             emotions := [Emotion.mk "sadness" 0.9%float 0.8%float;
                          Emotion.mk "anxiety" 0.7%float 0.8%float];
             sentiment_score := (-0.8)%float;
             key_themes := ["loneliness"; "stress"];
             risk_indicators := []; recommendations := [] |})
  = Ok (TemplateSelectorService.suggestion "empathetic-therapist" 0.90%float
          "High negative sentiment with distress - using empathetic therapist template").
Proof. vm_compute. reflexivity. Qed.

Example suggest_general_therapist :
  TemplateSelectorService.suggestTemplate
    (Some {| overall_mood := "neutral"; confidence_score := 0.6%float;
             emotions := [Emotion.mk "neutral" 0.5%float 0.5%float];
             sentiment_score := 0.1%float;
             key_themes := ["daily-life"; "routine"];
             risk_indicators := []; recommendations := [] |})
  = Ok TemplateSelectorService.generalSuggestion.
Proof. vm_compute. reflexivity. Qed.

Example negative_sentiment_precedes_family_theme :
  TemplateSelectorService.suggestTemplate
    (Some {| overall_mood := "negative"; confidence_score := 0.8%float;
             emotions := [Emotion.mk "stress" 0.7%float 0.8%float];
             sentiment_score := (-0.4)%float;
             key_themes := ["family"; "relationship"; "marriage"];
             risk_indicators := []; recommendations := [] |})
  = Ok (TemplateSelectorService.suggestion "supportive-counselor" 0.80%float
          "Moderate negative sentiment - using supportive counselor template").
Proof. vm_compute. reflexivity. Qed.

Example fallback_prefers_general :
  TemplateSelectorService.getFallbackTemplateId Samples.catalogue
  = "general-therapist".
Proof. reflexivity. Qed.

Example inactive_template_is_invalid :
  TemplateSelectorService.validateTemplateId "inactive-template"
    Samples.catalogue = false.
Proof. reflexivity. Qed.

(** The four letters of the Hebrew greeting, as UTF-8 bytes. *)
Example detect_hebrew :
  detectLanguage
    (string_of_list_ascii
       (map ascii_of_nat [215; 169; 215; 156; 215; 149; 215; 157]))
  = "hebrew".
Proof. vm_compute. reflexivity. Qed.

Example detect_english :
  detectLanguage "Hello world, how are you?" = "english".
Proof. vm_compute. reflexivity. Qed.

Example detect_unknown :
  detectLanguage "1234567890 !@#$%^&*()" = "unknown".
Proof. vm_compute. reflexivity. Qed.

Example risk_detection_ignores_case :
  detectRiskIndicators Samples.Speech.allDown "I feel HOPELESS" = ["hopeless"].
Proof. vm_compute. reflexivity. Qed.

Example key_themes_are_capped :
  extractKeyThemes Samples.Speech.allDown
    "I am stressed about work and family issues, health and failure"
  = ["work"; "family"; "health"].
Proof. vm_compute. reflexivity. Qed.

Example retry_then_success_makes_three_calls :
  snd (analyzeAudio Samples.Speech.secondTry Samples.Speech.audio
         (Some "english") [])
  = [Now; Fetch ElevenLabsSpeechToText; Delay 1000;
     Fetch ElevenLabsSpeechToText; Fetch ElevenLabsSentimentAnalysis; Now].
Proof. vm_compute. reflexivity. Qed.

Example exhaustion_trace :
  snd (analyzeAudio Samples.Speech.allDown Samples.Speech.audio
         (Some "english") [])
  = [Now; Fetch ElevenLabsSpeechToText; Delay 1000;
     Fetch ElevenLabsSpeechToText; Delay 2000; Fetch ElevenLabsSpeechToText;
     Fetch GoogleSpeechRecognize; Delay 1000; Fetch GoogleSpeechRecognize;
     Delay 2000; Fetch GoogleSpeechRecognize; Now].
Proof. vm_compute. reflexivity. Qed.

Example jogg_fallback_is_stored :
  VideoGenerationService.generateAvatarVideo Samples.Video.didWithoutUrl
    Samples.Video.payload "user123" "dialogue123" "template123" "video123" []
  = (Ok {| VideoGenerationService.videoUrl := Samples.Video.storageUrl;
           VideoGenerationService.provider := VideoGenerationService.JOGG;
           VideoGenerationService.status := VideoGenerationService.completed;
           VideoGenerationService.errorMessage := None;
           VideoGenerationService.duration := None;
           VideoGenerationService.providerResponse :=
             Some {| VideoGenerationService.video_url :=
                       Some "https://jogg.ai/video456.mp4";
                     VideoGenerationService.download_url := None |} |},
     [VideoGenerationService.Post VideoGenerationService.D_ID;
      VideoGenerationService.Post VideoGenerationService.JOGG;
      VideoGenerationService.Get "https://jogg.ai/video456.mp4";
      VideoGenerationService.Now;
      VideoGenerationService.UploadBuffer
        "videos/user123/dialogue123/1700000000000_avatar.mp4"]).
Proof. vm_compute. reflexivity. Qed.

End Replay.

(** * Properties of the template selector *)

Section TemplateSelectorFacts.

Import TemplateSelectorService.

Lemma find_first_match {A} (f : A -> bool) (before : list A) (x : A)
    (after : list A) :
  (forall y, In y before -> f y = false) ->
  f x = true ->
  find f (before ++ x :: after) = Some x.
Proof.
  intros Hbefore Hx.
  induction before as [|y before IH]; simpl.
  - now rewrite Hx.
  - rewrite (Hbefore y (or_introl eq_refl)).
    apply IH. intros z Hz. apply Hbefore. now right.
Qed.

Lemma find_exists {A} (f : A -> bool) (l : list A) :
  (exists x, In x l /\ f x = true) ->
  exists x, find f l = Some x /\ In x l /\ f x = true.
Proof.
  intros [x [Hin Hfx]].
  destruct (find f l) as [y|] eqn:Hfind.
  - exists y. destruct (find_some _ _ Hfind). auto.
  - rewrite (find_none _ _ Hfind x Hin) in Hfx. discriminate.
Qed.

Lemma find_absent {A} (f : A -> bool) (l : list A) :
  (forall x, In x l -> f x = false) -> find f l = None.
Proof.
  intros Hnone.
  destruct (find f l) as [y|] eqn:Hfind; [|reflexivity].
  destruct (find_some _ _ Hfind) as [Hin Hfy].
  rewrite (Hnone y Hin) in Hfy. discriminate.
Qed.

Lemma validateTemplateId_nonempty (templateId : string)
    (availableTemplates : list Template) :
  templateId <> "" ->
  (validateTemplateId templateId availableTemplates = true <->
   exists t, In t availableTemplates /\ id t = templateId
             /\ is_active t = true).
Proof.
  intros Hid. unfold validateTemplateId.
  destruct templateId as [|c rest]; [congruence|]. simpl negb. cbv iota.
  rewrite existsb_exists.
  split; intros [t [Hin Ht]]; exists t; split; auto.
  - apply andb_true_iff in Ht. destruct Ht as [Heq Hact].
    apply String.eqb_eq in Heq. auto.
  - destruct Ht as [Heq Hact]. apply andb_true_iff. split; auto.
    now apply String.eqb_eq.
Qed.

End TemplateSelectorFacts.

(** C4: the rule table is read top to bottom and the first match wins; in
    particular a mood profile with at least one risk indicator gets the
    crisis-support template with confidence 0.95, whatever its mood,
    sentiment, emotions and themes are. *)
Theorem risk_indicators_select_crisis_template :
  forall m : MoodAnalysis,
    TemplateSelectorService.suggestTemplate (Some m)
    = Ok (TemplateSelectorService.firstMatch
            TemplateSelectorService.ruleTable
            TemplateSelectorService.generalSuggestion
            (TemplateSelectorService.extractSelectionFactors m))
    /\ (risk_indicators m <> [] ->
        TemplateSelectorService.suggestTemplate (Some m)
        = Ok {| TemplateSelectorService.templateId :=
                  "crisis-support-therapist";
                TemplateSelectorService.confidence := 0.95%float;
                TemplateSelectorService.reasoning :=
                  "Risk indicators detected - using crisis support template";
                TemplateSelectorService.fallbackUsed := false |}).
Proof.
  intros m.
  unfold TemplateSelectorService.suggestTemplate,
    TemplateSelectorService.suggestTemplate_body, try_catch_sync.
  split.
  - reflexivity.
  - intros Hrisk. unfold TemplateSelectorService.applySelectionLogic.
    cbn [TemplateSelectorService.riskIndicators
           TemplateSelectorService.extractSelectionFactors].
    destruct (risk_indicators m) as [|r rs]; [congruence|reflexivity].
Qed.

Lemma risk_indicators_select_crisis_template_witness :
  TemplateSelectorService.suggestTemplate (Some Samples.hopelessButCheerful)
  = Ok {| TemplateSelectorService.templateId := "crisis-support-therapist";
          TemplateSelectorService.confidence := 0.95%float;
          TemplateSelectorService.reasoning :=
            "Risk indicators detected - using crisis support template";
          TemplateSelectorService.fallbackUsed := false |}.
Proof.
  destruct (risk_indicators_select_crisis_template
              Samples.hopelessButCheerful) as [_ Hcrisis].
  apply Hcrisis. simpl. discriminate.
Defined.

(** C8: [suggestTemplate] always returns a suggestion and never throws;
    whenever the body of its [try] block throws, as it does on a null mood
    analysis, the suggestion is the fixed default one: template
    'default-therapist', confidence 0.0, fallbackUsed = true. *)
Theorem suggestTemplate_never_throws :
  forall (moodAnalysis : option MoodAnalysis) (e : JsError),
    TemplateSelectorService.suggestTemplate_body moodAnalysis = Throw e ->
    TemplateSelectorService.suggestTemplate moodAnalysis
    = Ok {| TemplateSelectorService.templateId := "default-therapist";
            TemplateSelectorService.confidence := 0.0%float;
            TemplateSelectorService.reasoning :=
              "Default template used due to analysis error";
            TemplateSelectorService.fallbackUsed := true |}
    /\ (forall input, exists s,
          TemplateSelectorService.suggestTemplate input = Ok s).
Proof.
  intros moodAnalysis e Hbody. split.
  - unfold TemplateSelectorService.suggestTemplate. rewrite Hbody. reflexivity.
  - intros [m|]; eexists; reflexivity.
Qed.

Lemma suggestTemplate_never_throws_witness :
  TemplateSelectorService.suggestTemplate None
  = Ok {| TemplateSelectorService.templateId := "default-therapist";
          TemplateSelectorService.confidence := 0.0%float;
          TemplateSelectorService.reasoning :=
            "Default template used due to analysis error";
          TemplateSelectorService.fallbackUsed := true |}
  /\ (forall input, exists s,
        TemplateSelectorService.suggestTemplate input = Ok s).
Proof.
  apply (suggestTemplate_never_throws None
           (mkError "Cannot read properties of null (reading 'overall_mood')")).
  reflexivity.
Defined.

(** C9, as the claim states it, fails: the empty id is rejected even when
    an active template carries it. *)
Lemma validateTemplateId_rejects_empty_id :
  ~ (TemplateSelectorService.validateTemplateId "" [Samples.namelessTemplate]
     = true
     <-> exists t, In t [Samples.namelessTemplate]
                   /\ TemplateSelectorService.id t = ""
                   /\ TemplateSelectorService.is_active t = true).
Proof.
  intros [_ Hclaim].
  assert (Hfalse : TemplateSelectorService.validateTemplateId ""
                     [Samples.namelessTemplate] = true).
  { apply Hclaim. exists Samples.namelessTemplate. simpl. auto. }
  discriminate Hfalse.
Qed.

(** C9, amended: for a non-empty id, [validateTemplateId] is true exactly
    when some template of the list has that id and is active; the empty id
    is always rejected, and so is every id on the empty list.
    [getFallbackTemplateId] returns the id of the first active template of
    category 'general' when there is one, else the id of the first active
    template, else 'default-therapist', which is also its value on the
    empty list. *)
Theorem validateTemplateId_getFallbackTemplateId_spec :
  forall (templateId : string)
         (availableTemplates : list TemplateSelectorService.Template),
    let validate := TemplateSelectorService.validateTemplateId in
    let fallback := TemplateSelectorService.getFallbackTemplateId in
    let active := TemplateSelectorService.is_active in
    let category := TemplateSelectorService.category in
    (templateId <> "" ->
     (validate templateId availableTemplates = true <->
      exists t, In t availableTemplates
                /\ TemplateSelectorService.id t = templateId
                /\ active t = true))
    /\ validate "" availableTemplates = false
    /\ validate templateId [] = false
    /\ (forall before t after,
          availableTemplates = (before ++ t :: after)%list ->
          (forall x, In x before ->
                     active x = false \/ category x <> "general") ->
          active t = true -> category t = "general" ->
          fallback availableTemplates = TemplateSelectorService.id t)
    /\ (forall before t after,
          (forall x, In x availableTemplates ->
                     active x = false \/ category x <> "general") ->
          availableTemplates = (before ++ t :: after)%list ->
          (forall x, In x before -> active x = false) ->
          active t = true ->
          fallback availableTemplates = TemplateSelectorService.id t)
    /\ ((forall x, In x availableTemplates -> active x = false) ->
        fallback availableTemplates = "default-therapist")
    /\ fallback [] = "default-therapist".
Proof.
  intros templateId availableTemplates. cbv zeta.
  assert (Hgeneral : forall l : list TemplateSelectorService.Template,
            (forall x, In x l ->
               TemplateSelectorService.is_active x = false
               \/ TemplateSelectorService.category x <> "general") ->
            forall x, In x l ->
              TemplateSelectorService.is_active x
              && (TemplateSelectorService.category x =? "general") = false).
  { intros l Hl x Hx. destruct (Hl x Hx) as [Hact|Hcat].
    - now rewrite Hact.
    - apply andb_false_iff. right. now apply String.eqb_neq. }
  repeat split.
  - apply validateTemplateId_nonempty; assumption.
  - apply validateTemplateId_nonempty; assumption.
  - destruct templateId; reflexivity.
  - intros before t after Hlist Hbefore Hact Hcat.
    unfold TemplateSelectorService.getFallbackTemplateId.
    rewrite Hlist.
    rewrite (find_first_match _ before t after); [reflexivity| |].
    + apply Hgeneral. exact Hbefore.
    + rewrite Hact. now apply String.eqb_eq.
  - intros before t after Hnone Hlist Hbefore Hact.
    unfold TemplateSelectorService.getFallbackTemplateId.
    rewrite (find_absent _ availableTemplates (Hgeneral _ Hnone)).
    rewrite Hlist.
    now rewrite (find_first_match
                   (fun x => TemplateSelectorService.is_active x)
                   before t after Hbefore Hact).
  - intros Hnone.
    unfold TemplateSelectorService.getFallbackTemplateId.
    rewrite (find_absent _ availableTemplates).
    + now rewrite (find_absent (fun x => TemplateSelectorService.is_active x)
                     availableTemplates Hnone).
    + intros x Hx. now rewrite (Hnone x Hx).
Qed.

Lemma validateTemplateId_getFallbackTemplateId_spec_witness :
  TemplateSelectorService.validateTemplateId "general-therapist"
    Samples.catalogue = true
  /\ TemplateSelectorService.getFallbackTemplateId Samples.catalogue
     = "general-therapist".
Proof.
  pose proof (validateTemplateId_getFallbackTemplateId_spec
                "general-therapist" Samples.catalogue) as H.
  cbv zeta in H.
  destruct H as [Hvalid [_ [_ [Hgeneral _]]]].
  split.
  - apply Hvalid; [discriminate|].
    exists (Samples.template "general-therapist" "general" true).
    simpl. auto.
  - apply (Hgeneral
             [Samples.template "inactive-template" "test" false;
              Samples.template "empathetic-therapist" "emotional" true]
             (Samples.template "general-therapist" "general" true) []);
      [reflexivity| |reflexivity|reflexivity].
    intros x [Hx|[Hx|[]]]; subst x; simpl.
    + now left.
    + right. discriminate.
Defined.

(** * Properties of the mood analysis stage *)

Module SpeechFacts.

Import SpeechToTextMoodAnalysisService.

(** Case analysis on whatever the environment answered. *)
Ltac split_answer :=
  match goal with
  | |- context [match ?x with _ => _ end] =>
      lazymatch x with
      | context [match _ with _ => _ end] => fail
      | _ => destruct x eqn:?; cbv beta iota
      end
  end.

Ltac run_async :=
  unfold bind, try_catch, ret, throw, await, fetch, delay, emit, now;
  cbv beta iota.

Section Adapters.

Variable w : World.
Variable audioBuffer : list byte.

(** Each of the four API wrappers performs exactly one fetch and absorbs
    every failure. *)
Lemma callElevenLabsTranscription_run (tr : Trace) :
  exists data,
    callElevenLabsTranscription w audioBuffer tr
    = (Ok data, (tr ++ [Fetch ElevenLabsSpeechToText])%list)
    /\ (forall t, data = Some t ->
          exists response,
            elevenLabsSpeechToText w (calls ElevenLabsSpeechToText tr)
              audioBuffer = Ok response
            /\ json response = Ok (Some t)).
Proof.
  unfold callElevenLabsTranscription. run_async.
  repeat split_answer; eexists; (split; [reflexivity|]);
    intros t Ht; try discriminate.
  inversion Ht; subst. eexists; split; [reflexivity|assumption].
Qed.

Lemma callElevenLabsSentiment_run (text : string) (tr : Trace) :
  exists data,
    callElevenLabsSentiment w text tr
    = (Ok data, (tr ++ [Fetch ElevenLabsSentimentAnalysis])%list)
    /\ (forall s, data = Some s ->
          exists response,
            elevenLabsSentimentAnalysis w
              (calls ElevenLabsSentimentAnalysis tr) text = Ok response
            /\ json response = Ok (Some s)).
Proof.
  unfold callElevenLabsSentiment. run_async.
  repeat split_answer; eexists; (split; [reflexivity|]);
    intros t Ht; try discriminate.
  inversion Ht; subst. eexists; split; [reflexivity|assumption].
Qed.

Lemma callGoogleAITranscription_run (tr : Trace) :
  exists data,
    callGoogleAITranscription w audioBuffer tr
    = (Ok data, (tr ++ [Fetch GoogleSpeechRecognize])%list)
    /\ (forall t, data = Some t ->
          exists response,
            googleSpeechRecognize w (calls GoogleSpeechRecognize tr)
              audioBuffer = Ok response
            /\ json response = Ok (Some t)).
Proof.
  unfold callGoogleAITranscription. run_async.
  repeat split_answer; eexists; (split; [reflexivity|]);
    intros t Ht; try discriminate.
  inversion Ht; subst. eexists; split; [reflexivity|assumption].
Qed.

Lemma callGoogleAISentiment_run (text : string) (tr : Trace) :
  exists data,
    callGoogleAISentiment w text tr
    = (Ok data, (tr ++ [Fetch GoogleAnalyzeSentiment])%list)
    /\ (forall s, data = Some s ->
          exists response,
            googleAnalyzeSentiment w (calls GoogleAnalyzeSentiment tr) text
            = Ok response
            /\ json response = Ok (Some s)).
Proof.
  unfold callGoogleAISentiment. run_async.
  repeat split_answer; eexists; (split; [reflexivity|]);
    intros t Ht; try discriminate.
  inversion Ht; subst. eexists; split; [reflexivity|assumption].
Qed.

(** An ElevenLabs attempt opens with the transcription call, may follow it
    with the sentiment call, and succeeds only on what the two reported. *)
Lemma elevenLabsAttempt_run (tr : Trace) :
  exists res ext,
    elevenLabsAttempt w audioBuffer tr
    = (res, (tr ++ Fetch ElevenLabsSpeechToText :: ext)%list)
    /\ (ext = [] \/ ext = [Fetch ElevenLabsSentimentAnalysis])
    /\ (forall r, res = Ok r -> elevenLabsReported w audioBuffer r).
Proof.
  destruct (callElevenLabsTranscription_run tr) as [data [Hrun Hdata]].
  unfold elevenLabsAttempt, bind. rewrite Hrun.
  destruct data as [transcription|];
    [|eexists; exists []; repeat split; auto; discriminate].
  destruct (ElevenLabsTranscriptionResponse.text transcription) as [text|]
    eqn:Htext;
    [|eexists; exists []; repeat split; auto; discriminate].
  destruct (truthy_string text) eqn:Htruthy; cbn [negb];
    [|eexists; exists []; repeat split; auto; discriminate].
  destruct (callElevenLabsSentiment_run text
              (tr ++ [Fetch ElevenLabsSpeechToText])%list)
    as [sdata [Hrun' Hsdata]].
  rewrite Hrun', <- app_assoc. cbn [app].
  destruct sdata as [sentiment|];
    [|eexists; eexists; repeat split; auto; discriminate].
  destruct (ElevenLabsSentimentResponse.emotions sentiment) as [reported|]
    eqn:Hemotions;
    [|eexists; eexists; repeat split; auto; discriminate].
  eexists; eexists; repeat split; auto.
  intros r Hr. inversion Hr; subst r; clear Hr.
  destruct (Hdata _ eq_refl) as [response [Hcall Hjson]].
  destruct (Hsdata _ eq_refl) as [response' [Hcall' Hjson']].
  unfold elevenLabsReported. cbn.
  exists (calls ElevenLabsSpeechToText tr),
    (calls ElevenLabsSentimentAnalysis
       (tr ++ [Fetch ElevenLabsSpeechToText])%list),
    response, transcription, response', sentiment, reported.
  repeat split; auto.
Qed.

Lemma googleAttempt_run (tr : Trace) :
  exists res ext,
    googleAttempt w audioBuffer tr
    = (res, (tr ++ Fetch GoogleSpeechRecognize :: ext)%list)
    /\ (ext = [] \/ ext = [Fetch GoogleAnalyzeSentiment])
    /\ (forall r, res = Ok r -> googleReported w audioBuffer r).
Proof.
  destruct (callGoogleAITranscription_run tr) as [data [Hrun Hdata]].
  unfold googleAttempt, bind. rewrite Hrun.
  destruct data as [transcription|];
    [|eexists; exists []; repeat split; auto; discriminate].
  destruct (GoogleAITranscriptionResponse.results transcription)
    as [results|] eqn:Hresults;
    [|eexists; exists []; repeat split; auto; discriminate].
  destruct (List.length results =? 0)%nat;
    [eexists; exists []; repeat split; auto; discriminate|].
  destruct (truthy_string (googleTranscript results)) eqn:Htruthy; cbn [negb];
    [|eexists; exists []; repeat split; auto; discriminate].
  destruct (callGoogleAISentiment_run (googleTranscript results)
              (tr ++ [Fetch GoogleSpeechRecognize])%list)
    as [sdata [Hrun' Hsdata]].
  rewrite Hrun', <- app_assoc. cbn [app].
  destruct sdata as [sentiment|];
    [|eexists; eexists; repeat split; auto; discriminate].
  eexists; eexists; repeat split; auto.
  intros r Hr. inversion Hr; subst r; clear Hr.
  destruct (Hdata _ eq_refl) as [response [Hcall Hjson]].
  destruct (Hsdata _ eq_refl) as [response' [Hcall' Hjson']].
  unfold googleReported. cbn.
  exists (calls GoogleSpeechRecognize tr),
    (calls GoogleAnalyzeSentiment (tr ++ [Fetch GoogleSpeechRecognize])%list),
    response, transcription, results, response', sentiment.
  repeat split; auto.
Qed.

(** The two loops of the source are the shared retry loop. *)
Lemma elevenLabsLoop_retryLoop (remaining attempt : nat) (tr : Trace) :
  elevenLabsLoop w audioBuffer remaining attempt tr
  = retryLoop (elevenLabsAttempt w audioBuffer) remaining attempt tr.
Proof.
  revert attempt tr.
  induction remaining as [|remaining IH]; intros attempt tr; [reflexivity|].
  cbn [elevenLabsLoop retryLoop]. unfold try_catch, bind.
  destruct (elevenLabsAttempt w audioBuffer tr) as [[r|e] tr1]; [reflexivity|].
  destruct (attempt <? maxRetries)%nat; cbn; apply IH.
Qed.

Lemma googleLoop_retryLoop (remaining attempt : nat) (tr : Trace) :
  googleLoop w audioBuffer remaining attempt tr
  = retryLoop (googleAttempt w audioBuffer) remaining attempt tr.
Proof.
  revert attempt tr.
  induction remaining as [|remaining IH]; intros attempt tr; [reflexivity|].
  cbn [googleLoop retryLoop]. unfold try_catch, bind.
  destruct (googleAttempt w audioBuffer tr) as [[r|e] tr1]; [reflexivity|].
  destruct (attempt <? maxRetries)%nat; cbn; apply IH.
Qed.

End Adapters.

Lemma Endpoint_eqb_refl (e : Endpoint) : Endpoint_eqb e e = true.
Proof. destruct e; reflexivity. Qed.

Lemma calls_app (e : Endpoint) (a b : Trace) :
  calls e (a ++ b)%list = calls e a + calls e b.
Proof. unfold calls. now rewrite filter_app, length_app. Qed.

Lemma attemptsAndDelays_app (e : Endpoint) (a b : Trace) :
  attemptsAndDelays e (a ++ b)%list
  = (attemptsAndDelays e a ++ attemptsAndDelays e b)%list.
Proof. unfold attemptsAndDelays. apply filter_app. Qed.

Section RetryLoop.

Variables transcription sentiment : Endpoint.
Variable attemptBody : Async ProviderResult.t.
Variable Reported : ProviderResult.t -> Prop.

Hypothesis endpoints_differ : Endpoint_eqb sentiment transcription = false.

Hypothesis attempt_run :
  forall tr, exists res ext,
    attemptBody tr = (res, (tr ++ Fetch transcription :: ext)%list)
    /\ (ext = [] \/ ext = [Fetch sentiment])
    /\ (forall r, res = Ok r -> Reported r).

(** What one attempt adds to the trace. *)
Lemma attempt_events (ext : Trace) :
  ext = [] \/ ext = [Fetch sentiment] ->
  calls transcription (Fetch transcription :: ext) = 1
  /\ attemptsAndDelays transcription (Fetch transcription :: ext)
     = [Fetch transcription]
  /\ forallb (adapterEvent transcription sentiment)
       (Fetch transcription :: ext) = true.
Proof.
  intros [Hext|Hext]; subst ext; unfold calls; cbn;
    rewrite ?Endpoint_eqb_refl, ?endpoints_differ, ?orb_true_r; cbn; auto.
Qed.

(** The loop never throws; it makes between one and [remaining] attempts,
    all [remaining] of them when it gives up, with the prescribed wait
    between two consecutive attempts and nothing after the last one. *)
Lemma retryLoop_run (remaining : nat) :
  forall (attempt : nat) (tr : Trace),
    attempt + remaining = maxRetries + 1 ->
    exists res ext n,
      retryLoop attemptBody remaining attempt tr = (Ok res, (tr ++ ext)%list)
      /\ n <= remaining
      /\ (remaining <> 0 -> 1 <= n)
      /\ calls transcription ext = n
      /\ attemptsAndDelays transcription ext
         = expectedSchedule transcription attempt n
      /\ forallb (adapterEvent transcription sentiment) ext = true
      /\ (res = None -> n = remaining)
      /\ (forall r, res = Some r -> Reported r).
Proof.
  induction remaining as [|remaining IH]; intros attempt tr Hsum.
  - exists None, [], 0. rewrite app_nil_r.
    repeat split; auto; intros; congruence.
  - destruct (attempt_run tr) as [res0 [ext0 [Hrun [Hext Hreported]]]].
    destruct (attempt_events ext0 Hext) as [Hcalls [Hsched Hown]].
    cbn [retryLoop]. unfold try_catch, bind. rewrite Hrun.
    destruct res0 as [r|e].
    + exists (Some r), (Fetch transcription :: ext0), 1.
      repeat split; auto; try lia; try discriminate.
      intros r' Hr'. inversion Hr'; subst. now apply Hreported.
    + destruct (attempt <? maxRetries)%nat eqn:Hlast.
      * apply Nat.ltb_lt in Hlast.
        destruct (IH (S attempt)
                    ((tr ++ Fetch transcription :: ext0)
                     ++ [Delay (retryDelayMs * 2 ^ Z.of_nat attempt)])%list)
          as [res [ext [n [Hloop [Hle [Hpos [Hn [Hs [Ho [Hnone Hsome]]]]]]]]]];
          [lia|].
        exists res,
          ((Fetch transcription :: ext0)
           ++ Delay (retryDelayMs * 2 ^ Z.of_nat attempt) :: ext)%list,
          (S n).
        unfold delay, emit. rewrite Hloop.
        repeat split; auto; try lia.
        -- f_equal. now rewrite <- !app_assoc.
        -- rewrite calls_app, Hcalls. unfold calls in *. cbn. lia.
        -- rewrite attemptsAndDelays_app, Hsched.
           unfold attemptsAndDelays in *. cbn. rewrite Hs.
           destruct n as [|n]; [|reflexivity].
           unfold maxRetries in *. lia.
        -- rewrite forallb_app, Hown. cbn. exact Ho.
      * apply Nat.ltb_ge in Hlast.
        assert (remaining = 0) by (unfold maxRetries in *; lia). subst remaining.
        exists None, (Fetch transcription :: ext0), 1.
        repeat split; auto; intros; discriminate.
Qed.

End RetryLoop.

Section Chain.

Variable w : World.
Variable audioBuffer : list byte.
Variable retryCount : nat.

Lemma truthy_string_nonempty (s : string) :
  truthy_string s = true <-> s <> "".
Proof. destruct s; cbn; split; congruence. Qed.

Lemma tryElevenLabsAnalysis_unconfigured (tr : Trace) :
  ELEVENLABS_API_KEY w = "" ->
  tryElevenLabsAnalysis w audioBuffer retryCount tr = (Ok None, tr).
Proof. intros Hkey. unfold tryElevenLabsAnalysis. now rewrite Hkey. Qed.

Lemma tryGoogleAIAnalysis_unconfigured (tr : Trace) :
  GOOGLE_AI_STUDIO_API_KEY w = "" ->
  tryGoogleAIAnalysis w audioBuffer retryCount tr = (Ok None, tr).
Proof. intros Hkey. unfold tryGoogleAIAnalysis. now rewrite Hkey. Qed.

Lemma tryElevenLabsAnalysis_configured (tr : Trace) :
  ELEVENLABS_API_KEY w <> "" ->
  exists res ext n,
    tryElevenLabsAnalysis w audioBuffer retryCount tr
    = (Ok res, (tr ++ ext)%list)
    /\ 1 <= n <= maxRetries + 1
    /\ calls ElevenLabsSpeechToText ext = n
    /\ attemptsAndDelays ElevenLabsSpeechToText ext
       = expectedSchedule ElevenLabsSpeechToText 0 n
    /\ forallb (adapterEvent ElevenLabsSpeechToText
                  ElevenLabsSentimentAnalysis) ext = true
    /\ (res = None -> n = maxRetries + 1)
    /\ (forall r, res = Some r -> elevenLabsReported w audioBuffer r).
Proof.
  intros Hkey. apply truthy_string_nonempty in Hkey.
  unfold tryElevenLabsAnalysis. rewrite Hkey. cbn [negb].
  destruct (retryLoop_run ElevenLabsSpeechToText ElevenLabsSentimentAnalysis
              (elevenLabsAttempt w audioBuffer)
              (elevenLabsReported w audioBuffer) eq_refl
              (elevenLabsAttempt_run w audioBuffer)
              (maxRetries + 1) 0 tr eq_refl)
    as [res [ext [n [Hloop [Hle [Hpos [Hn [Hs [Ho [Hnone Hsome]]]]]]]]]].
  exists res, ext, n. rewrite elevenLabsLoop_retryLoop.
  repeat split; auto. apply Hpos. discriminate.
Qed.

Lemma tryGoogleAIAnalysis_configured (tr : Trace) :
  GOOGLE_AI_STUDIO_API_KEY w <> "" ->
  exists res ext n,
    tryGoogleAIAnalysis w audioBuffer retryCount tr
    = (Ok res, (tr ++ ext)%list)
    /\ 1 <= n <= maxRetries + 1
    /\ calls GoogleSpeechRecognize ext = n
    /\ attemptsAndDelays GoogleSpeechRecognize ext
       = expectedSchedule GoogleSpeechRecognize 0 n
    /\ forallb (adapterEvent GoogleSpeechRecognize GoogleAnalyzeSentiment)
         ext = true
    /\ (res = None -> n = maxRetries + 1)
    /\ (forall r, res = Some r -> googleReported w audioBuffer r).
Proof.
  intros Hkey. apply truthy_string_nonempty in Hkey.
  unfold tryGoogleAIAnalysis. rewrite Hkey. cbn [negb].
  destruct (retryLoop_run GoogleSpeechRecognize GoogleAnalyzeSentiment
              (googleAttempt w audioBuffer)
              (googleReported w audioBuffer) eq_refl
              (googleAttempt_run w audioBuffer)
              (maxRetries + 1) 0 tr eq_refl)
    as [res [ext [n [Hloop [Hle [Hpos [Hn [Hs [Ho [Hnone Hsome]]]]]]]]]].
  exists res, ext, n. rewrite googleLoop_retryLoop.
  repeat split; auto. apply Hpos. discriminate.
Qed.

(** Configured or not, an adapter never throws, produces only events of
    its own, and succeeds only on what its provider reported. *)
Lemma tryElevenLabsAnalysis_run (tr : Trace) :
  exists res ext,
    tryElevenLabsAnalysis w audioBuffer retryCount tr
    = (Ok res, (tr ++ ext)%list)
    /\ forallb (adapterEvent ElevenLabsSpeechToText
                  ElevenLabsSentimentAnalysis) ext = true
    /\ (forall r, res = Some r -> elevenLabsReported w audioBuffer r).
Proof.
  destruct (string_dec (ELEVENLABS_API_KEY w) "") as [Hkey|Hkey].
  - exists None, []. rewrite app_nil_r.
    rewrite (tryElevenLabsAnalysis_unconfigured tr Hkey).
    repeat split; auto; intros; discriminate.
  - destruct (tryElevenLabsAnalysis_configured tr Hkey)
      as [res [ext [n [Hrun [_ [_ [_ [Ho [_ Hsome]]]]]]]]].
    exists res, ext. auto.
Qed.

Lemma tryGoogleAIAnalysis_run (tr : Trace) :
  exists res ext,
    tryGoogleAIAnalysis w audioBuffer retryCount tr
    = (Ok res, (tr ++ ext)%list)
    /\ forallb (adapterEvent GoogleSpeechRecognize GoogleAnalyzeSentiment)
         ext = true
    /\ (forall r, res = Some r -> googleReported w audioBuffer r).
Proof.
  destruct (string_dec (GOOGLE_AI_STUDIO_API_KEY w) "") as [Hkey|Hkey].
  - exists None, []. rewrite app_nil_r.
    rewrite (tryGoogleAIAnalysis_unconfigured tr Hkey).
    repeat split; auto; intros; discriminate.
  - destruct (tryGoogleAIAnalysis_configured tr Hkey)
      as [res [ext [n [Hrun [_ [_ [_ [Ho [_ Hsome]]]]]]]]].
    exists res, ext. auto.
Qed.

(** Events of one adapter are not calls to the endpoints of the other. *)
Lemma adapterEvent_no_calls (own own' other : Endpoint) (ext : Trace) :
  Endpoint_eqb own other = false ->
  Endpoint_eqb own' other = false ->
  forallb (adapterEvent own own') ext = true ->
  calls other ext = 0.
Proof.
  intros Hown Hown' Hext. unfold calls.
  induction ext as [|ev ext IH]; [reflexivity|].
  cbn in Hext. apply andb_true_iff in Hext. destruct Hext as [Hev Hext].
  cbn. destruct ev as [|e|ms]; cbn in *; try (apply IH; assumption).
  destruct e, own, own', other; cbn in *; try discriminate;
    apply IH; assumption.
Qed.

(** The chain: Google runs only when ElevenLabs gave nothing, and the
    chain as a whole never throws. *)
Lemma runProviders_run (tr : Trace) :
  exists fallbackUsed res tr',
    runProviders w audioBuffer retryCount tr = (Ok (fallbackUsed, res), tr')
    /\ (forall r, res = Some r ->
          (fallbackUsed = false /\ elevenLabsReported w audioBuffer r)
          \/ (fallbackUsed = true /\ googleReported w audioBuffer r)).
Proof.
  unfold runProviders, bind.
  destruct (tryElevenLabsAnalysis_run tr) as [res [ext [Hrun [_ Hsome]]]].
  rewrite Hrun. destruct res as [r|].
  - exists false, (Some r), (tr ++ ext)%list. split; [reflexivity|].
    intros r' Hr'. left. split; [reflexivity|]. now apply Hsome.
  - destruct (tryGoogleAIAnalysis_run (tr ++ ext)%list)
      as [res' [ext' [Hrun' [_ Hsome']]]].
    rewrite Hrun'. exists true, res', ((tr ++ ext) ++ ext')%list.
    split; [reflexivity|]. intros r' Hr'. right. split; [reflexivity|].
    now apply Hsome'.
Qed.

End Chain.

End SpeechFacts.

Section MoodAnalysisClaims.

Import SpeechToTextMoodAnalysisService SpeechFacts.

(** A provider confidence below the threshold stays below it after the
    Google adapter's [|| 0.5]. *)
Lemma googleConfidence_low
    (results : list GoogleAITranscriptionResponse.result)
    (first : GoogleAITranscriptionResponse.result)
    (alternative : GoogleAITranscriptionResponse.alternative) :
  hd_error results = Some first ->
  hd_error (GoogleAITranscriptionResponse.alternatives first)
  = Some alternative ->
  PrimFloat.ltb (GoogleAITranscriptionResponse.confidence alternative)
    0.6%float = true ->
  PrimFloat.ltb (googleConfidence results) 0.6%float = true.
Proof.
  intros Hfirst Halt Hlow. unfold googleConfidence, or_number.
  rewrite Hfirst, Halt.
  destruct (truthy_number _); [exact Hlow|reflexivity].
Qed.

Lemma mapGoogleSentimentToEmotions_nonempty
    (documentSentiment : GoogleAISentimentResponse.sentiment) :
  mapGoogleSentimentToEmotions documentSentiment <> [].
Proof.
  unfold mapGoogleSentimentToEmotions.
  repeat split_answer; discriminate.
Qed.

(** The result of [analyzeAudio] in terms of what the chain produced. *)
Lemma analyzeAudio_success (w : World) (audioBuffer : list byte)
    (originalLanguage : option string) (tr tr' : Trace)
    (fallbackUsed : bool) (r : ProviderResult.t) :
  runProviders w audioBuffer 0 (tr ++ [Now])%list
  = (Ok (fallbackUsed, Some r), tr') ->
  exists res,
    analyzeAudio w audioBuffer originalLanguage tr
    = (Ok res, (tr' ++ [Now])%list)
    /\ AnalysisResult.transcript res = ProviderResult.transcript r
    /\ AnalysisResult.confidence res = ProviderResult.confidence r
    /\ AnalysisResult.apiUsed res
       = (if fallbackUsed then "google" else "elevenlabs")
    /\ AnalysisResult.neutralFallbackApplied (AnalysisResult.metadata res)
       = PrimFloat.ltb (ProviderResult.confidence r) 0.6%float
    /\ AnalysisResult.moodAnalysis res
       = (if PrimFloat.ltb (ProviderResult.confidence r) 0.6%float
          then applyNeutralFallback (ProviderResult.moodAnalysis r)
          else ProviderResult.moodAnalysis r).
Proof.
  intros Hrun. unfold analyzeAudio, bind, try_catch, now. rewrite Hrun.
  cbn. eexists. split; [reflexivity|]. cbn. auto.
Qed.

Lemma analyzeAudio_exhausted (w : World) (audioBuffer : list byte)
    (originalLanguage : option string) (tr tr' : Trace)
    (fallbackUsed : bool) :
  runProviders w audioBuffer 0 (tr ++ [Now])%list
  = (Ok (fallbackUsed, None), tr') ->
  exists processingTime,
    analyzeAudio w audioBuffer originalLanguage tr
    = (Ok {| AnalysisResult.transcript := "";
             AnalysisResult.language := "unknown";
             AnalysisResult.moodAnalysis := createNeutralMoodAnalysis;
             AnalysisResult.confidence := 0%float;
             AnalysisResult.apiUsed := "fallback";
             AnalysisResult.processingTime := processingTime;
             AnalysisResult.metadata :=
               {| AnalysisResult.retryCount := 0;
                  AnalysisResult.fallbackUsed := true;
                  AnalysisResult.neutralFallbackApplied := true;
                  AnalysisResult.languageOverride := false |} |},
       (tr' ++ [Now])%list).
Proof.
  intros Hrun. unfold analyzeAudio, bind, try_catch, now. rewrite Hrun.
  cbn. eexists. reflexivity.
Qed.

(** C1: when a provider succeeds with a transcription confidence below
    0.6, the returned mood profile is the neutral one (overall_mood
    'neutral', confidence_score 0.5, sentiment_score 0, one neutral emotion,
    the two try-again recommendations), the transcript is still the text the
    provider transcribed, and neutralFallbackApplied is set.  The confidence
    of an ElevenLabs result is the one its transcription response carries;
    that of a Google result is below 0.6 whenever the one reported for the
    first alternative is ([googleConfidence_low]). *)
Theorem low_confidence_gives_neutral_profile :
  forall (w : World) (audioBuffer : list byte)
         (originalLanguage : option string) (tr tr' : Trace)
         (fallbackUsed : bool) (r : ProviderResult.t),
    runProviders w audioBuffer 0 (tr ++ [Now])%list
    = (Ok (fallbackUsed, Some r), tr') ->
    PrimFloat.ltb (ProviderResult.confidence r) 0.6%float = true ->
    exists res,
      analyzeAudio w audioBuffer originalLanguage tr
      = (Ok res, (tr' ++ [Now])%list)
      /\ overall_mood (AnalysisResult.moodAnalysis res) = "neutral"
      /\ confidence_score (AnalysisResult.moodAnalysis res) = 0.5%float
      /\ sentiment_score (AnalysisResult.moodAnalysis res) = 0%float
      /\ emotions (AnalysisResult.moodAnalysis res)
         = [Emotion.mk "neutral" 0.5%float 0.5%float]
      /\ recommendations (AnalysisResult.moodAnalysis res)
         = ["Consider re-recording with clearer audio";
            "Try speaking more slowly and clearly"]
      /\ AnalysisResult.transcript res = ProviderResult.transcript r
      /\ AnalysisResult.neutralFallbackApplied (AnalysisResult.metadata res)
         = true
      /\ ((fallbackUsed = false /\ elevenLabsReported w audioBuffer r)
          \/ (fallbackUsed = true /\ googleReported w audioBuffer r)).
Proof.
  intros w audioBuffer originalLanguage tr tr' fallbackUsed r Hrun Hlow.
  destruct (analyzeAudio_success w audioBuffer originalLanguage tr tr'
              fallbackUsed r Hrun)
    as [res [Hres [Htranscript [_ [_ [Hgate Hmood]]]]]].
  exists res. rewrite Hlow in Hgate, Hmood. rewrite Hmood.
  repeat split; auto.
  destruct (runProviders_run w audioBuffer 0 (tr ++ [Now])%list)
    as [fb [res0 [tr0 [Hrun0 Hreported]]]].
  rewrite Hrun in Hrun0. inversion Hrun0; subst. now apply Hreported.
Qed.

Lemma low_confidence_gives_neutral_profile_witness :
  exists res,
    analyzeAudio Samples.Speech.faintCry Samples.Speech.audio
      (Some "english") []
    = (Ok res,
       [Now; Fetch ElevenLabsSpeechToText; Fetch ElevenLabsSentimentAnalysis;
        Now])
    /\ overall_mood (AnalysisResult.moodAnalysis res) = "neutral"
    /\ confidence_score (AnalysisResult.moodAnalysis res) = 0.5%float
    /\ AnalysisResult.transcript res = "I feel HOPELESS and worthless"
    /\ AnalysisResult.neutralFallbackApplied (AnalysisResult.metadata res)
       = true.
Proof.
  destruct (low_confidence_gives_neutral_profile
              Samples.Speech.faintCry Samples.Speech.audio (Some "english")
              []
              [Now; Fetch ElevenLabsSpeechToText;
               Fetch ElevenLabsSentimentAnalysis]
              false
              (ProviderResult.mk "I feel HOPELESS and worthless"
                 (elevenLabsMoodAnalysis Samples.Speech.faintCry
                    "I feel HOPELESS and worthless"
                    (ElevenLabsSentimentResponse.mk "negative" 0.9%float
                       (Some [ElevenLabsSentimentResponse.mkEmotion "sadness"
                                0.9%float]))
                    [ElevenLabsSentimentResponse.mkEmotion "sadness"
                       0.9%float])
                 0.3%float)
              eq_refl eq_refl)
    as [res [Hres [Hmood [Hscore [_ [_ [_ [Htranscript [Hgate _]]]]]]]]].
  exists res. repeat split; assumption.
Defined.

(** C2: [analyzeAudio] never throws.  When both adapters come back empty
    handed the result is the placeholder: apiUsed 'fallback', an empty
    transcript, language 'unknown', confidence 0, a neutral mood profile
    with confidence_score 0, sentiment_score 0, one neutral emotion, no
    themes, no risk indicators and the single re-record recommendation, and
    the flags fallbackUsed and neutralFallbackApplied set. *)
Theorem analyzeAudio_never_throws :
  forall (w : World) (audioBuffer : list byte)
         (originalLanguage : option string) (tr : Trace),
    exists res tr',
      analyzeAudio w audioBuffer originalLanguage tr = (Ok res, tr')
      /\ (forall fallbackUsed tr1,
            runProviders w audioBuffer 0 (tr ++ [Now])%list
            = (Ok (fallbackUsed, None), tr1) ->
            AnalysisResult.apiUsed res = "fallback"
            /\ AnalysisResult.transcript res = ""
            /\ AnalysisResult.language res = "unknown"
            /\ AnalysisResult.confidence res = 0%float
            /\ AnalysisResult.moodAnalysis res
               = {| overall_mood := "neutral";
                    confidence_score := 0%float;
                    emotions := [Emotion.mk "neutral" 0.5%float 0%float];
                    sentiment_score := 0%float;
                    key_themes := [];
                    risk_indicators := [];
                    recommendations :=
                      ["Unable to analyze audio. Please try re-recording with clearer audio."] |}
            /\ AnalysisResult.fallbackUsed (AnalysisResult.metadata res) = true
            /\ AnalysisResult.neutralFallbackApplied
                 (AnalysisResult.metadata res) = true).
Proof.
  intros w audioBuffer originalLanguage tr.
  destruct (runProviders_run w audioBuffer 0 (tr ++ [Now])%list)
    as [fb [res0 [tr0 [Hrun _]]]].
  destruct res0 as [r|].
  - destruct (analyzeAudio_success w audioBuffer originalLanguage tr tr0 fb r
                Hrun) as [res [Hres _]].
    exists res, (tr0 ++ [Now])%list. split; [exact Hres|].
    intros fallbackUsed tr1 Hnone. rewrite Hrun in Hnone. discriminate.
  - destruct (analyzeAudio_exhausted w audioBuffer originalLanguage tr tr0 fb
                Hrun) as [processingTime Hres].
    eexists. exists (tr0 ++ [Now])%list. split; [exact Hres|].
    intros _ _ _. cbn. repeat split.
Qed.

Lemma analyzeAudio_never_throws_witness :
  exists res tr',
    analyzeAudio Samples.Speech.allDown Samples.Speech.audio (Some "english")
      [] = (Ok res, tr')
    /\ AnalysisResult.apiUsed res = "fallback"
    /\ AnalysisResult.transcript res = ""
    /\ AnalysisResult.confidence res = 0%float.
Proof.
  destruct (analyzeAudio_never_throws Samples.Speech.allDown
              Samples.Speech.audio (Some "english") [])
    as [res [tr' [Hres Hexhausted]]].
  exists res, tr'. split; [exact Hres|].
  destruct (Hexhausted true
              [Now; Fetch ElevenLabsSpeechToText; Delay 1000;
               Fetch ElevenLabsSpeechToText; Delay 2000;
               Fetch ElevenLabsSpeechToText; Fetch GoogleSpeechRecognize;
               Delay 1000; Fetch GoogleSpeechRecognize; Delay 2000;
               Fetch GoogleSpeechRecognize] eq_refl)
    as [Hapi [Htranscript [_ [Hconfidence _]]]].
  repeat split; assumption.
Defined.

(** C3 does not hold of the code: on the ElevenLabs success path an empty
    emotions array reported by the provider is returned as it is, without
    the neutral emotion that every other producer of a mood profile puts
    in. *)
Lemma elevenLabs_result_without_emotions :
  ~ (forall (w : World) (audioBuffer : list byte)
            (originalLanguage : option string) (tr tr' : Trace)
            (res : AnalysisResult.t),
       analyzeAudio w audioBuffer originalLanguage tr = (Ok res, tr') ->
       emotions (AnalysisResult.moodAnalysis res) <> []).
Proof.
  intros Hclaim.
  eapply (Hclaim Samples.Speech.noEmotions Samples.Speech.audio
            (Some "english") []).
  - lazy. reflexivity.
  - reflexivity.
Qed.

(** C3, where the code departs from it: the emotions list of a returned
    result is non-empty whenever the result comes from the Google adapter,
    from the low-confidence neutral fallback or from the total-failure
    placeholder.  The one path that breaks the invariant is an ElevenLabs
    success that the confidence gate lets through: there the list has
    exactly one entry per emotion the provider reported, so it is empty
    when the provider reported none. *)
Theorem emotions_nonempty_except_elevenLabs_passthrough :
  forall (w : World) (audioBuffer : list byte)
         (originalLanguage : option string) (tr tr' : Trace)
         (res : AnalysisResult.t),
    analyzeAudio w audioBuffer originalLanguage tr = (Ok res, tr') ->
    (AnalysisResult.apiUsed res <> "elevenlabs"
     \/ AnalysisResult.neutralFallbackApplied (AnalysisResult.metadata res)
        = true ->
     emotions (AnalysisResult.moodAnalysis res) <> [])
    /\ (AnalysisResult.apiUsed res = "elevenlabs" ->
        AnalysisResult.neutralFallbackApplied (AnalysisResult.metadata res)
        = false ->
        exists m response sentiment reported,
          elevenLabsSentimentAnalysis w m (AnalysisResult.transcript res)
          = Ok response
          /\ json response = Ok (Some sentiment)
          /\ ElevenLabsSentimentResponse.emotions sentiment = Some reported
          /\ emotions (AnalysisResult.moodAnalysis res)
             = elevenLabsEmotions sentiment reported
          /\ List.length (emotions (AnalysisResult.moodAnalysis res))
             = List.length reported).
Proof.
  intros w audioBuffer originalLanguage tr tr' res Hres.
  destruct (runProviders_run w audioBuffer 0 (tr ++ [Now])%list)
    as [fb [res0 [tr0 [Hrun Hreported]]]].
  destruct res0 as [r|].
  - destruct (analyzeAudio_success w audioBuffer originalLanguage tr tr0 fb r
                Hrun)
      as [res' [Hres' [Htranscript [_ [Hapi [Hgate Hmood]]]]]].
    rewrite Hres in Hres'. inversion Hres'; subst res'.
    rewrite Hapi, Hgate, Hmood, Htranscript.
    destruct (PrimFloat.ltb (ProviderResult.confidence r) 0.6%float).
    { split; [intros _; discriminate|intros _ Hfalse; discriminate]. }
    destruct (Hreported r eq_refl) as [[Hfb Hel]|[Hfb Hgoogle]]; subst fb.
    + split; [intros [Hapi'|Hgate']; congruence|]. intros _ _.
      destruct Hel as [n [m [response [transcription [response'
                        [sentiment [reported
                          [_ [_ [_ [_ [Hcall [Hjson [Hemotions Hm]]]]]]]]]]]]]].
      exists m, response', sentiment, reported. rewrite Hm. cbn.
      repeat split; auto. unfold elevenLabsEmotions. apply length_map.
    + split; [|intros Hapi'; discriminate]. intros _.
      destruct Hgoogle as [n [m [response [transcription [results [response'
                            [sentiment [_ [_ [_ [_ [_ [_ [_ Hm]]]]]]]]]]]]]].
      rewrite Hm. cbn. apply mapGoogleSentimentToEmotions_nonempty.
  - destruct (analyzeAudio_exhausted w audioBuffer originalLanguage tr tr0 fb
                Hrun) as [processingTime Hres'].
    rewrite Hres in Hres'. inversion Hres'; subst. cbn.
    split; [intros _; discriminate|intros Hapi; discriminate].
Qed.

Lemma emotions_nonempty_except_elevenLabs_passthrough_witness :
  emotions
    (AnalysisResult.moodAnalysis
       (AnalysisResult.mk "I feel HOPELESS and worthless" "english"
          (applyNeutralFallback
             (elevenLabsMoodAnalysis Samples.Speech.faintCry
                "I feel HOPELESS and worthless"
                (ElevenLabsSentimentResponse.mk "negative" 0.9%float
                   (Some [ElevenLabsSentimentResponse.mkEmotion "sadness"
                            0.9%float]))
                [ElevenLabsSentimentResponse.mkEmotion "sadness" 0.9%float]))
          0.3%float "elevenlabs" 250
          (AnalysisResult.mkMetadata 0 false true false)))
  <> []
  /\ exists res tr',
       analyzeAudio Samples.Speech.noEmotions Samples.Speech.audio
         (Some "english") [] = (Ok res, tr')
       /\ exists m response sentiment reported,
            elevenLabsSentimentAnalysis Samples.Speech.noEmotions m
              (AnalysisResult.transcript res) = Ok response
            /\ json response = Ok (Some sentiment)
            /\ ElevenLabsSentimentResponse.emotions sentiment = Some reported
            /\ emotions (AnalysisResult.moodAnalysis res)
               = elevenLabsEmotions sentiment reported
            /\ List.length (emotions (AnalysisResult.moodAnalysis res))
               = List.length reported.
Proof.
  split.
  - apply (emotions_nonempty_except_elevenLabs_passthrough
             Samples.Speech.faintCry Samples.Speech.audio (Some "english") []
             [Now; Fetch ElevenLabsSpeechToText;
              Fetch ElevenLabsSentimentAnalysis; Now]
             _ eq_refl).
    right. reflexivity.
  - eexists; eexists. split; [lazy; reflexivity|].
    refine (proj2 (emotions_nonempty_except_elevenLabs_passthrough
                     Samples.Speech.noEmotions Samples.Speech.audio
                     (Some "english") [] _ _ _) _ _);
      [lazy; reflexivity|reflexivity|reflexivity].
Defined.

(** C10: the low-confidence neutral fallback replaces overall_mood,
    confidence_score, emotions, sentiment_score and recommendations only;
    key_themes and risk_indicators stay those derived from the transcript,
    so a risk indicator found in a low-confidence transcript still reaches
    the template selector and selects the crisis template. *)
Theorem neutral_fallback_keeps_themes_and_risks :
  forall (w : World) (audioBuffer : list byte)
         (originalLanguage : option string) (tr tr' : Trace)
         (fallbackUsed : bool) (r : ProviderResult.t),
    runProviders w audioBuffer 0 (tr ++ [Now])%list
    = (Ok (fallbackUsed, Some r), tr') ->
    PrimFloat.ltb (ProviderResult.confidence r) 0.6%float = true ->
    (forall m : MoodAnalysis,
        key_themes (applyNeutralFallback m) = key_themes m
        /\ risk_indicators (applyNeutralFallback m) = risk_indicators m)
    /\ exists res,
         analyzeAudio w audioBuffer originalLanguage tr
         = (Ok res, (tr' ++ [Now])%list)
         /\ key_themes (AnalysisResult.moodAnalysis res)
            = key_themes (ProviderResult.moodAnalysis r)
         /\ risk_indicators (AnalysisResult.moodAnalysis res)
            = risk_indicators (ProviderResult.moodAnalysis r)
         /\ key_themes (AnalysisResult.moodAnalysis res)
            = extractKeyThemes w (AnalysisResult.transcript res)
         /\ risk_indicators (AnalysisResult.moodAnalysis res)
            = detectRiskIndicators w (AnalysisResult.transcript res)
         /\ (risk_indicators (ProviderResult.moodAnalysis r) <> [] ->
             TemplateSelectorService.suggestTemplate
               (Some (AnalysisResult.moodAnalysis res))
             = Ok {| TemplateSelectorService.templateId :=
                       "crisis-support-therapist";
                     TemplateSelectorService.confidence := 0.95%float;
                     TemplateSelectorService.reasoning :=
                       "Risk indicators detected - using crisis support template";
                     TemplateSelectorService.fallbackUsed := false |}).
Proof.
  intros w audioBuffer originalLanguage tr tr' fallbackUsed r Hrun Hlow.
  split; [intros m; split; reflexivity|].
  destruct (analyzeAudio_success w audioBuffer originalLanguage tr tr'
              fallbackUsed r Hrun)
    as [res [Hres [Htranscript [_ [_ [_ Hmood]]]]]].
  rewrite Hlow in Hmood.
  exists res. rewrite Hmood, Htranscript. cbn.
  assert (Hderived :
            key_themes (ProviderResult.moodAnalysis r)
            = extractKeyThemes w (ProviderResult.transcript r)
            /\ risk_indicators (ProviderResult.moodAnalysis r)
               = detectRiskIndicators w (ProviderResult.transcript r)).
  { destruct (runProviders_run w audioBuffer 0 (tr ++ [Now])%list)
      as [fb [res0 [tr0 [Hrun0 Hreported]]]].
    rewrite Hrun in Hrun0. inversion Hrun0; subst fb res0 tr0.
    destruct (Hreported r eq_refl) as [[_ Hel]|[_ Hgoogle]].
    - destruct Hel as [n [m [response [transcription [response'
                        [sentiment [reported
                          [_ [_ [_ [_ [_ [_ [_ Hm]]]]]]]]]]]]]].
      rewrite Hm. split; reflexivity.
    - destruct Hgoogle as [n [m [response [transcription [results [response'
                            [sentiment [_ [_ [_ [_ [_ [_ [_ Hm]]]]]]]]]]]]]].
      rewrite Hm. split; reflexivity. }
  destruct Hderived as [Hthemes Hrisks].
  repeat split; auto.
  intros Hrisk.
  unfold TemplateSelectorService.suggestTemplate,
    TemplateSelectorService.suggestTemplate_body, try_catch_sync,
    TemplateSelectorService.applySelectionLogic.
  cbn [TemplateSelectorService.riskIndicators
         TemplateSelectorService.extractSelectionFactors applyNeutralFallback
         risk_indicators].
  destruct (risk_indicators (ProviderResult.moodAnalysis r));
    [congruence|reflexivity].
Qed.

Lemma neutral_fallback_keeps_themes_and_risks_witness :
  exists res,
    analyzeAudio Samples.Speech.faintCry Samples.Speech.audio
      (Some "english") []
    = (Ok res,
       [Now; Fetch ElevenLabsSpeechToText; Fetch ElevenLabsSentimentAnalysis;
        Now])
    /\ risk_indicators (AnalysisResult.moodAnalysis res)
       = ["hopeless"; "worthless"]
    /\ TemplateSelectorService.suggestTemplate
         (Some (AnalysisResult.moodAnalysis res))
       = Ok {| TemplateSelectorService.templateId :=
                 "crisis-support-therapist";
               TemplateSelectorService.confidence := 0.95%float;
               TemplateSelectorService.reasoning :=
                 "Risk indicators detected - using crisis support template";
               TemplateSelectorService.fallbackUsed := false |}.
Proof.
  destruct (neutral_fallback_keeps_themes_and_risks
              Samples.Speech.faintCry Samples.Speech.audio (Some "english")
              []
              [Now; Fetch ElevenLabsSpeechToText;
               Fetch ElevenLabsSentimentAnalysis]
              false
              (ProviderResult.mk "I feel HOPELESS and worthless"
                 (elevenLabsMoodAnalysis Samples.Speech.faintCry
                    "I feel HOPELESS and worthless"
                    (ElevenLabsSentimentResponse.mk "negative" 0.9%float
                       (Some [ElevenLabsSentimentResponse.mkEmotion "sadness"
                                0.9%float]))
                    [ElevenLabsSentimentResponse.mkEmotion "sadness"
                       0.9%float])
                 0.3%float)
              eq_refl eq_refl)
    as [_ [res [Hres [_ [Hrisks [_ [_ Hcrisis]]]]]]].
  exists res. split; [exact Hres|]. split.
  - rewrite Hrisks. reflexivity.
  - apply Hcrisis. cbn. discriminate.
Defined.

(** C7: every adapter is tried at most maxRetries + 1 = 3 times, all three
    when it gives up, with a wait of retryDelayMs * 2^attemptIndex (1000 ms,
    then 2000 ms) between two consecutive attempts; an adapter whose API key
    is not configured makes no attempt and waits for nothing; and the Google
    adapter runs only after the ElevenLabs adapter has returned nothing,
    starting from exactly where ElevenLabs stopped. *)
Theorem provider_chain_retry_schedule :
  forall (w : World) (audioBuffer : list byte) (retryCount : nat)
         (tr : Trace),
    (ELEVENLABS_API_KEY w <> "" ->
     exists res ext n,
       tryElevenLabsAnalysis w audioBuffer retryCount tr
       = (Ok res, (tr ++ ext)%list)
       /\ 1 <= n <= maxRetries + 1 /\ maxRetries + 1 = 3
       /\ calls ElevenLabsSpeechToText ext = n
       /\ attemptsAndDelays ElevenLabsSpeechToText ext
          = expectedSchedule ElevenLabsSpeechToText 0 n
       /\ (res = None -> n = 3))
    /\ (GOOGLE_AI_STUDIO_API_KEY w <> "" ->
        exists res ext n,
          tryGoogleAIAnalysis w audioBuffer retryCount tr
          = (Ok res, (tr ++ ext)%list)
          /\ 1 <= n <= maxRetries + 1
          /\ calls GoogleSpeechRecognize ext = n
          /\ attemptsAndDelays GoogleSpeechRecognize ext
             = expectedSchedule GoogleSpeechRecognize 0 n
          /\ (res = None -> n = 3))
    /\ (forall transcription,
          expectedSchedule transcription 0 3
          = [Fetch transcription; Delay 1000; Fetch transcription;
             Delay 2000; Fetch transcription])
    /\ (ELEVENLABS_API_KEY w = "" ->
        tryElevenLabsAnalysis w audioBuffer retryCount tr = (Ok None, tr))
    /\ (GOOGLE_AI_STUDIO_API_KEY w = "" ->
        tryGoogleAIAnalysis w audioBuffer retryCount tr = (Ok None, tr))
    /\ (forall res tr1,
          tryElevenLabsAnalysis w audioBuffer retryCount tr = (Ok res, tr1) ->
          match res with
          | Some r =>
              runProviders w audioBuffer retryCount tr
              = (Ok (false, Some r), tr1)
              /\ calls GoogleSpeechRecognize tr1
                 = calls GoogleSpeechRecognize tr
              /\ calls GoogleAnalyzeSentiment tr1
                 = calls GoogleAnalyzeSentiment tr
          | None =>
              exists res' tr2,
                tryGoogleAIAnalysis w audioBuffer retryCount tr1
                = (Ok res', tr2)
                /\ runProviders w audioBuffer retryCount tr
                   = (Ok (true, res'), tr2)
          end).
Proof.
  intros w audioBuffer retryCount tr.
  split; [|split; [|split; [|split; [|split]]]].
  - intros Hkey.
    destruct (tryElevenLabsAnalysis_configured w audioBuffer retryCount tr
                Hkey)
      as [res [ext [n [Hrun [Hn [Hcalls [Hsched [_ [Hnone _]]]]]]]]].
    exists res, ext, n. repeat split; auto; apply Hn.
  - intros Hkey.
    destruct (tryGoogleAIAnalysis_configured w audioBuffer retryCount tr Hkey)
      as [res [ext [n [Hrun [Hn [Hcalls [Hsched [_ [Hnone _]]]]]]]]].
    exists res, ext, n. repeat split; auto; apply Hn.
  - reflexivity.
  - apply tryElevenLabsAnalysis_unconfigured.
  - apply tryGoogleAIAnalysis_unconfigured.
  - intros res tr1 Hrun.
    destruct (tryElevenLabsAnalysis_run w audioBuffer retryCount tr)
      as [res0 [ext [Hrun0 [Hown _]]]].
    rewrite Hrun in Hrun0. inversion Hrun0; subst res0 tr1.
    unfold runProviders, bind. rewrite Hrun.
    destruct res as [r|].
    + split; [reflexivity|].
      rewrite !calls_app.
      rewrite (adapterEvent_no_calls ElevenLabsSpeechToText
                 ElevenLabsSentimentAnalysis GoogleSpeechRecognize ext
                 eq_refl eq_refl Hown).
      rewrite (adapterEvent_no_calls ElevenLabsSpeechToText
                 ElevenLabsSentimentAnalysis GoogleAnalyzeSentiment ext
                 eq_refl eq_refl Hown).
      split; lia.
    + destruct (tryGoogleAIAnalysis_run w audioBuffer retryCount
                  (tr ++ ext)%list) as [res' [ext' [Hrun' _]]].
      exists res', ((tr ++ ext) ++ ext')%list. rewrite Hrun'.
      split; reflexivity.
Qed.

Lemma provider_chain_retry_schedule_witness :
  exists res ext n,
    tryElevenLabsAnalysis Samples.Speech.secondTry Samples.Speech.audio 0 []
    = (Ok res, ([] ++ ext)%list)
    /\ 1 <= n <= maxRetries + 1 /\ maxRetries + 1 = 3
    /\ calls ElevenLabsSpeechToText ext = n
    /\ attemptsAndDelays ElevenLabsSpeechToText ext
       = expectedSchedule ElevenLabsSpeechToText 0 n
    /\ (res = None -> n = 3).
Proof.
  destruct (provider_chain_retry_schedule Samples.Speech.secondTry
              Samples.Speech.audio 0 []) as [Hconfigured _].
  apply Hconfigured. cbn. discriminate.
Defined.

End MoodAnalysisClaims.

(** * Properties of the video generation stage *)

Module VideoFacts.

Import VideoGenerationService.

Lemma count_app (p : Event -> bool) (a b : Trace) :
  count p (a ++ b)%list = count p a + count p b.
Proof. unfold count. now rewrite filter_app, length_app. Qed.

Section Stage.

Variable w : World.
Variable payload : VideoGenerationPayload.
Variables userId dialogueId : string.

(** An upload attempt opens with the download; when it succeeds its value
    is a URL the blob store handed out. *)
Lemma uploadAttempt_run (videoUrl : string) (tr : Trace) :
  exists res ext,
    uploadAttempt w videoUrl userId dialogueId tr
    = (res, (tr ++ Get videoUrl :: ext)%list)
    /\ count is_get ext = 0
    /\ (forall s, res = Ok s -> storageBacked w s).
Proof.
  unfold uploadAttempt, bind, get, now, uploadBuffer, ret.
  destruct (axios_get w (count is_get tr) videoUrl) as [videoBuffer|e].
  - match goal with
    | |- context [storage_uploadBuffer w ?n ?b ?f ?c ?e] =>
        destruct (storage_uploadBuffer w n b f c e) as [uploadedUrl|e']
          eqn:Hupload
    end.
    + eexists; eexists. rewrite <- !app_assoc. cbn [app].
      split; [reflexivity|]. split; [reflexivity|].
      intros s Hs. inversion Hs; subst s.
      eexists; eexists; eexists. exact Hupload.
    + eexists; eexists. rewrite <- !app_assoc. cbn [app].
      split; [reflexivity|]. split; [reflexivity|]. intros; discriminate.
  - exists (Throw e), []. repeat split; auto. intros; discriminate.
Qed.

(** The recursion makes between one and [remaining + 1] attempts, all of
    them when it ends by throwing. *)
Lemma uploadLoop_run (videoUrl : string) (remaining : nat) :
  forall (retry : nat) (tr : Trace),
    exists res ext n,
      uploadLoop w videoUrl userId dialogueId remaining retry tr
      = (res, (tr ++ ext)%list)
      /\ count is_get ext = n
      /\ 1 <= n <= remaining + 1
      /\ (forall e, res = Throw e -> n = remaining + 1)
      /\ (forall s, res = Ok s -> storageBacked w s).
Proof.
  induction remaining as [|remaining IH]; intros retry tr;
    destruct (uploadAttempt_run videoUrl tr)
      as [res0 [ext0 [Hrun [Hgets Hbacked]]]];
    cbn [uploadLoop]; unfold try_catch; rewrite Hrun;
    destruct res0 as [s|e].
  - exists (Ok s), (Get videoUrl :: ext0), 1.
    unfold count in *. cbn. rewrite Hgets.
    repeat split; auto; intros; discriminate.
  - exists (Throw e), (Get videoUrl :: ext0), 1.
    unfold count in *. cbn. rewrite Hgets.
    repeat split; auto; intros; discriminate.
  - exists (Ok s), (Get videoUrl :: ext0), 1.
    unfold count in *. cbn. rewrite Hgets.
    repeat split; auto; try lia; intros; discriminate.
  - destruct (IH (S retry) (tr ++ Get videoUrl :: ext0)%list)
      as [res [ext [n [Hloop [Hn [Hrange [Hthrow Hok]]]]]]].
    exists res, ((Get videoUrl :: ext0) ++ ext)%list, (S n).
    rewrite Hloop, <- app_assoc.
    split; [reflexivity|]. split.
    { rewrite count_app, Hn. unfold count in *. cbn. rewrite Hgets.
      reflexivity. }
    split; [lia|]. split; [|exact Hok].
    intros e' He'. rewrite (Hthrow e' He'). lia.
Qed.


Lemma count_snoc (p : Event -> bool) (tr : Trace) (ev : Event) :
  count p (tr ++ [ev])%list = count p tr + (if p ev then 1 else 0).
Proof. rewrite count_app. unfold count. cbn. now destruct (p ev). Qed.

(** One pass through the [try] block of [uploadVideoToStorage], call by
    call. *)
Lemma uploadAttempt_eq (videoUrl : string) (tr : Trace) :
  uploadAttempt w videoUrl userId dialogueId tr
  = match axios_get w (count is_get tr) videoUrl with
    | Throw error => (Throw error, (tr ++ [Get videoUrl])%list)
    | Ok videoBuffer =>
        (storage_uploadBuffer w (count is_upload tr) videoBuffer
           (storagePath userId dialogueId (clock w (count is_now tr)))
           "video/mp4" true,
         (tr ++ [Get videoUrl; Now;
                 UploadBuffer
                   (storagePath userId dialogueId
                      (clock w (count is_now tr)))])%list)
    end.
Proof.
  unfold uploadAttempt, bind, get, now, uploadBuffer, ret.
  destruct (axios_get w (count is_get tr) videoUrl) as [videoBuffer|error];
    [|reflexivity].
  rewrite !count_snoc. cbn [is_now is_upload]. rewrite !Nat.add_0_r.
  unfold storagePath. rewrite <- !app_assoc. cbn [app].
  destruct (storage_uploadBuffer w (count is_upload tr) videoBuffer
              ("videos/" ++ userId ++ "/" ++ dialogueId ++ "/"
               ++ show_N (clock w (count is_now tr)) ++ "_avatar.mp4")
              "video/mp4" true); reflexivity.
Qed.



Lemma acceptedFrom_earlier (tr0 tr1 tr : Trace) (l : Locals) :
  (forall p, count p tr0 <= count p tr1) ->
  acceptedFrom w payload tr1 tr l -> acceptedFrom w payload tr0 tr l.
Proof.
  intros Hle. unfold acceptedFrom.
  destruct (l_provider l); intros [n [data [Hn Hrest]]];
    exists n, data; (split; [|exact Hrest]).
  - specialize (Hle (is_post D_ID)). lia.
  - specialize (Hle (is_post JOGG)). lia.
Qed.

(** One iteration of the provider loop, entered without a media URL:
    D-ID is called; unless it delivers a URL, JOGG is called; the iteration
    breaks exactly when one of them delivered, and then the locals name
    that provider and hold its URL. *)
Lemma providerIteration_run (tr : Trace) (l : Locals) :
  truthy_ostring (l_videoUrl l) = false ->
  exists stop ext l',
    providerIteration w payload (tr, l) = (Ok stop, ((tr ++ ext)%list, l'))
    /\ (ext = [Post D_ID] \/ ext = [Post D_ID; Post JOGG])
    /\ truthy_ostring (l_videoUrl l') = stop
    /\ (stop = true -> acceptedFrom w payload tr (tr ++ ext)%list l')
    /\ (forall data,
          did_post w (count (is_post D_ID) tr) (didRequestBody payload)
          = Ok data ->
          truthy_ostring (didVideoUrl data) = false ->
          ext = [Post D_ID; Post JOGG] /\ l_provider l' = JOGG).
Proof.
  intros Hempty.
  unfold providerIteration, callDIDApi, callJOGGApi.
  unfold try_catch, bind, lift, post_DID, post_JOGG, assign, ret, throw.
  cbv beta iota zeta delta [fst snd].
  assert (Hjogg : count (is_post JOGG) (tr ++ [Post D_ID])%list
                  = count (is_post JOGG) tr)
    by (rewrite count_snoc; cbn; lia).
  destruct (did_post w (count (is_post D_ID) tr) (didRequestBody payload))
    as [data|e] eqn:Hdid; cbv beta iota zeta delta [fst snd]; rewrite ?Hjogg.
  - destruct (truthy_ostring (didVideoUrl data)) eqn:Hurl; cbv beta iota zeta delta [fst snd negb];
      rewrite ?Hjogg.
    + exists true, [Post D_ID]. eexists. split; [reflexivity|].
      split; [now left|]. split; [exact Hurl|]. split.
      * intros _. unfold acceptedFrom. cbn.
        exists (count (is_post D_ID) tr), data.
        rewrite count_snoc. cbn. repeat split; auto; lia.
      * intros data' Hdata' Hurl'. congruence.
    + destruct (jogg_post w (count (is_post JOGG) tr) (joggRequestBody payload))
        as [jdata|je] eqn:Hpost; cbv beta iota zeta delta [fst snd].
      * destruct (truthy_ostring (joggVideoUrl jdata)) eqn:Hjurl;
          cbv beta iota zeta delta [fst snd negb].
        -- exists true, [Post D_ID; Post JOGG]. eexists.
           rewrite <- app_assoc. split; [reflexivity|].
           split; [now right|]. split; [exact Hjurl|]. split; [|auto].
           intros _. unfold acceptedFrom. cbn.
           exists (count (is_post JOGG) tr), jdata.
           rewrite count_app.
           change (count (is_post JOGG) [Post D_ID; Post JOGG]) with 1.
           repeat split; auto; lia.
        -- exists false, [Post D_ID; Post JOGG]. eexists.
           rewrite <- app_assoc. split; [reflexivity|].
           split; [now right|]. split; [exact Hjurl|].
           split; [discriminate|auto].
      * exists false, [Post D_ID; Post JOGG]. eexists.
        rewrite <- app_assoc. split; [reflexivity|].
        split; [now right|]. split; [exact Hurl|].
        split; [discriminate|auto].
  - destruct (jogg_post w (count (is_post JOGG) tr) (joggRequestBody payload))
      as [jdata|je] eqn:Hpost; cbv beta iota zeta delta [fst snd].
    + destruct (truthy_ostring (joggVideoUrl jdata)) eqn:Hjurl;
        cbv beta iota zeta delta [fst snd negb].
      * exists true, [Post D_ID; Post JOGG]. eexists.
        rewrite <- app_assoc. split; [reflexivity|].
        split; [now right|]. split; [exact Hjurl|]. split; [|auto].
        intros _. unfold acceptedFrom. cbn.
        exists (count (is_post JOGG) tr), jdata.
        rewrite count_app.
        change (count (is_post JOGG) [Post D_ID; Post JOGG]) with 1.
        repeat split; auto; lia.
      * exists false, [Post D_ID; Post JOGG]. eexists.
        rewrite <- app_assoc. split; [reflexivity|].
        split; [now right|]. split; [exact Hjurl|].
        split; [discriminate|auto].
    + exists false, [Post D_ID; Post JOGG]. eexists.
      rewrite <- app_assoc. split; [reflexivity|].
      split; [now right|]. split; [exact Hempty|].
      split; [discriminate|auto].
Qed.

(** The provider loop never throws; it leaves a media URL in the locals
    only together with the provider that delivered it. *)
Lemma providerLoop_run (remaining : nat) :
  forall (attempt : nat) (tr : Trace) (l : Locals),
    truthy_ostring (l_videoUrl l) = false ->
    exists ext l',
      providerLoop w payload remaining attempt (tr, l)
      = (Ok tt, ((tr ++ ext)%list, l'))
      /\ count is_get ext = 0
      /\ (truthy_ostring (l_videoUrl l') = true ->
          acceptedFrom w payload tr (tr ++ ext)%list l')
      /\ (remaining <> 0 ->
          forall data,
            did_post w (count (is_post D_ID) tr) (didRequestBody payload)
            = Ok data ->
            truthy_ostring (didVideoUrl data) = false ->
            exists rest, ext = Post D_ID :: Post JOGG :: rest).
Proof.
  induction remaining as [|remaining IH]; intros attempt tr l Hempty.
  - exists [], l. rewrite app_nil_r. cbn.
    repeat split; auto; intros; congruence.
  - destruct (providerIteration_run tr l Hempty)
      as [stop [ext0 [l0 [Hrun [Hext0 [Hurl [Haccepted Hfirst]]]]]]].
    assert (Hgets0 : count is_get ext0 = 0)
      by (destruct Hext0; subst ext0; reflexivity).
    cbn [providerLoop]. unfold bind. rewrite Hrun.
    destruct stop; cbv beta iota.
    + exists ext0, l0. split; [reflexivity|]. repeat split; auto.
      intros _ data Hdata Hfalsy.
      destruct (Hfirst data Hdata Hfalsy) as [Hext _].
      exists []. exact Hext.
    + destruct (IH (S attempt) (tr ++ ext0)%list l0 Hurl)
        as [ext [l' [Hloop [Hgets [Hacc _]]]]].
      exists (ext0 ++ ext)%list, l'.
      split; [rewrite app_assoc; exact Hloop|].
      split; [rewrite count_app; lia|]. split.
      * intros Htruthy. rewrite app_assoc.
        apply (acceptedFrom_earlier tr (tr ++ ext0)%list); [|auto].
        intros p. rewrite count_app. lia.
      * intros _ data Hdata Hfalsy.
        destruct (Hfirst data Hdata Hfalsy) as [Hext _].
        exists ext. rewrite Hext. reflexivity.
Qed.

(** [generateAvatarVideo] in terms of its two phases. *)
Lemma generateAvatarVideo_run (templateId videoId : string) (tr : Trace) :
  exists ext l,
    runProviderLoop w payload tr = (Ok tt, ((tr ++ ext)%list, l))
    /\ (truthy_ostring (l_videoUrl l) = true ->
        acceptedFrom w payload tr (tr ++ ext)%list l)
    /\ (forall data,
          did_post w (count (is_post D_ID) tr) (didRequestBody payload)
          = Ok data ->
          truthy_ostring (didVideoUrl data) = false ->
          exists rest, ext = Post D_ID :: Post JOGG :: rest)
    /\ match l_videoUrl l with
       | Some (String c rest) =>
           match uploadVideoToStorage w (String c rest) userId dialogueId 0
                   (tr ++ ext)%list with
           | (Ok storageUrl, tr2) =>
               generateAvatarVideo w payload userId dialogueId templateId
                 videoId tr
               = (Ok {| videoUrl := storageUrl;
                        provider := l_provider l;
                        status := completed;
                        errorMessage := l_errorMessage l;
                        duration := None;
                        providerResponse := l_providerResponse l |}, tr2)
           | (Throw storageError, tr2) =>
               generateAvatarVideo w payload userId dialogueId templateId
                 videoId tr
               = (Ok {| videoUrl := "";
                        provider := l_provider l;
                        status := failed;
                        errorMessage := Some (message storageError);
                        duration := None;
                        providerResponse := None |}, tr2)
           end
       | _ =>
           generateAvatarVideo w payload userId dialogueId templateId videoId
             tr
           = (Ok {| videoUrl := "";
                    provider := l_provider l;
                    status := failed;
                    errorMessage :=
                      or_ostring (l_errorMessage l)
                        (Some "Both video providers failed to generate video.");
                    duration := None;
                    providerResponse := None |}, (tr ++ ext)%list)
       end.
Proof.
  destruct (providerLoop_run PROVIDER_RETRY_LIMIT 0 tr initialLocals eq_refl)
    as [ext [l [Hloop [_ [Haccepted Hfirst]]]]].
  exists ext, l.
  split; [exact Hloop|]. split; [exact Haccepted|].
  split; [apply Hfirst; discriminate|].
  unfold generateAvatarVideo, with_locals, bind.
  change (providerLoop w payload PROVIDER_RETRY_LIMIT 0 (tr, initialLocals))
    with (runProviderLoop w payload tr).
  unfold runProviderLoop. rewrite Hloop.
  unfold read. cbv beta iota zeta delta [fst snd].
  destruct (l_videoUrl l) as [[|c rest]|]; try reflexivity.
  unfold try_catch, bind, lift, assign, ret.
  cbv beta iota zeta delta [fst snd].
  destruct (uploadVideoToStorage w (String c rest) userId dialogueId 0
              (tr ++ ext)%list) as [[storageUrl|storageError] tr2];
    reflexivity.
Qed.

(** The end-to-end scenario of the design: D-ID throws, JOGG delivers a
    media URL, the download and the first upload succeed. *)
Lemma secondary_provider_scenario (templateId videoId : string) (tr : Trace)
    (didError : JsError) (data : option ProviderData) (c : ascii)
    (rest : string) (videoBuffer : list byte) (storageUrl : string) :
  did_post w (count (is_post D_ID) tr) (didRequestBody payload)
  = Throw didError ->
  jogg_post w (count (is_post JOGG) tr) (joggRequestBody payload) = Ok data ->
  joggVideoUrl data = Some (String c rest) ->
  axios_get w (count is_get tr) (String c rest) = Ok videoBuffer ->
  let fileName :=
    "videos/" ++ userId ++ "/" ++ dialogueId ++ "/"
    ++ show_N (clock w (count is_now tr)) ++ "_avatar.mp4" in
  storage_uploadBuffer w (count is_upload tr) videoBuffer fileName
    "video/mp4" true = Ok storageUrl ->
  generateAvatarVideo w payload userId dialogueId templateId videoId tr
  = (Ok {| videoUrl := storageUrl;
           provider := JOGG;
           status := completed;
           errorMessage := None;
           duration := None;
           providerResponse := data |},
     (tr ++ [Post D_ID; Post JOGG; Get (String c rest); Now;
             UploadBuffer fileName])%list).
Proof.
  intros Hdid Hjogg Hurl Hget fileName Hupload.
  assert (Hiter : providerIteration w payload (tr, initialLocals)
                  = (Ok true,
                     ((tr ++ [Post D_ID; Post JOGG])%list,
                      {| l_provider := JOGG;
                         l_providerResponse := data;
                         l_videoUrl := Some (String c rest);
                         l_errorMessage := None;
                         l_status := processing |}))).
  { unfold providerIteration, callDIDApi, callJOGGApi.
    unfold try_catch, bind, lift, post_DID, post_JOGG, assign, ret, throw.
    cbv beta iota zeta delta [fst snd].
    rewrite Hdid. cbv beta iota zeta delta [fst snd].
    rewrite count_snoc. cbn [is_post]. rewrite Nat.add_0_r, Hjogg.
    cbv beta iota zeta delta [fst snd]. rewrite Hurl.
    cbv beta iota zeta delta [fst snd negb truthy_ostring truthy_string].
    rewrite <- app_assoc. reflexivity. }
  assert (Hattempt :
            uploadAttempt w (String c rest) userId dialogueId
              (tr ++ [Post D_ID; Post JOGG])%list
            = (Ok storageUrl,
               (tr ++ [Post D_ID; Post JOGG; Get (String c rest); Now;
                       UploadBuffer fileName])%list)).
  { unfold uploadAttempt, bind, get, now, uploadBuffer, ret.
    unfold count in *. rewrite !filter_app, !length_app.
    cbn [filter is_get is_now is_upload List.length].
    rewrite !Nat.add_0_r, Hget. fold fileName. rewrite Hupload.
    rewrite <- !app_assoc. reflexivity. }
  unfold generateAvatarVideo, with_locals, bind.
  unfold PROVIDER_RETRY_LIMIT. cbn [providerLoop]. unfold bind.
  rewrite Hiter. unfold read, ret. cbv beta iota zeta delta [fst snd l_videoUrl].
  unfold try_catch, bind, lift, assign, ret.
  cbv beta iota zeta delta [fst snd].
  unfold uploadVideoToStorage. cbn [Nat.sub STORAGE_RETRY_LIMIT uploadLoop].
  unfold try_catch. rewrite Hattempt. reflexivity.
Qed.

End Stage.

End VideoFacts.

Section VideoGenerationClaims.

Import VideoGenerationService VideoFacts.

(** C5: a D-ID response without a media URL is a failure, so JOGG is called
    next; and when a provider has delivered and the upload succeeds, the
    result is completed, names the provider whose response carried the
    accepted media URL, and its videoUrl is the URL the blob store returned.
    The videoUrl of a result is never anything but empty or a URL handed out
    by the blob store.  Last comes the scenario where D-ID throws, JOGG
    delivers and the first upload succeeds. *)
Theorem missing_url_falls_back_and_storage_url_is_returned :
  forall (w : World) (payload : VideoGenerationPayload)
         (userId dialogueId templateId videoId : string) (tr : Trace),
    (forall data,
        did_post w (count (is_post D_ID) tr) (didRequestBody payload)
        = Ok data ->
        truthy_ostring (didVideoUrl data) = false ->
        exists res rest,
          generateAvatarVideo w payload userId dialogueId templateId videoId
            tr
          = (Ok res, (tr ++ Post D_ID :: Post JOGG :: rest)%list))
    /\ (forall tr1 l c rest storageUrl tr2,
          runProviderLoop w payload tr = (Ok tt, (tr1, l)) ->
          l_videoUrl l = Some (String c rest) ->
          uploadVideoToStorage w (String c rest) userId dialogueId 0 tr1
          = (Ok storageUrl, tr2) ->
          acceptedFrom w payload tr tr1 l
          /\ storageBacked w storageUrl
          /\ generateAvatarVideo w payload userId dialogueId templateId
               videoId tr
             = (Ok {| videoUrl := storageUrl;
                      provider := l_provider l;
                      status := completed;
                      errorMessage := l_errorMessage l;
                      duration := None;
                      providerResponse := l_providerResponse l |}, tr2))
    /\ (forall res tr',
          generateAvatarVideo w payload userId dialogueId templateId videoId
            tr = (Ok res, tr') ->
          videoUrl res = "" \/ storageBacked w (videoUrl res))
    /\ (forall didError data c rest videoBuffer storageUrl,
          did_post w (count (is_post D_ID) tr) (didRequestBody payload)
          = Throw didError ->
          jogg_post w (count (is_post JOGG) tr) (joggRequestBody payload)
          = Ok data ->
          joggVideoUrl data = Some (String c rest) ->
          axios_get w (count is_get tr) (String c rest) = Ok videoBuffer ->
          storage_uploadBuffer w (count is_upload tr) videoBuffer
            ("videos/" ++ userId ++ "/" ++ dialogueId ++ "/"
             ++ show_N (clock w (count is_now tr)) ++ "_avatar.mp4")
            "video/mp4" true = Ok storageUrl ->
          exists tr',
            generateAvatarVideo w payload userId dialogueId templateId
              videoId tr
            = (Ok {| videoUrl := storageUrl;
                     provider := JOGG;
                     status := completed;
                     errorMessage := None;
                     duration := None;
                     providerResponse := data |}, tr')).
Proof.
  intros w payload userId dialogueId templateId videoId tr.
  destruct (generateAvatarVideo_run w payload userId dialogueId templateId
              videoId tr)
    as [ext [l [Hloop [Haccepted [Hfirst Hresult]]]]].
  split; [|split; [|split]];
    [| | |intros didError data c rest videoBuffer storageUrl
            Hdid Hjogg Hurl Hget Hupload;
          eexists;
          exact (secondary_provider_scenario w payload userId dialogueId
                   templateId videoId tr didError data c rest videoBuffer
                   storageUrl Hdid Hjogg Hurl Hget Hupload)].
  - intros data Hdata Hfalsy.
    destruct (Hfirst data Hdata Hfalsy) as [rest0 Hext]. subst ext.
    destruct (l_videoUrl l) as [[|c rest]|].
    + eexists; exists rest0. exact Hresult.
    + destruct (uploadLoop_run w userId dialogueId (String c rest)
                  (STORAGE_RETRY_LIMIT - 0) 0
                  (tr ++ Post D_ID :: Post JOGG :: rest0)%list)
        as [up [ext' [n [Hup _]]]].
      unfold uploadVideoToStorage in Hresult. rewrite Hup in Hresult.
      rewrite <- app_assoc in Hresult. cbn [app] in Hresult.
      destruct up; eexists; eexists; exact Hresult.
    + eexists; exists rest0. exact Hresult.
  - intros tr1 l1 c rest storageUrl tr2 Hloop1 Hurl Hup.
    rewrite Hloop in Hloop1. inversion Hloop1; subst tr1 l1.
    rewrite Hurl, Hup in Hresult.
    split; [apply Haccepted; now rewrite Hurl|].
    split; [|exact Hresult].
    destruct (uploadLoop_run w userId dialogueId (String c rest)
                (STORAGE_RETRY_LIMIT - 0) 0 (tr ++ ext)%list)
      as [up [ext' [n [Hup' [_ [_ [_ Hbacked]]]]]]].
    unfold uploadVideoToStorage in Hup. rewrite Hup in Hup'.
    inversion Hup'; subst up. now apply Hbacked.
  - intros res tr' Hres.
    destruct (l_videoUrl l) as [[|c rest]|].
    + rewrite Hres in Hresult. inversion Hresult. now left.
    + destruct (uploadLoop_run w userId dialogueId (String c rest)
                  (STORAGE_RETRY_LIMIT - 0) 0 (tr ++ ext)%list)
        as [up [ext' [n [Hup [_ [_ [_ Hbacked]]]]]]].
      unfold uploadVideoToStorage in Hresult. rewrite Hup in Hresult.
      destruct up as [storageUrl|storageError];
        rewrite Hres in Hresult; inversion Hresult; cbn.
      * right. now apply Hbacked.
      * now left.
    + rewrite Hres in Hresult. inversion Hresult. now left.
Qed.

Lemma missing_url_falls_back_and_storage_url_is_returned_witness :
  exists res rest,
    generateAvatarVideo Samples.Video.didWithoutUrl Samples.Video.payload
      "user123" "dialogue123" "template123" "video123" []
    = (Ok res, ([] ++ Post D_ID :: Post JOGG :: rest)%list).
Proof.
  destruct (missing_url_falls_back_and_storage_url_is_returned
              Samples.Video.didWithoutUrl Samples.Video.payload
              "user123" "dialogue123" "template123" "video123" [])
    as [Hfallback _].
  apply (Hfallback (Some {| video_url := None; download_url := None |}));
    reflexivity.
Defined.



End VideoGenerationClaims.

(** * Further properties of the template selector *)

Section TemplateSelectorExtras.

Import TemplateSelectorService.

Lemma fold_left_picks_one {A} (f : A -> A -> A) :
  (forall a b, f a b = a \/ f a b = b) ->
  forall (l : list A) (a : A), In (fold_left f l a) (a :: l).
Proof.
  intros Hpick l. induction l as [|x l IH]; intros a; cbn [fold_left].
  - now left.
  - destruct (IH (f a x)) as [Hhead|Htail].
    + destruct (Hpick a x) as [Hf|Hf].
      * left. rewrite <- Hhead. symmetry. exact Hf.
      * right. left. rewrite <- Hhead. symmetry. exact Hf.
    + right. right. exact Htail.
Qed.

(** X1: the primary emotion of a non-empty emotions list is the name of one
    of its entries; of an empty list it is 'neutral'. *)
Theorem primary_emotion_is_listed :
  forall emotions : list Emotion.t,
    emotions <> [] ->
    In (getPrimaryEmotion emotions) (map Emotion.name emotions)
    /\ getPrimaryEmotion [] = "neutral".
Proof.
  intros emotions Hnonempty. split; [|reflexivity].
  destruct emotions as [|first rest]; [congruence|].
  unfold getPrimaryEmotion. apply in_map.
  apply fold_left_picks_one.
  intros prev current.
  destruct (PrimFloat.ltb (Emotion.intensity prev) (Emotion.intensity current));
    auto.
Qed.

Lemma primary_emotion_is_listed_witness :
  In (getPrimaryEmotion [Emotion.mk "sadness" 0.9%float 0.8%float;
                         Emotion.mk "anxiety" 0.7%float 0.8%float])
     ["sadness"; "anxiety"]
  /\ getPrimaryEmotion [] = "neutral".
Proof.
  apply (primary_emotion_is_listed
           [Emotion.mk "sadness" 0.9%float 0.8%float;
            Emotion.mk "anxiety" 0.7%float 0.8%float]).
  discriminate.
Defined.

Lemma firstMatch_outcome
    (rules : list ((SelectionFactors -> bool) * TemplateSuggestion))
    (otherwise : TemplateSuggestion) (factors : SelectionFactors) :
  In (firstMatch rules otherwise factors) (otherwise :: map snd rules).
Proof.
  induction rules as [|[condition outcome] rules IH]; cbn.
  - now left.
  - destruct (condition factors).
    + right. now left.
    + destruct IH as [IH|IH]; [now left|right; now right].
Qed.

(** X2: whatever the mood profile, the selector suggests one of its nine
    template ids with fallbackUsed = false; the id 'default-therapist' and
    fallbackUsed = true are returned for a null profile only. *)
Theorem suggested_template_is_one_of_nine :
  forall m : MoodAnalysis,
    exists s,
      suggestTemplate (Some m) = Ok s
      /\ In (templateId s)
           ["crisis-support-therapist"; "motivational-coach";
            "empathetic-therapist"; "supportive-counselor"; "life-coach";
            "career-counselor"; "family-therapist"; "wellness-coach";
            "general-therapist"]
      /\ fallbackUsed s = false
      /\ templateId s <> "default-therapist"
      /\ suggestTemplate None = Ok defaultSuggestion.
Proof.
  intros m.
  exists (firstMatch ruleTable generalSuggestion (extractSelectionFactors m)).
  split; [reflexivity|].
  pose proof (firstMatch_outcome ruleTable generalSuggestion
                (extractSelectionFactors m)) as Hin.
  cbn [map ruleTable snd In] in Hin.
  repeat (destruct Hin as [Hin|Hin];
          [rewrite <- Hin; cbn; repeat split; auto 12; discriminate|]).
  destruct Hin.
Qed.

(** X3: when the catalogue holds an active template, the fallback id is the
    id of an active template of the catalogue, and it passes
    [validateTemplateId] unless it is the empty id. *)
Theorem fallback_template_is_valid :
  forall availableTemplates : list Template,
    (exists t, In t availableTemplates /\ is_active t = true) ->
    (exists t, In t availableTemplates /\ is_active t = true
               /\ getFallbackTemplateId availableTemplates = id t)
    /\ (getFallbackTemplateId availableTemplates <> "" ->
        validateTemplateId (getFallbackTemplateId availableTemplates)
          availableTemplates = true).
Proof.
  intros availableTemplates Hactive.
  assert (Hchosen : exists t, In t availableTemplates /\ is_active t = true
                              /\ getFallbackTemplateId availableTemplates
                                 = id t).
  { unfold getFallbackTemplateId.
    destruct (find (fun template =>
                      is_active template && (category template =? "general"))
                availableTemplates) as [general|] eqn:Hgeneral.
    - destruct (find_some _ _ Hgeneral) as [Hin Hprop].
      apply andb_true_iff in Hprop. exists general. tauto.
    - destruct (find_exists (fun template => is_active template)
                  availableTemplates Hactive) as [t [Hfind [Hin Hact]]].
      rewrite Hfind. exists t. auto. }
  split; [exact Hchosen|].
  intros Hnonempty. apply validateTemplateId_nonempty; [exact Hnonempty|].
  destruct Hchosen as [t [Hin [Hact Hid]]]. exists t. auto.
Qed.

Lemma fallback_template_is_valid_witness :
  validateTemplateId (getFallbackTemplateId Samples.catalogue)
    Samples.catalogue = true.
Proof.
  destruct (fallback_template_is_valid Samples.catalogue) as [_ Hvalid].
  - exists (Samples.template "empathetic-therapist" "emotional" true).
    cbn. auto.
  - apply Hvalid. discriminate.
Defined.

End TemplateSelectorExtras.

(** * Further properties of the mood analysis stage *)

Module SpeechExtras.

Import SpeechToTextMoodAnalysisService SpeechFacts.

Section Results.

Variable w : World.
Variable audioBuffer : list byte.

(** A successful attempt carries a non-empty transcript. *)
Lemma elevenLabsAttempt_transcript (tr tr' : Trace) (r : ProviderResult.t) :
  elevenLabsAttempt w audioBuffer tr = (Ok r, tr') ->
  truthy_string (ProviderResult.transcript r) = true.
Proof.
  destruct (callElevenLabsTranscription_run w audioBuffer tr)
    as [data [Hrun _]].
  unfold elevenLabsAttempt, bind. rewrite Hrun.
  destruct data as [transcription|]; [|discriminate].
  destruct (ElevenLabsTranscriptionResponse.text transcription) as [text|];
    [|discriminate].
  destruct (truthy_string text) eqn:Htruthy; cbn [negb]; [|discriminate].
  destruct (callElevenLabsSentiment_run w text
              (tr ++ [Fetch ElevenLabsSpeechToText])%list)
    as [sdata [Hrun' _]].
  rewrite Hrun'.
  destruct sdata as [sentiment|]; [|discriminate].
  destruct (ElevenLabsSentimentResponse.emotions sentiment); [|discriminate].
  intros Hr. inversion Hr. exact Htruthy.
Qed.

Lemma googleAttempt_transcript (tr tr' : Trace) (r : ProviderResult.t) :
  googleAttempt w audioBuffer tr = (Ok r, tr') ->
  truthy_string (ProviderResult.transcript r) = true.
Proof.
  destruct (callGoogleAITranscription_run w audioBuffer tr)
    as [data [Hrun _]].
  unfold googleAttempt, bind. rewrite Hrun.
  destruct data as [transcription|]; [|discriminate].
  destruct (GoogleAITranscriptionResponse.results transcription)
    as [results|]; [|discriminate].
  destruct (List.length results =? 0)%nat; [discriminate|].
  destruct (truthy_string (googleTranscript results)) eqn:Htruthy;
    cbn [negb]; [|discriminate].
  destruct (callGoogleAISentiment_run w (googleTranscript results)
              (tr ++ [Fetch GoogleSpeechRecognize])%list)
    as [sdata [Hrun' _]].
  rewrite Hrun'.
  destruct sdata as [sentiment|]; [|discriminate].
  intros Hr. inversion Hr. exact Htruthy.
Qed.

Lemma attempt_run_also (transcription sentiment : Endpoint)
    (attemptBody : Async ProviderResult.t)
    (P Q : ProviderResult.t -> Prop) :
  (forall tr, exists res ext,
      attemptBody tr = (res, (tr ++ Fetch transcription :: ext)%list)
      /\ (ext = [] \/ ext = [Fetch sentiment])
      /\ (forall r, res = Ok r -> P r)) ->
  (forall tr tr' r, attemptBody tr = (Ok r, tr') -> Q r) ->
  forall tr, exists res ext,
      attemptBody tr = (res, (tr ++ Fetch transcription :: ext)%list)
      /\ (ext = [] \/ ext = [Fetch sentiment])
      /\ (forall r, res = Ok r -> Q r).
Proof.
  intros Hrun HQ tr.
  destruct (Hrun tr) as [res [ext [Hbody [Hext _]]]].
  exists res, ext. repeat split; auto.
  intros r Hr. subst res. exact (HQ _ _ _ Hbody).
Qed.

Lemma runProviders_transcript (retryCount : nat) (tr tr' : Trace)
    (fallbackUsed : bool) (r : ProviderResult.t) :
  runProviders w audioBuffer retryCount tr
  = (Ok (fallbackUsed, Some r), tr') ->
  truthy_string (ProviderResult.transcript r) = true.
Proof.
  assert (Hel : forall tr0 res tr1,
             tryElevenLabsAnalysis w audioBuffer retryCount tr0
             = (Ok res, tr1) ->
             forall r0, res = Some r0 ->
                        truthy_string (ProviderResult.transcript r0) = true).
  { intros tr0 res tr1. unfold tryElevenLabsAnalysis.
    destruct (negb (truthy_string (ELEVENLABS_API_KEY w)));
      [intros Hrun r0 Hr0; inversion Hrun; subst; discriminate|].
    rewrite elevenLabsLoop_retryLoop.
    destruct (retryLoop_run ElevenLabsSpeechToText ElevenLabsSentimentAnalysis
                (elevenLabsAttempt w audioBuffer)
                (fun r0 => truthy_string (ProviderResult.transcript r0) = true)
                eq_refl
                (attempt_run_also _ _ _ _ _
                   (elevenLabsAttempt_run w audioBuffer)
                   elevenLabsAttempt_transcript)
                (maxRetries + 1) 0 tr0 eq_refl)
      as [res0 [ext [n [Hloop [_ [_ [_ [_ [_ [_ Hsome]]]]]]]]]].
    rewrite Hloop. intros Hrun r0 Hr0. inversion Hrun; subst. now apply Hsome. }
  assert (Hgoogle : forall tr0 res tr1,
             tryGoogleAIAnalysis w audioBuffer retryCount tr0
             = (Ok res, tr1) ->
             forall r0, res = Some r0 ->
                        truthy_string (ProviderResult.transcript r0) = true).
  { intros tr0 res tr1. unfold tryGoogleAIAnalysis.
    destruct (negb (truthy_string (GOOGLE_AI_STUDIO_API_KEY w)));
      [intros Hrun r0 Hr0; inversion Hrun; subst; discriminate|].
    rewrite googleLoop_retryLoop.
    destruct (retryLoop_run GoogleSpeechRecognize GoogleAnalyzeSentiment
                (googleAttempt w audioBuffer)
                (fun r0 => truthy_string (ProviderResult.transcript r0) = true)
                eq_refl
                (attempt_run_also _ _ _ _ _
                   (googleAttempt_run w audioBuffer)
                   googleAttempt_transcript)
                (maxRetries + 1) 0 tr0 eq_refl)
      as [res0 [ext [n [Hloop [_ [_ [_ [_ [_ [_ Hsome]]]]]]]]]].
    rewrite Hloop. intros Hrun r0 Hr0. inversion Hrun; subst. now apply Hsome. }
  unfold runProviders, bind.
  destruct (tryElevenLabsAnalysis_run w audioBuffer retryCount tr)
    as [res [ext [Hrun _]]].
  rewrite Hrun. destruct res as [r0|].
  - intros Hr. inversion Hr; subst. exact (Hel _ _ _ Hrun r eq_refl).
  - destruct (tryGoogleAIAnalysis_run w audioBuffer retryCount (tr ++ ext)%list)
      as [res' [ext' [Hrun' _]]].
    rewrite Hrun'. intros Hr. inversion Hr; subst.
    exact (Hgoogle _ _ _ Hrun' r eq_refl).
Qed.

(** Every result of [analyzeAudio] is of one of two shapes. *)
Lemma analyzeAudio_inversion (originalLanguage : option string)
    (tr tr' : Trace) (res : AnalysisResult.t) :
  analyzeAudio w audioBuffer originalLanguage tr = (Ok res, tr') ->
  (exists fallbackUsed r tr0 processingTime,
      runProviders w audioBuffer 0 (tr ++ [Now])%list
      = (Ok (fallbackUsed, Some r), tr0)
      /\ res
         = {| AnalysisResult.transcript := ProviderResult.transcript r;
              AnalysisResult.language :=
                detectLanguage (ProviderResult.transcript r);
              AnalysisResult.moodAnalysis :=
                if PrimFloat.ltb (ProviderResult.confidence r) 0.6%float
                then applyNeutralFallback (ProviderResult.moodAnalysis r)
                else ProviderResult.moodAnalysis r;
              AnalysisResult.confidence := ProviderResult.confidence r;
              AnalysisResult.apiUsed :=
                if fallbackUsed then "google" else "elevenlabs";
              AnalysisResult.processingTime := processingTime;
              AnalysisResult.metadata :=
                {| AnalysisResult.retryCount := 0;
                   AnalysisResult.fallbackUsed := fallbackUsed;
                   AnalysisResult.neutralFallbackApplied :=
                     PrimFloat.ltb (ProviderResult.confidence r) 0.6%float;
                   AnalysisResult.languageOverride :=
                     match originalLanguage with
                     | Some originalLanguage =>
                         truthy_string originalLanguage
                         && negb (originalLanguage =? "unknown")
                         && negb (detectLanguage (ProviderResult.transcript r)
                                  =? originalLanguage)
                     | None => false
                     end |} |})
  \/ (exists processingTime,
         res
         = {| AnalysisResult.transcript := "";
              AnalysisResult.language := "unknown";
              AnalysisResult.moodAnalysis := createNeutralMoodAnalysis;
              AnalysisResult.confidence := 0%float;
              AnalysisResult.apiUsed := "fallback";
              AnalysisResult.processingTime := processingTime;
              AnalysisResult.metadata :=
                {| AnalysisResult.retryCount := 0;
                   AnalysisResult.fallbackUsed := true;
                   AnalysisResult.neutralFallbackApplied := true;
                   AnalysisResult.languageOverride := false |} |}).
Proof.
  destruct (runProviders_run w audioBuffer 0 (tr ++ [Now])%list)
    as [fb [res0 [tr0 [Hrun _]]]].
  unfold analyzeAudio, bind, try_catch, now. rewrite Hrun.
  destruct res0 as [r|]; cbn; intros Hres; inversion Hres; subst.
  - left. exists fb, r, tr0. eexists. split; reflexivity.
  - right. eexists. reflexivity.
Qed.

End Results.

End SpeechExtras.

Section MoodAnalysisExtras.

Import SpeechToTextMoodAnalysisService SpeechFacts SpeechExtras.

(** The fields of a provider result that are derived from its transcript. *)
Lemma provider_result_derived (w : World) (audioBuffer : list byte)
    (retryCount : nat) (tr tr' : Trace) (fallbackUsed : bool)
    (r : ProviderResult.t) :
  runProviders w audioBuffer retryCount tr
  = (Ok (fallbackUsed, Some r), tr') ->
  key_themes (ProviderResult.moodAnalysis r)
  = extractKeyThemes w (ProviderResult.transcript r)
  /\ risk_indicators (ProviderResult.moodAnalysis r)
     = detectRiskIndicators w (ProviderResult.transcript r)
  /\ exists e,
       recommendations (ProviderResult.moodAnalysis r)
       = generateRecommendations (overall_mood (ProviderResult.moodAnalysis r))
           e.
Proof.
  intros Hrun.
  destruct (runProviders_run w audioBuffer retryCount tr)
    as [fb [res0 [tr0 [Hrun0 Hreported]]]].
  rewrite Hrun in Hrun0. inversion Hrun0; subst fb res0 tr0.
  destruct (Hreported r eq_refl) as [[_ Hel]|[_ Hgoogle]].
  - destruct Hel as [n [m [response [transcription [response'
                      [sentiment [reported
                        [_ [_ [_ [_ [_ [_ [_ Hm]]]]]]]]]]]]]].
    rewrite Hm. split; [reflexivity|]. split; [reflexivity|].
    exists []. reflexivity.
  - destruct Hgoogle as [n [m [response [transcription [results [response'
                          [sentiment [_ [_ [_ [_ [_ [_ [_ Hm]]]]]]]]]]]]]].
    rewrite Hm. split; [reflexivity|]. split; [reflexivity|].
    exists []. reflexivity.
Qed.

(** X4: once the neutral fallback has been applied, be it for low
    confidence or for total provider failure, the selector can only answer
    with the crisis template (when the profile carries a risk indicator) or
    with the life-coach template: the themes no longer matter. *)
Theorem neutral_fallback_selects_crisis_or_life_coach :
  forall (w : World) (audioBuffer : list byte)
         (originalLanguage : option string) (tr tr' : Trace)
         (res : AnalysisResult.t),
    analyzeAudio w audioBuffer originalLanguage tr = (Ok res, tr') ->
    AnalysisResult.neutralFallbackApplied (AnalysisResult.metadata res)
    = true ->
    TemplateSelectorService.suggestTemplate
      (Some (AnalysisResult.moodAnalysis res))
    = Ok (match risk_indicators (AnalysisResult.moodAnalysis res) with
          | [] =>
              TemplateSelectorService.suggestion "life-coach" 0.75%float
                "Neutral mood with low intensity - using life coach template"
          | _ :: _ =>
              TemplateSelectorService.suggestion "crisis-support-therapist"
                0.95%float
                "Risk indicators detected - using crisis support template"
          end).
Proof.
  intros w audioBuffer originalLanguage tr tr' res Hres Hgate.
  destruct (analyzeAudio_inversion w audioBuffer originalLanguage tr tr' res
              Hres)
    as [[fb [r [tr0 [pt [_ Hshape]]]]]|[pt Hshape]]; subst res.
  - cbn in Hgate. cbn [AnalysisResult.moodAnalysis]. rewrite Hgate.
    cbn [applyNeutralFallback risk_indicators].
    unfold TemplateSelectorService.suggestTemplate,
      TemplateSelectorService.suggestTemplate_body, try_catch_sync,
      TemplateSelectorService.applySelectionLogic.
    cbn [TemplateSelectorService.riskIndicators
           TemplateSelectorService.extractSelectionFactors].
    change (risk_indicators
              (applyNeutralFallback (ProviderResult.moodAnalysis r)))
      with (risk_indicators (ProviderResult.moodAnalysis r)).
    destruct (risk_indicators (ProviderResult.moodAnalysis r));
      reflexivity.
  - reflexivity.
Qed.

Lemma neutral_fallback_selects_crisis_or_life_coach_witness :
  TemplateSelectorService.suggestTemplate (Some createNeutralMoodAnalysis)
  = Ok (TemplateSelectorService.suggestion "life-coach" 0.75%float
          "Neutral mood with low intensity - using life coach template").
Proof.
  exact (neutral_fallback_selects_crisis_or_life_coach
           Samples.Speech.allDown Samples.Speech.audio (Some "english") []
           [Now; Fetch ElevenLabsSpeechToText; Delay 1000;
            Fetch ElevenLabsSpeechToText; Delay 2000;
            Fetch ElevenLabsSpeechToText; Fetch GoogleSpeechRecognize;
            Delay 1000; Fetch GoogleSpeechRecognize; Delay 2000;
            Fetch GoogleSpeechRecognize; Now]
           {| AnalysisResult.transcript := "";
              AnalysisResult.language := "unknown";
              AnalysisResult.moodAnalysis := createNeutralMoodAnalysis;
              AnalysisResult.confidence := 0%float;
              AnalysisResult.apiUsed := "fallback";
              AnalysisResult.processingTime := 250;
              AnalysisResult.metadata :=
                {| AnalysisResult.retryCount := 0;
                   AnalysisResult.fallbackUsed := true;
                   AnalysisResult.neutralFallbackApplied := true;
                   AnalysisResult.languageOverride := false |} |}
           eq_refl eq_refl).
Defined.

(** X5: for a profile built from an ElevenLabs 'negative' sentiment and
    carrying no risk indicator, the themes never decide: the selector
    answers with the empathetic template when the primary emotion is
    sadness, anxiety or stress, and with the supportive template
    otherwise. *)
Theorem negative_elevenLabs_profile_ignores_themes :
  forall (w : World) (text : string)
         (sentiment : ElevenLabsSentimentResponse.t)
         (reported : list ElevenLabsSentimentResponse.emotion),
    ElevenLabsSentimentResponse.sentiment sentiment = "negative" ->
    detectRiskIndicators w text = [] ->
    TemplateSelectorService.suggestTemplate
      (Some (elevenLabsMoodAnalysis w text sentiment reported))
    = Ok (if includes ["sadness"; "anxiety"; "stress"]
               (TemplateSelectorService.getPrimaryEmotion
                  (elevenLabsEmotions sentiment reported))
          then
            TemplateSelectorService.suggestion "empathetic-therapist"
              0.90%float
              "High negative sentiment with distress - using empathetic therapist template"
          else
            TemplateSelectorService.suggestion "supportive-counselor"
              0.80%float
              "Moderate negative sentiment - using supportive counselor template").
Proof.
  intros w text sentiment reported Hnegative Hrisk.
  unfold TemplateSelectorService.suggestTemplate,
    TemplateSelectorService.suggestTemplate_body, try_catch_sync,
    TemplateSelectorService.applySelectionLogic.
  cbn [TemplateSelectorService.riskIndicators
         TemplateSelectorService.overallMood
         TemplateSelectorService.sentimentScore
         TemplateSelectorService.primaryEmotion
         TemplateSelectorService.extractSelectionFactors
         elevenLabsMoodAnalysis overall_mood sentiment_score risk_indicators
         emotions].
  rewrite Hnegative, Hrisk.
  destruct (includes ["sadness"; "anxiety"; "stress"]
              (TemplateSelectorService.getPrimaryEmotion
                 (elevenLabsEmotions sentiment reported)));
    reflexivity.
Qed.

Lemma negative_elevenLabs_profile_ignores_themes_witness :
  TemplateSelectorService.suggestTemplate
    (Some (elevenLabsMoodAnalysis Samples.Speech.allDown
             "I am stressed about work and family issues"
             (ElevenLabsSentimentResponse.mk "negative" 0.8%float
                (Some [ElevenLabsSentimentResponse.mkEmotion "stress"
                         0.8%float]))
             [ElevenLabsSentimentResponse.mkEmotion "stress" 0.8%float]))
  = Ok (TemplateSelectorService.suggestion "empathetic-therapist" 0.90%float
          "High negative sentiment with distress - using empathetic therapist template").
Proof.
  exact (negative_elevenLabs_profile_ignores_themes Samples.Speech.allDown
           "I am stressed about work and family issues"
           (ElevenLabsSentimentResponse.mk "negative" 0.8%float
              (Some [ElevenLabsSentimentResponse.mkEmotion "stress"
                       0.8%float]))
           [ElevenLabsSentimentResponse.mkEmotion "stress" 0.8%float]
           eq_refl eq_refl).
Defined.

Lemma detectLanguage_range (text : string) :
  In (detectLanguage text) ["hebrew"; "english"; "unknown"].
Proof.
  unfold detectLanguage.
  destruct (hebrewPattern_test text); [now left|].
  destruct (englishPattern_test text); [right; now left|right; right; now left].
Qed.

(** X6: the language of a result is 'hebrew', 'english' or 'unknown'; when
    a provider succeeded it is the language detected from the transcript,
    never the caller's hint; and languageOverride is set exactly when a
    provider succeeded and the caller gave a non-empty hint other than
    'unknown' that differs from the detected language. *)
Theorem detected_language_wins :
  forall (w : World) (audioBuffer : list byte)
         (originalLanguage : option string) (tr tr' : Trace)
         (res : AnalysisResult.t),
    analyzeAudio w audioBuffer originalLanguage tr = (Ok res, tr') ->
    In (AnalysisResult.language res) ["hebrew"; "english"; "unknown"]
    /\ (AnalysisResult.apiUsed res <> "fallback" ->
        AnalysisResult.language res
        = detectLanguage (AnalysisResult.transcript res))
    /\ (AnalysisResult.languageOverride (AnalysisResult.metadata res) = true
        <-> AnalysisResult.apiUsed res <> "fallback"
            /\ exists hint,
                 originalLanguage = Some hint /\ hint <> ""
                 /\ hint <> "unknown"
                 /\ hint <> AnalysisResult.language res).
Proof.
  intros w audioBuffer originalLanguage tr tr' res Hres.
  destruct (analyzeAudio_inversion w audioBuffer originalLanguage tr tr' res
              Hres)
    as [[fb [r [tr0 [pt [_ Hshape]]]]]|[pt Hshape]]; subst res; cbn.
  - split; [apply detectLanguage_range|]. split; [reflexivity|].
    assert (Hapi : (if fb then "google" else "elevenlabs") <> "fallback")
      by (destruct fb; discriminate).
    destruct originalLanguage as [hint|].
    + rewrite !andb_true_iff, !negb_true_iff, !String.eqb_neq.
      rewrite truthy_string_nonempty.
      split.
      * intros [[Hne Hunknown] Hdiff]. split; [exact Hapi|].
        exists hint. repeat split; auto.
      * intros [_ [hint' [Hhint [Hne [Hunknown Hdiff]]]]].
        inversion Hhint; subst hint'. auto.
    + split; [discriminate|].
      intros [_ [hint [Hhint _]]]. discriminate.
  - split; [right; right; now left|]. split; [congruence|].
    split; [discriminate|]. intros [Hapi _]. congruence.
Qed.

Lemma detected_language_wins_witness :
  AnalysisResult.language
    (AnalysisResult.mk "Retry test transcript" "english"
       (elevenLabsMoodAnalysis Samples.Speech.secondTry
          "Retry test transcript"
          (ElevenLabsSentimentResponse.mk "positive" 0.85%float
             (Some [ElevenLabsSentimentResponse.mkEmotion "joy" 0.8%float]))
          [ElevenLabsSentimentResponse.mkEmotion "joy" 0.8%float])
       0.9%float "elevenlabs" 250
       (AnalysisResult.mkMetadata 0 false false true))
  = detectLanguage "Retry test transcript".
Proof.
  destruct (detected_language_wins Samples.Speech.secondTry
              Samples.Speech.audio (Some "hebrew") []
              [Now; Fetch ElevenLabsSpeechToText; Delay 1000;
               Fetch ElevenLabsSpeechToText;
               Fetch ElevenLabsSentimentAnalysis; Now]
              _ eq_refl) as [_ [Hdetected _]].
  apply Hdetected. discriminate.
Defined.

(** X7: the bookkeeping of a result is consistent.  apiUsed is
    'elevenlabs', 'google' or 'fallback'; fallbackUsed is false exactly for
    'elevenlabs'; the transcript is empty exactly for 'fallback', which
    comes with confidence 0 and neutralFallbackApplied; otherwise
    neutralFallbackApplied tells whether the confidence is below 0.6.  The
    retryCount is 0 whatever number of attempts was made. *)
Theorem analysis_bookkeeping_is_consistent :
  forall (w : World) (audioBuffer : list byte)
         (originalLanguage : option string) (tr tr' : Trace)
         (res : AnalysisResult.t),
    analyzeAudio w audioBuffer originalLanguage tr = (Ok res, tr') ->
    In (AnalysisResult.apiUsed res) ["elevenlabs"; "google"; "fallback"]
    /\ (AnalysisResult.fallbackUsed (AnalysisResult.metadata res) = false
        <-> AnalysisResult.apiUsed res = "elevenlabs")
    /\ (AnalysisResult.transcript res = ""
        <-> AnalysisResult.apiUsed res = "fallback")
    /\ (AnalysisResult.apiUsed res = "fallback" ->
        AnalysisResult.confidence res = 0%float
        /\ AnalysisResult.neutralFallbackApplied (AnalysisResult.metadata res)
           = true)
    /\ (AnalysisResult.apiUsed res <> "fallback" ->
        AnalysisResult.neutralFallbackApplied (AnalysisResult.metadata res)
        = PrimFloat.ltb (AnalysisResult.confidence res) 0.6%float)
    /\ AnalysisResult.retryCount (AnalysisResult.metadata res) = 0.
Proof.
  intros w audioBuffer originalLanguage tr tr' res Hres.
  destruct (analyzeAudio_inversion w audioBuffer originalLanguage tr tr' res
              Hres)
    as [[fb [r [tr0 [pt [Hrun Hshape]]]]]|[pt Hshape]]; subst res; cbn.
  - pose proof (runProviders_transcript w audioBuffer 0 _ _ _ _ Hrun)
      as Htranscript.
    apply truthy_string_nonempty in Htranscript.
    destruct fb; repeat split; auto; try congruence; try discriminate;
      intros; try congruence; try discriminate.
  - repeat split; auto; try congruence; try discriminate.
Qed.

Lemma analysis_bookkeeping_is_consistent_witness :
  AnalysisResult.retryCount
    (AnalysisResult.metadata
       (AnalysisResult.mk "Retry test transcript" "english"
          (elevenLabsMoodAnalysis Samples.Speech.secondTry
             "Retry test transcript"
             (ElevenLabsSentimentResponse.mk "positive" 0.85%float
                (Some [ElevenLabsSentimentResponse.mkEmotion "joy"
                         0.8%float]))
             [ElevenLabsSentimentResponse.mkEmotion "joy" 0.8%float])
          0.9%float "elevenlabs" 250
          (AnalysisResult.mkMetadata 0 false false true)))
  = 0.
Proof.
  destruct (analysis_bookkeeping_is_consistent Samples.Speech.secondTry
              Samples.Speech.audio (Some "hebrew") []
              [Now; Fetch ElevenLabsSpeechToText; Delay 1000;
               Fetch ElevenLabsSpeechToText;
               Fetch ElevenLabsSentimentAnalysis; Now]
              _ eq_refl) as [_ [_ [_ [_ [_ Hretry]]]]].
  exact Hretry.
Defined.

Lemma firstn_subset {A : Type} (n : nat) (l : list A) (x : A) :
  In x (firstn n l) -> In x l.
Proof.
  revert l. induction n as [|n IH]; intros [|y l] Hx; cbn in Hx;
    try contradiction.
  destruct Hx as [Hx|Hx]; [now left|right; apply IH, Hx].
Qed.

Lemma firstn_incl_filter {A : Type} (n : nat) (p : A -> bool) (l : list A) :
  incl (firstn n (filter p l)) l.
Proof.
  intros x Hx. apply firstn_subset in Hx. apply filter_In in Hx. tauto.
Qed.

Lemma generateRecommendations_length (mood : string)
    (detected : list Emotion.t) :
  List.length (generateRecommendations mood detected) <= 2.
Proof.
  unfold generateRecommendations.
  destruct (mood =? "positive"); [cbn; lia|].
  destruct (mood =? "negative"); [cbn; lia|].
  destruct (mood =? "neutral"); cbn; lia.
Qed.

(** X8: whatever the providers answer, the lists of a result stay inside
    the service's fixed vocabularies: at most three key themes, all among
    the eight theme words; risk indicators only among the five risk
    keywords; at most two recommendations. *)
Theorem analysis_lists_are_bounded :
  forall (w : World) (audioBuffer : list byte)
         (originalLanguage : option string) (tr tr' : Trace)
         (res : AnalysisResult.t),
    analyzeAudio w audioBuffer originalLanguage tr = (Ok res, tr') ->
    List.length (key_themes (AnalysisResult.moodAnalysis res)) <= 3
    /\ incl (key_themes (AnalysisResult.moodAnalysis res))
         ["work"; "family"; "health"; "stress"; "happiness"; "anxiety";
          "success"; "failure"]
    /\ incl (risk_indicators (AnalysisResult.moodAnalysis res))
         ["suicide"; "harm"; "danger"; "hopeless"; "worthless"]
    /\ List.length (recommendations (AnalysisResult.moodAnalysis res)) <= 2.
Proof.
  intros w audioBuffer originalLanguage tr tr' res Hres.
  destruct (analyzeAudio_inversion w audioBuffer originalLanguage tr tr' res
              Hres)
    as [[fb [r [tr0 [pt [Hrun Hshape]]]]]|[pt Hshape]]; subst res;
    cbn [AnalysisResult.moodAnalysis].
  - destruct (provider_result_derived w audioBuffer 0 _ _ _ _ Hrun)
      as [Hthemes [Hrisks [e Hrecs]]].
    assert (Hkeep :
              key_themes
                (if PrimFloat.ltb (ProviderResult.confidence r) 0.6%float
                 then applyNeutralFallback (ProviderResult.moodAnalysis r)
                 else ProviderResult.moodAnalysis r)
              = extractKeyThemes w (ProviderResult.transcript r)
              /\ risk_indicators
                   (if PrimFloat.ltb (ProviderResult.confidence r) 0.6%float
                    then applyNeutralFallback (ProviderResult.moodAnalysis r)
                    else ProviderResult.moodAnalysis r)
                 = detectRiskIndicators w (ProviderResult.transcript r)).
    { destruct (PrimFloat.ltb (ProviderResult.confidence r) 0.6%float);
        cbn; auto. }
    destruct Hkeep as [Hk Hr]. rewrite Hk, Hr.
    split; [unfold extractKeyThemes; apply firstn_le_length|].
    split; [unfold extractKeyThemes; apply firstn_incl_filter|].
    split.
    + unfold detectRiskIndicators. intros x Hx.
      apply filter_In in Hx. tauto.
    + destruct (PrimFloat.ltb (ProviderResult.confidence r) 0.6%float).
      * cbn. lia.
      * rewrite Hrecs. apply generateRecommendations_length.
  - cbn. split; [lia|]. split; [intros x []|]. split; [intros x []|lia].
Qed.

Lemma analysis_lists_are_bounded_witness :
  List.length
    (key_themes
       (elevenLabsMoodAnalysis Samples.Speech.secondTry
          "Retry test transcript"
          (ElevenLabsSentimentResponse.mk "positive" 0.85%float
             (Some [ElevenLabsSentimentResponse.mkEmotion "joy" 0.8%float]))
          [ElevenLabsSentimentResponse.mkEmotion "joy" 0.8%float]))
  <= 3.
Proof.
  destruct (analysis_lists_are_bounded Samples.Speech.secondTry
              Samples.Speech.audio (Some "hebrew") []
              [Now; Fetch ElevenLabsSpeechToText; Delay 1000;
               Fetch ElevenLabsSpeechToText;
               Fetch ElevenLabsSentimentAnalysis; Now]
              (AnalysisResult.mk "Retry test transcript" "english"
                 (elevenLabsMoodAnalysis Samples.Speech.secondTry
                    "Retry test transcript"
                    (ElevenLabsSentimentResponse.mk "positive" 0.85%float
                       (Some [ElevenLabsSentimentResponse.mkEmotion "joy"
                                0.8%float]))
                    [ElevenLabsSentimentResponse.mkEmotion "joy" 0.8%float])
                 0.9%float "elevenlabs" 250
                 (AnalysisResult.mkMetadata 0 false false true))
              eq_refl) as [Hthemes _].
  exact Hthemes.
Defined.

Lemma hebrewPattern_test_app (pre rest : string) :
  hebrewPattern_test rest = true ->
  hebrewPattern_test (pre ++ rest) = true.
Proof.
  intros Hrest. induction pre as [|c pre IH]; [exact Hrest|].
  cbn [String.append hebrewPattern_test]. cbn [String.append] in IH.
  destruct (pre ++ rest)%string as [|d tail] eqn:Happ.
  - destruct pre; cbn in Happ; [subst rest|]; discriminate.
  - rewrite IH. apply orb_true_r.
Qed.

Lemma hebrewPattern_test_ascii (text : string) :
  (forall c, In c (list_ascii_of_string text) -> nat_of_ascii c < 128) ->
  hebrewPattern_test text = false.
Proof.
  induction text as [|c rest IH]; intros Hascii; [reflexivity|].
  cbn [hebrewPattern_test]. destruct rest as [|d tail]; [reflexivity|].
  rewrite IH by (intros x Hx; apply Hascii; right; exact Hx).
  assert (Hc : nat_of_ascii c < 128) by (apply Hascii; now left).
  replace (nat_of_ascii c =? 214)%nat with false
    by (symmetry; apply Nat.eqb_neq; lia).
  replace (nat_of_ascii c =? 215)%nat with false
    by (symmetry; apply Nat.eqb_neq; lia).
  reflexivity.
Qed.

(** X9: a letter of the Hebrew block (U+0590 to U+05FF, in UTF-8 the byte
    0xD6 followed by 0x90..0xBF or 0xD7 followed by 0x80..0xBF) anywhere in
    a text makes [detectLanguage] answer 'hebrew', whatever Latin letters
    surround it; a text of ASCII bytes only is never 'hebrew'. *)
Theorem hebrew_letter_anywhere_decides_language :
  forall (before after : string) (c d : ascii),
    (nat_of_ascii c = 214 /\ 144 <= nat_of_ascii d <= 191)
    \/ (nat_of_ascii c = 215 /\ 128 <= nat_of_ascii d <= 191) ->
    detectLanguage (before ++ String c (String d after)) = "hebrew"
    /\ (forall text,
          (forall x, In x (list_ascii_of_string text) ->
                     nat_of_ascii x < 128) ->
          detectLanguage text <> "hebrew").
Proof.
  intros before after c d Hblock. split.
  - unfold detectLanguage.
    rewrite hebrewPattern_test_app; [reflexivity|].
    cbn [hebrewPattern_test].
    destruct Hblock as [[Hc [Hlo Hhi]]|[Hc [Hlo Hhi]]]; rewrite Hc.
    + apply Nat.leb_le in Hlo, Hhi. rewrite Hlo, Hhi. reflexivity.
    + apply Nat.leb_le in Hlo, Hhi. rewrite Hlo, Hhi. reflexivity.
  - intros text Hascii. unfold detectLanguage.
    rewrite (hebrewPattern_test_ascii text Hascii).
    destruct (englishPattern_test text); discriminate.
Qed.

Lemma hebrew_letter_anywhere_decides_language_witness :
  detectLanguage
    ("Hello "
     ++ String (ascii_of_nat 215) (String (ascii_of_nat 169) " world"))
  = "hebrew".
Proof.
  apply (hebrew_letter_anywhere_decides_language "Hello " " world"
           (ascii_of_nat 215) (ascii_of_nat 169)).
  right. vm_compute. repeat split; repeat constructor.
Defined.

(** Order facts on binary64 values, from the specification of the
    primitive comparison. *)
Lemma ltb_above (a b s : float) (ma mb : positive) (ea eb : Z) :
  FloatOps.Prim2SF a = SpecFloat.S754_finite false ma ea ->
  FloatOps.Prim2SF b = SpecFloat.S754_finite false mb eb ->
  (ea < eb)%Z ->
  PrimFloat.ltb b s = true ->
  PrimFloat.ltb a s = true.
Proof.
  intros Ha Hb Hlt. rewrite !FloatAxioms.ltb_spec, Ha, Hb.
  unfold SpecFloat.SFltb, SpecFloat.SFcompare.
  destruct (FloatOps.Prim2SF s) as [sg|sg| |sg m e]; try (destruct sg); auto.
  destruct (Z.compare_spec eb e) as [Heq|Hl|Hg]; try discriminate.
  - subst e. intros _. now rewrite (proj2 (Z.compare_lt_iff ea eb) Hlt).
  - intros _. rewrite (proj2 (Z.compare_lt_iff ea e)) by lia. reflexivity.
Qed.

Lemma ltb_below (a b s : float) (ma mb : positive) (ea eb : Z) :
  FloatOps.Prim2SF a = SpecFloat.S754_finite true ma ea ->
  FloatOps.Prim2SF b = SpecFloat.S754_finite true mb eb ->
  (ea < eb)%Z ->
  PrimFloat.ltb s b = true ->
  PrimFloat.ltb s a = true.
Proof.
  intros Ha Hb Hlt. rewrite !FloatAxioms.ltb_spec, Ha, Hb.
  unfold SpecFloat.SFltb, SpecFloat.SFcompare.
  destruct (FloatOps.Prim2SF s) as [sg|sg| |sg m e]; try (destruct sg); auto.
  destruct (Z.compare_spec e eb) as [Heq|Hl|Hg]; try discriminate.
  - subst e. intros _. now rewrite (proj2 (Z.compare_gt_iff eb ea) Hlt).
  - intros _. rewrite (proj2 (Z.compare_gt_iff e ea)) by lia. reflexivity.
Qed.

Lemma ltb_opposite_sides (neg pos s : float) (mn mp : positive)
    (en ep : Z) :
  FloatOps.Prim2SF neg = SpecFloat.S754_finite true mn en ->
  FloatOps.Prim2SF pos = SpecFloat.S754_finite false mp ep ->
  (PrimFloat.ltb s neg = true -> PrimFloat.ltb pos s = false)
  /\ (PrimFloat.ltb pos s = true -> PrimFloat.ltb s neg = false).
Proof.
  intros Hn Hp. rewrite !FloatAxioms.ltb_spec, Hn, Hp.
  unfold SpecFloat.SFltb, SpecFloat.SFcompare.
  destruct (FloatOps.Prim2SF s) as [sg|sg| |sg m e]; try (destruct sg);
    split; intros H; try reflexivity; try discriminate H.
Qed.

Lemma above_03_above_01 (s : float) :
  PrimFloat.ltb 0.3%float s = true -> PrimFloat.ltb 0.1%float s = true.
Proof.
  apply (ltb_above 0.1%float 0.3%float s 7205759403792794 5404319552844595
           (-56) (-54)); [reflexivity|reflexivity|lia].
Qed.

Lemma above_06_above_03 (s : float) :
  PrimFloat.ltb 0.6%float s = true -> PrimFloat.ltb 0.3%float s = true.
Proof.
  apply (ltb_above 0.3%float 0.6%float s 5404319552844595 5404319552844595
           (-54) (-53)); [reflexivity|reflexivity|lia].
Qed.

Lemma below_03_below_01 (s : float) :
  PrimFloat.ltb s (-0.3)%float = true -> PrimFloat.ltb s (-0.1)%float = true.
Proof.
  apply (ltb_below (-0.1)%float (-0.3)%float s 7205759403792794
           5404319552844595 (-56) (-54)); [reflexivity|reflexivity|lia].
Qed.

Lemma below_06_below_03 (s : float) :
  PrimFloat.ltb s (-0.6)%float = true -> PrimFloat.ltb s (-0.3)%float = true.
Proof.
  apply (ltb_below (-0.3)%float (-0.6)%float s 5404319552844595
           5404319552844595 (-54) (-53)); [reflexivity|reflexivity|lia].
Qed.

Lemma below_02_below_01 (s : float) :
  PrimFloat.ltb s (-0.2)%float = true -> PrimFloat.ltb s (-0.1)%float = true.
Proof.
  apply (ltb_below (-0.1)%float (-0.2)%float s 7205759403792794
           7205759403792794 (-56) (-55)); [reflexivity|reflexivity|lia].
Qed.

Lemma below_01_not_above (c s : float) (mp : positive) (ep : Z) :
  FloatOps.Prim2SF c = SpecFloat.S754_finite false mp ep ->
  PrimFloat.ltb s (-0.1)%float = true -> PrimFloat.ltb c s = false.
Proof.
  intros Hc.
  apply (ltb_opposite_sides (-0.1)%float c s 7205759403792794 mp (-56) ep);
    [reflexivity|exact Hc].
Qed.

(** X10: in a profile built by the Google adapter the mood and the single
    emotion never contradict each other: the emotion 'joy' comes only with
    the mood 'positive', 'sadness' only with 'negative', and a 'neutral'
    mood only with the 'neutral' emotion.  The primary emotion the
    selector reads is that single emotion. *)
Theorem google_mood_agrees_with_emotion :
  forall (w : World) (transcript : string)
         (sentiment : GoogleAISentimentResponse.t),
  exists e,
    emotions (googleMoodAnalysis w transcript sentiment) = [e]
    /\ In (Emotion.name e) ["joy"; "sadness"; "neutral"]
    /\ (Emotion.name e = "joy" ->
        overall_mood (googleMoodAnalysis w transcript sentiment)
        = "positive")
    /\ (Emotion.name e = "sadness" ->
        overall_mood (googleMoodAnalysis w transcript sentiment)
        = "negative")
    /\ (overall_mood (googleMoodAnalysis w transcript sentiment) = "neutral"
        -> Emotion.name e = "neutral")
    /\ TemplateSelectorService.getPrimaryEmotion
         (emotions (googleMoodAnalysis w transcript sentiment))
       = Emotion.name e.
Proof.
  intros w transcript sentiment.
  unfold googleMoodAnalysis.
  cbn [emotions overall_mood].
  unfold mapGoogleSentimentToEmotions, mapGoogleSentimentToMood.
  set (score := GoogleAISentimentResponse.score
                  (GoogleAISentimentResponse.documentSentiment sentiment)).
  destruct (PrimFloat.ltb 0.3%float score) eqn:Hjoy.
  - rewrite (above_03_above_01 score Hjoy).
    eexists. split; [reflexivity|]. cbn.
    repeat split; auto; intros; discriminate.
  - destruct (PrimFloat.ltb score (-0.3)%float) eqn:Hsad.
    + pose proof (below_03_below_01 score Hsad) as Hneg.
      rewrite (below_01_not_above 0.1%float score 7205759403792794 (-56)
                 eq_refl Hneg), Hneg.
      eexists. split; [reflexivity|]. cbn.
      repeat split; auto; intros; discriminate.
    + eexists. split; [reflexivity|]. cbn.
      repeat split; auto; intros; discriminate.
Qed.

(** X11: for a profile built by the Google adapter from a transcript
    without risk keywords, the sentiment score alone decides between three
    templates: above 0.6 the motivational coach, below -0.6 the empathetic
    therapist, and from -0.6 up to but not including -0.2 the supportive
    counselor; the themes of the transcript play no part. *)
Theorem google_score_selects_template :
  forall (w : World) (transcript : string)
         (sentiment : GoogleAISentimentResponse.t),
    detectRiskIndicators w transcript = [] ->
    (PrimFloat.ltb 0.6%float
       (GoogleAISentimentResponse.score
          (GoogleAISentimentResponse.documentSentiment sentiment)) = true ->
     TemplateSelectorService.suggestTemplate
       (Some (googleMoodAnalysis w transcript sentiment))
     = Ok (TemplateSelectorService.suggestion "motivational-coach" 0.85%float
             "High positive sentiment with joy - using motivational coach template"))
    /\ (PrimFloat.ltb
          (GoogleAISentimentResponse.score
             (GoogleAISentimentResponse.documentSentiment sentiment))
          (-0.6)%float = true ->
        TemplateSelectorService.suggestTemplate
          (Some (googleMoodAnalysis w transcript sentiment))
        = Ok (TemplateSelectorService.suggestion "empathetic-therapist"
                0.90%float
                "High negative sentiment with distress - using empathetic therapist template"))
    /\ (PrimFloat.ltb
          (GoogleAISentimentResponse.score
             (GoogleAISentimentResponse.documentSentiment sentiment))
          (-0.6)%float = false ->
        PrimFloat.ltb
          (GoogleAISentimentResponse.score
             (GoogleAISentimentResponse.documentSentiment sentiment))
          (-0.2)%float = true ->
        TemplateSelectorService.suggestTemplate
          (Some (googleMoodAnalysis w transcript sentiment))
        = Ok (TemplateSelectorService.suggestion "supportive-counselor"
                0.80%float
                "Moderate negative sentiment - using supportive counselor template")).
Proof.
  intros w transcript sentiment Hrisk.
  unfold TemplateSelectorService.suggestTemplate,
    TemplateSelectorService.suggestTemplate_body, try_catch_sync,
    TemplateSelectorService.applySelectionLogic.
  cbn [TemplateSelectorService.riskIndicators
         TemplateSelectorService.overallMood
         TemplateSelectorService.sentimentScore
         TemplateSelectorService.primaryEmotion
         TemplateSelectorService.extractSelectionFactors
         googleMoodAnalysis overall_mood sentiment_score risk_indicators
         emotions].
  rewrite Hrisk.
  unfold mapGoogleSentimentToEmotions, mapGoogleSentimentToMood.
  set (score := GoogleAISentimentResponse.score
                  (GoogleAISentimentResponse.documentSentiment sentiment)).
  split; [|split].
  - intros Hhigh.
    pose proof (above_06_above_03 score Hhigh) as Hjoy.
    rewrite Hjoy, (above_03_above_01 score Hjoy), Hhigh. reflexivity.
  - intros Hlow.
    pose proof (below_06_below_03 score Hlow) as Hsad.
    pose proof (below_03_below_01 score Hsad) as Hneg.
    rewrite (below_01_not_above 0.3%float score 5404319552844595 (-54)
               eq_refl Hneg).
    rewrite (below_01_not_above 0.1%float score 7205759403792794 (-56)
               eq_refl Hneg).
    rewrite Hsad, Hneg, Hlow. reflexivity.
  - intros Hmoderate Hlow.
    pose proof (below_02_below_01 score Hlow) as Hneg.
    rewrite (below_01_not_above 0.1%float score 7205759403792794 (-56)
               eq_refl Hneg).
    rewrite Hneg, Hmoderate, Hlow.
    cbn [String.eqb Ascii.eqb Bool.eqb andb].
    reflexivity.
Qed.

Lemma google_score_selects_template_witness :
  TemplateSelectorService.suggestTemplate
    (Some (googleMoodAnalysis Samples.Speech.allDown
             "Google transcript test about work"
             (GoogleAISentimentResponse.mk
                (GoogleAISentimentResponse.mkSentiment 0.7%float 1.2%float)
                [])))
  = Ok (TemplateSelectorService.suggestion "motivational-coach" 0.85%float
          "High positive sentiment with joy - using motivational coach template").
Proof.
  destruct (google_score_selects_template Samples.Speech.allDown
              "Google transcript test about work"
              (GoogleAISentimentResponse.mk
                 (GoogleAISentimentResponse.mkSentiment 0.7%float 1.2%float)
                 [])
              eq_refl) as [Hhigh _].
  apply Hhigh. reflexivity.
Defined.

End MoodAnalysisExtras.

(** * Further facts on the video stage *)

Module VideoExtras.

Import VideoGenerationService VideoFacts.

Section Stage.

Variable w : World.
Variable payload : VideoGenerationPayload.
Variables userId dialogueId : string.

(** The three ways through one iteration of the provider loop. *)
Lemma providerIteration_cases (tr : Trace) (l : Locals) :
  truthy_ostring (l_videoUrl l) = false ->
  (exists data,
      did_post w (count (is_post D_ID) tr) (didRequestBody payload) = Ok data
      /\ truthy_ostring (didVideoUrl data) = true
      /\ providerIteration w payload (tr, l)
         = (Ok true,
            ((tr ++ [Post D_ID])%list,
             mkLocals D_ID data (didVideoUrl data) (l_errorMessage l)
               processing)))
  \/ (didDelivered
        (did_post w (count (is_post D_ID) tr) (didRequestBody payload))
      = false
      /\ ((exists data,
              jogg_post w (count (is_post JOGG) tr) (joggRequestBody payload)
              = Ok data
              /\ truthy_ostring (joggVideoUrl data) = true
              /\ providerIteration w payload (tr, l)
                 = (Ok true,
                    ((tr ++ [Post D_ID; Post JOGG])%list,
                     mkLocals JOGG data (joggVideoUrl data)
                       (l_errorMessage l) processing)))
          \/ (exists msg l',
                 joggFailureMessage
                   (jogg_post w (count (is_post JOGG) tr)
                      (joggRequestBody payload))
                 = Some msg
                 /\ providerIteration w payload (tr, l)
                    = (Ok false, ((tr ++ [Post D_ID; Post JOGG])%list, l'))
                 /\ l_provider l' = JOGG
                 /\ l_errorMessage l' = Some msg
                 /\ l_status l' = failed
                 /\ truthy_ostring (l_videoUrl l') = false))).
Proof.
  intros Hempty.
  assert (Hjogg : count (is_post JOGG) (tr ++ [Post D_ID])%list
                  = count (is_post JOGG) tr)
    by (rewrite count_snoc; cbn; lia).
  unfold providerIteration, try_catch, bind, lift, assign, ret, throw,
    callDIDApi, callJOGGApi, post_DID, post_JOGG, bind, ret, didDelivered,
    joggFailureMessage.
  cbv beta iota zeta delta [fst snd].
  destruct (did_post w (count (is_post D_ID) tr) (didRequestBody payload))
    as [data|didError] eqn:Hdid; cbv beta iota zeta delta [fst snd];
    rewrite ?Hjogg.
  - destruct (truthy_ostring (didVideoUrl data)) eqn:Hurl;
      cbv beta iota zeta delta [fst snd negb]; rewrite ?Hjogg.
    + left. exists data. repeat split; auto.
    + right. split; [reflexivity|].
      destruct (jogg_post w (count (is_post JOGG) tr)
                  (joggRequestBody payload))
        as [data'|joggError] eqn:Hjoggpost;
        cbv beta iota zeta delta [fst snd].
      * destruct (truthy_ostring (joggVideoUrl data')) eqn:Hurl';
          cbv beta iota zeta delta [fst snd negb].
        -- left. exists data'. rewrite <- app_assoc.
           repeat split; auto.
        -- right. eexists; eexists. rewrite <- app_assoc.
           split; [reflexivity|]. split; [reflexivity|].
           cbn. repeat split; auto.
      * right. eexists; eexists. rewrite <- app_assoc.
        split; [reflexivity|]. split; [reflexivity|].
        cbn. repeat split; auto.
  - right. split; [reflexivity|].
    destruct (jogg_post w (count (is_post JOGG) tr)
                (joggRequestBody payload))
      as [data'|joggError] eqn:Hjoggpost;
      cbv beta iota zeta delta [fst snd].
    + destruct (truthy_ostring (joggVideoUrl data')) eqn:Hurl';
        cbv beta iota zeta delta [fst snd negb].
      * left. exists data'. rewrite <- app_assoc.
        repeat split; auto.
      * right. eexists; eexists. rewrite <- app_assoc.
        split; [reflexivity|]. split; [reflexivity|].
        cbn. repeat split; auto.
    + right. eexists; eexists. rewrite <- app_assoc.
      split; [reflexivity|]. split; [reflexivity|].
      cbn. repeat split; auto.
Qed.

(** The provider loop of [generateAvatarVideo], two rounds from the initial
    locals: the five ways through it. *)
Lemma providerLoop_cases (tr : Trace) :
  (exists data,
      did_post w (count (is_post D_ID) tr) (didRequestBody payload) = Ok data
      /\ truthy_ostring (didVideoUrl data) = true
      /\ runProviderLoop w payload tr
         = (Ok tt,
            ((tr ++ [Post D_ID])%list,
             mkLocals D_ID data (didVideoUrl data) None processing)))
  \/ (didDelivered
        (did_post w (count (is_post D_ID) tr) (didRequestBody payload))
      = false
      /\ ((exists data,
              jogg_post w (count (is_post JOGG) tr) (joggRequestBody payload)
              = Ok data
              /\ truthy_ostring (joggVideoUrl data) = true
              /\ runProviderLoop w payload tr
                 = (Ok tt,
                    ((tr ++ [Post D_ID; Post JOGG])%list,
                     mkLocals JOGG data (joggVideoUrl data) None
                       processing)))
          \/ (exists msg,
                 joggFailureMessage
                   (jogg_post w (count (is_post JOGG) tr)
                      (joggRequestBody payload))
                 = Some msg
                 /\ ((exists data,
                         did_post w (S (count (is_post D_ID) tr))
                           (didRequestBody payload) = Ok data
                         /\ truthy_ostring (didVideoUrl data) = true
                         /\ runProviderLoop w payload tr
                            = (Ok tt,
                               ((tr ++ [Post D_ID; Post JOGG; Post D_ID])%list,
                                mkLocals D_ID data (didVideoUrl data)
                                  (Some msg) processing)))
                     \/ (didDelivered
                           (did_post w (S (count (is_post D_ID) tr))
                              (didRequestBody payload))
                         = false
                         /\ ((exists data,
                                 jogg_post w (S (count (is_post JOGG) tr))
                                   (joggRequestBody payload) = Ok data
                                 /\ truthy_ostring (joggVideoUrl data) = true
                                 /\ runProviderLoop w payload tr
                                    = (Ok tt,
                                       ((tr ++ [Post D_ID; Post JOGG;
                                                Post D_ID; Post JOGG])%list,
                                        mkLocals JOGG data (joggVideoUrl data)
                                          (Some msg) processing)))
                             \/ (exists msg' l,
                                    joggFailureMessage
                                      (jogg_post w
                                         (S (count (is_post JOGG) tr))
                                         (joggRequestBody payload))
                                    = Some msg'
                                    /\ runProviderLoop w payload tr
                                       = (Ok tt,
                                          ((tr ++ [Post D_ID; Post JOGG;
                                                   Post D_ID; Post JOGG])%list,
                                           l))
                                    /\ l_provider l = JOGG
                                    /\ l_errorMessage l = Some msg'
                                    /\ truthy_ostring (l_videoUrl l)
                                       = false))))))).
Proof.
  unfold runProviderLoop, PROVIDER_RETRY_LIMIT.
  cbn [providerLoop]. unfold bind.
  destruct (providerIteration_cases tr initialLocals eq_refl)
    as [[data [Hdid [Hurl Hrun]]]
       |[Hfailed [[data [Hjogg [Hurl Hrun]]]
                 |[msg [l1 [Hmsg [Hrun [Hp [He [Hs Hu]]]]]]]]]];
    rewrite Hrun; cbv beta iota.
  - left. exists data. auto.
  - right. split; [exact Hfailed|]. left. exists data. auto.
  - right. split; [exact Hfailed|]. right. exists msg.
    split; [exact Hmsg|].
    assert (HnD : count (is_post D_ID) (tr ++ [Post D_ID; Post JOGG])%list
                  = S (count (is_post D_ID) tr))
      by (rewrite count_app; cbn; lia).
    assert (HnJ : count (is_post JOGG) (tr ++ [Post D_ID; Post JOGG])%list
                  = S (count (is_post JOGG) tr))
      by (rewrite count_app; cbn; lia).
    destruct (providerIteration_cases (tr ++ [Post D_ID; Post JOGG])%list
                l1 Hu)
      as [[data [Hdid [Hurl Hrun2]]]
         |[Hfailed2 [[data [Hjogg [Hurl Hrun2]]]
                    |[msg2 [l2 [Hmsg2 [Hrun2 [Hp2 [He2 [Hs2 Hu2]]]]]]]]]];
      unfold Trace in *; rewrite Hrun2; cbv beta iota;
      rewrite ?HnD, ?HnJ in *;
      rewrite <- app_assoc; cbn [app].
    + left. exists data. rewrite He. auto.
    + right. split; [exact Hfailed2|]. left. exists data. rewrite He. auto.
    + right. split; [exact Hfailed2|]. right. exists msg2, l2. auto.
Qed.

(** The calls the storage phase makes. *)
Lemma uploadLoop_shape (videoUrl : string) (remaining : nat) :
  forall (retry : nat) (tr : Trace),
    exists res ext,
      uploadLoop w videoUrl userId dialogueId remaining retry tr
      = (res, (tr ++ ext)%list)
      /\ Forall (storageEvent w userId dialogueId videoUrl) ext
      /\ 1 <= count is_get ext <= remaining + 1
      /\ count is_upload ext <= count is_get ext
      /\ (forall s, res = Ok s -> storageBacked w s).
Proof.
  induction remaining as [|remaining IH]; intros retry tr;
    cbn [uploadLoop]; unfold try_catch; rewrite uploadAttempt_eq;
    destruct (axios_get w (count is_get tr) videoUrl) as [videoBuffer|error].
  - destruct (storage_uploadBuffer w (count is_upload tr) videoBuffer
                (storagePath userId dialogueId (clock w (count is_now tr)))
                "video/mp4" true) as [uploadedUrl|error] eqn:Hupload.
    + eexists; eexists. split; [reflexivity|].
      split; [repeat constructor; eexists; reflexivity|].
      unfold count; cbn. split; [lia|]. split; [lia|].
      intros s Hs. inversion Hs; subst s.
      eexists; eexists; eexists. exact Hupload.
    + eexists; eexists. split; [reflexivity|].
      split; [repeat constructor; eexists; reflexivity|].
      unfold count; cbn. split; [lia|]. split; [lia|].
      intros; discriminate.
  - eexists; eexists. split; [reflexivity|].
    split; [repeat constructor|].
    unfold count; cbn. split; [lia|]. split; [lia|]. intros; discriminate.
  - destruct (storage_uploadBuffer w (count is_upload tr) videoBuffer
                (storagePath userId dialogueId (clock w (count is_now tr)))
                "video/mp4" true) as [uploadedUrl|error] eqn:Hupload.
    + eexists; eexists. split; [reflexivity|].
      split; [repeat constructor; eexists; reflexivity|].
      unfold count; cbn. split; [lia|]. split; [lia|].
      intros s Hs. inversion Hs; subst s.
      eexists; eexists; eexists. exact Hupload.
    + destruct (IH (S retry)
                  (tr ++ [Get videoUrl; Now;
                          UploadBuffer
                            (storagePath userId dialogueId
                               (clock w (count is_now tr)))])%list)
        as [res [ext [Hloop [Hshape [Hgets [Huploads Hok]]]]]].
      exists res. eexists. rewrite Hloop, <- app_assoc.
      split; [reflexivity|]. split.
      { apply Forall_app. split; [|exact Hshape].
        repeat constructor. eexists; reflexivity. }
      rewrite !count_app. unfold count in *. cbn.
      split; [lia|]. split; [lia|]. exact Hok.
  - destruct (IH (S retry) (tr ++ [Get videoUrl])%list)
      as [res [ext [Hloop [Hshape [Hgets [Huploads Hok]]]]]].
    exists res. eexists. rewrite Hloop, <- app_assoc.
    split; [reflexivity|]. split.
    { apply Forall_app. split; [|exact Hshape]. repeat constructor. }
    rewrite !count_app. unfold count in *. cbn.
    split; [lia|]. split; [lia|]. exact Hok.
Qed.

Lemma truthy_ostring_inv (o : option string) :
  truthy_ostring o = true -> exists c rest, o = Some (String c rest).
Proof.
  destruct o as [[|c rest]|]; try discriminate. intros _. eauto.
Qed.

(** What [generateAvatarVideo] does once the provider loop has ended with
    the given calls and locals. *)
Lemma generateAvatarVideo_after_loop (templateId videoId : string)
    (tr posts : Trace) (l : Locals) :
  runProviderLoop w payload tr = (Ok tt, ((tr ++ posts)%list, l)) ->
  match l_videoUrl l with
  | Some (String c rest) =>
      match uploadVideoToStorage w (String c rest) userId dialogueId 0
              (tr ++ posts)%list with
      | (Ok storageUrl, tr2) =>
          generateAvatarVideo w payload userId dialogueId templateId
            videoId tr
          = (Ok {| videoUrl := storageUrl;
                   provider := l_provider l;
                   status := completed;
                   errorMessage := l_errorMessage l;
                   duration := None;
                   providerResponse := l_providerResponse l |}, tr2)
      | (Throw storageError, tr2) =>
          generateAvatarVideo w payload userId dialogueId templateId
            videoId tr
          = (Ok {| videoUrl := "";
                   provider := l_provider l;
                   status := failed;
                   errorMessage := Some (message storageError);
                   duration := None;
                   providerResponse := None |}, tr2)
      end
  | _ =>
      generateAvatarVideo w payload userId dialogueId templateId videoId tr
      = (Ok {| videoUrl := "";
               provider := l_provider l;
               status := failed;
               errorMessage :=
                 or_ostring (l_errorMessage l)
                   (Some "Both video providers failed to generate video.");
               duration := None;
               providerResponse := None |}, (tr ++ posts)%list)
  end.
Proof.
  intros Hrun.
  destruct (generateAvatarVideo_run w payload userId dialogueId templateId
              videoId tr) as [ext [l' [Hloop [_ [_ Hmatch]]]]].
  pose proof (eq_trans (eq_sym Hrun) Hloop) as Heq.
  inversion Heq as [[Hext Hl]].
  apply app_inv_head in Hext. subst ext l'. exact Hmatch.
Qed.

(** The storage phase, entered with the media URL [String c rest] after
    the calls [posts]. *)
Lemma storage_phase (templateId videoId : string) (tr posts : Trace)
    (l : Locals) (c : ascii) (rest : string) :
  runProviderLoop w payload tr = (Ok tt, ((tr ++ posts)%list, l)) ->
  l_videoUrl l = Some (String c rest) ->
  exists res ext,
    generateAvatarVideo w payload userId dialogueId templateId videoId tr
    = (Ok res, (tr ++ posts ++ ext)%list)
    /\ Forall (storageEvent w userId dialogueId (String c rest)) ext
    /\ 1 <= count is_get ext <= 4
    /\ count is_upload ext <= count is_get ext
    /\ provider res = l_provider l
    /\ duration res = None
    /\ ((status res = completed /\ storageBacked w (videoUrl res)
         /\ errorMessage res = l_errorMessage l
         /\ providerResponse res = l_providerResponse l)
        \/ (status res = failed /\ videoUrl res = ""
            /\ providerResponse res = None
            /\ exists msg, errorMessage res = Some msg)).
Proof.
  intros Hrun Hurl.
  pose proof (generateAvatarVideo_after_loop templateId videoId tr posts l
                Hrun) as Hafter.
  rewrite Hurl in Hafter.
  unfold uploadVideoToStorage, STORAGE_RETRY_LIMIT in Hafter.
  cbn [Nat.sub] in Hafter.
  destruct (uploadLoop_shape (String c rest) 3 0 (tr ++ posts)%list)
    as [res [ext [Hloop [Hshape [Hgets [Huploads Hok]]]]]].
  unfold Trace in *. rewrite Hloop in Hafter.
  destruct res as [storageUrl|storageError]; rewrite Hafter;
    eexists; exists ext; rewrite <- app_assoc;
    (split; [reflexivity|]); (split; [exact Hshape|]);
    (split; [exact Hgets|]); (split; [exact Huploads|]);
    (split; [reflexivity|]); (split; [reflexivity|]).
  - left. cbn. repeat split; auto.
  - right. cbn. repeat split; eauto.
Qed.

(** The whole run: the provider calls, then the storage calls. *)
Lemma generateAvatarVideo_trace (templateId videoId : string) (tr : Trace) :
  exists res posts ext,
    generateAvatarVideo w payload userId dialogueId templateId videoId tr
    = (Ok res, (tr ++ posts ++ ext)%list)
    /\ (posts = [Post D_ID] \/ posts = [Post D_ID; Post JOGG]
        \/ posts = [Post D_ID; Post JOGG; Post D_ID]
        \/ posts = [Post D_ID; Post JOGG; Post D_ID; Post JOGG])
    /\ duration res = None
    /\ ((ext = [] /\ posts = [Post D_ID; Post JOGG; Post D_ID; Post JOGG]
         /\ status res = failed /\ provider res = JOGG /\ videoUrl res = ""
         /\ providerResponse res = None
         /\ exists msg, errorMessage res = Some msg /\ msg <> "")
        \/ (exists url,
               url <> "" /\ providerUrl w payload url
               /\ Forall (storageEvent w userId dialogueId url) ext
               /\ 1 <= count is_get ext <= 4
               /\ count is_upload ext <= count is_get ext
               /\ ((status res = completed
                    /\ storageBacked w (videoUrl res))
                   \/ (status res = failed /\ videoUrl res = ""
                       /\ providerResponse res = None
                       /\ exists msg, errorMessage res = Some msg)))).
Proof.
  assert (Hstorage :
            forall posts l url,
              runProviderLoop w payload tr = (Ok tt, ((tr ++ posts)%list, l)) ->
              l_videoUrl l = url ->
              truthy_ostring url = true ->
              (forall u, url = Some u -> providerUrl w payload u) ->
              (posts = [Post D_ID] \/ posts = [Post D_ID; Post JOGG]
               \/ posts = [Post D_ID; Post JOGG; Post D_ID]
               \/ posts = [Post D_ID; Post JOGG; Post D_ID; Post JOGG]) ->
              exists res posts ext,
                generateAvatarVideo w payload userId dialogueId templateId
                  videoId tr
                = (Ok res, (tr ++ posts ++ ext)%list)
                /\ (posts = [Post D_ID] \/ posts = [Post D_ID; Post JOGG]
                    \/ posts = [Post D_ID; Post JOGG; Post D_ID]
                    \/ posts = [Post D_ID; Post JOGG; Post D_ID; Post JOGG])
                /\ duration res = None
                /\ ((ext = []
                     /\ posts = [Post D_ID; Post JOGG; Post D_ID; Post JOGG]
                     /\ status res = failed /\ provider res = JOGG
                     /\ videoUrl res = ""
                     /\ providerResponse res = None
                     /\ exists msg, errorMessage res = Some msg /\ msg <> "")
                    \/ (exists url,
                           url <> "" /\ providerUrl w payload url
                           /\ Forall (storageEvent w userId dialogueId url) ext
                           /\ 1 <= count is_get ext <= 4
                           /\ count is_upload ext <= count is_get ext
                           /\ ((status res = completed
                                /\ storageBacked w (videoUrl res))
                               \/ (status res = failed /\ videoUrl res = ""
                                   /\ providerResponse res = None
                                   /\ exists msg,
                                        errorMessage res = Some msg))))).
  { intros posts l url Hrun Hl Htruthy Hprovider Hposts.
    destruct (truthy_ostring_inv url Htruthy) as [c [rest Hurl]].
    subst url.
    destruct (storage_phase templateId videoId tr posts l c rest Hrun Hurl)
      as [res [ext [Hgen [Hshape [Hgets [Huploads [_ [Hduration Hend]]]]]]]].
    exists res, posts, ext.
    split; [exact Hgen|]. split; [exact Hposts|]. split; [exact Hduration|].
    right. exists (String c rest).
    split; [discriminate|]. split; [apply Hprovider; exact Hurl|].
    split; [exact Hshape|]. split; [exact Hgets|]. split; [exact Huploads|].
    destruct Hend as [[Hstatus [Hbacked _]]|Hfailed]; [left|right]; auto. }
  destruct (providerLoop_cases tr)
    as [[data [Hdid [Hurl Hrun]]]|[_ Hcases]];
    [|destruct Hcases as [[data [Hjogg [Hurl Hrun]]]|[msg [_ Hcases]]];
      [|destruct Hcases as [[data [Hdid [Hurl Hrun]]]|[_ Hcases]];
        [|destruct Hcases
            as [[data [Hjogg [Hurl Hrun]]]
               |[msg' [l [Hmsg' [Hrun [Hp [He Hu]]]]]]]]]].
  - apply (Hstorage _ _ (didVideoUrl data) Hrun eq_refl Hurl); [|auto].
    intros u Hu. left. eauto.
  - apply (Hstorage _ _ (joggVideoUrl data) Hrun eq_refl Hurl); [|auto].
    intros u Hu. right. eauto.
  - apply (Hstorage _ _ (didVideoUrl data) Hrun eq_refl Hurl); [|auto].
    intros u Hu. left. eauto.
  - apply (Hstorage _ _ (joggVideoUrl data) Hrun eq_refl Hurl); [|auto 6].
    intros u Hu. right. eauto.
  - pose proof (generateAvatarVideo_after_loop templateId videoId tr _ l
                  Hrun) as Hafter.
    assert (Hgen :
              generateAvatarVideo w payload userId dialogueId templateId
                videoId tr
              = (Ok {| videoUrl := "";
                       provider := l_provider l;
                       status := failed;
                       errorMessage :=
                         or_ostring (l_errorMessage l)
                           (Some
                              "Both video providers failed to generate video.");
                       duration := None;
                       providerResponse := None |},
                 (tr ++ [Post D_ID; Post JOGG; Post D_ID; Post JOGG])%list)).
    { destruct (l_videoUrl l) as [[|c rest]|]; try exact Hafter.
      discriminate Hu. }
    eexists. exists [Post D_ID; Post JOGG; Post D_ID; Post JOGG], [].
    rewrite app_nil_r. split; [exact Hgen|].
    split; [auto 6|]. split; [reflexivity|]. left. cbn.
    repeat split; auto.
    rewrite He. destruct msg' as [|c rest]; cbn.
    + eexists. split; [reflexivity|discriminate].
    + eexists. split; [reflexivity|discriminate].
Qed.

Lemma storageEvent_no_post (url : string) (p : VideoProvider)
    (ext : Trace) :
  Forall (storageEvent w userId dialogueId url) ext ->
  count (is_post p) ext = 0.
Proof.
  unfold count. induction 1 as [|ev ext Hev _ IH]; [reflexivity|].
  destruct ev as [|q|u|f]; cbn; auto. destruct Hev.
Qed.

End Stage.

End VideoExtras.

Section VideoGenerationExtras.

Import VideoGenerationService VideoFacts VideoExtras.

(** X12: [generateAvatarVideo] never throws and never reports a video as
    pending or processing.  A 'completed' result carries a URL the blob
    store handed out; a 'failed' result carries the empty URL, no provider
    response and always an error message.  No result has a duration. *)
Theorem video_job_ends_completed_or_failed :
  forall (w : World) (payload : VideoGenerationPayload)
         (userId dialogueId templateId videoId : string) (tr : Trace),
  exists res tr',
    generateAvatarVideo w payload userId dialogueId templateId videoId tr
    = (Ok res, tr')
    /\ duration res = None
    /\ ((status res = completed /\ storageBacked w (videoUrl res))
        \/ (status res = failed /\ videoUrl res = ""
            /\ providerResponse res = None
            /\ exists msg, errorMessage res = Some msg)).
Proof.
  intros w payload userId dialogueId templateId videoId tr.
  destruct (generateAvatarVideo_trace w payload userId dialogueId templateId
              videoId tr)
    as [res [posts [ext [Hgen [_ [Hduration Hend]]]]]].
  exists res. eexists. split; [exact Hgen|]. split; [exact Hduration|].
  destruct Hend
    as [[_ [_ [Hstatus [_ [Hurl [Hresponse [msg [Hmsg _]]]]]]]]
       |[url [_ [_ [_ [_ [_ Hend]]]]]]].
  - right. eauto.
  - exact Hend.
Qed.

(** X13: one run makes at least one and at most two calls to D-ID, never
    more calls to JOGG than to D-ID, at most four downloads and never more
    uploads than downloads; it gives up without any download only after
    two calls to each provider. *)
Theorem video_job_call_budget :
  forall (w : World) (payload : VideoGenerationPayload)
         (userId dialogueId templateId videoId : string) (tr : Trace),
  exists res ext,
    generateAvatarVideo w payload userId dialogueId templateId videoId tr
    = (Ok res, (tr ++ ext)%list)
    /\ 1 <= count (is_post D_ID) ext <= 2
    /\ count (is_post JOGG) ext <= count (is_post D_ID) ext
    /\ count is_get ext <= 4
    /\ count is_upload ext <= count is_get ext
    /\ (count is_get ext = 0 ->
        count (is_post D_ID) ext = 2 /\ count (is_post JOGG) ext = 2
        /\ status res = failed).
Proof.
  intros w payload userId dialogueId templateId videoId tr.
  destruct (generateAvatarVideo_trace w payload userId dialogueId templateId
              videoId tr)
    as [res [posts [ext [Hgen [Hposts [_ Hend]]]]]].
  exists res, (posts ++ ext)%list. split; [exact Hgen|].
  rewrite !count_app.
  destruct Hend
    as [[Hext [Hall [Hstatus _]]]
       |[url [_ [_ [Hshape [Hgets [Huploads _]]]]]]].
  - subst ext posts. cbn. repeat split; auto.
  - rewrite !(storageEvent_no_post w userId dialogueId url _ ext Hshape).
    destruct Hposts as [Hp|[Hp|[Hp|Hp]]]; subst posts; unfold count in *;
      cbn; repeat split; try lia.
Qed.

(** X14: when both calls to D-ID and both calls to JOGG fail, by rejection
    or for want of a media URL, the run makes exactly these four calls and
    reports the failure on JOGG with the message of the last JOGG failure
    (the stock message when that one is empty); what went wrong with D-ID
    is not reported. *)
Theorem provider_failure_is_reported_on_JOGG :
  forall (w : World) (payload : VideoGenerationPayload)
         (userId dialogueId templateId videoId : string) (tr : Trace)
         (first last : string),
    didDelivered
      (did_post w (count (is_post D_ID) tr) (didRequestBody payload))
    = false ->
    joggFailureMessage
      (jogg_post w (count (is_post JOGG) tr) (joggRequestBody payload))
    = Some first ->
    didDelivered
      (did_post w (S (count (is_post D_ID) tr)) (didRequestBody payload))
    = false ->
    joggFailureMessage
      (jogg_post w (S (count (is_post JOGG) tr)) (joggRequestBody payload))
    = Some last ->
    generateAvatarVideo w payload userId dialogueId templateId videoId tr
    = (Ok {| videoUrl := "";
             provider := JOGG;
             status := failed;
             errorMessage :=
               Some (if truthy_string last then last
                     else "Both video providers failed to generate video.");
             duration := None;
             providerResponse := None |},
       (tr ++ [Post D_ID; Post JOGG; Post D_ID; Post JOGG])%list).
Proof.
  intros w payload userId dialogueId templateId videoId tr first last
         Hd1 Hj1 Hd2 Hj2.
  unfold didDelivered, joggFailureMessage in *.
  destruct (providerLoop_cases w payload tr)
    as [[data [Hdid [Hurl Hrun]]]|[_ Hcases]].
  { rewrite Hdid in Hd1. congruence. }
  destruct Hcases as [[data [Hjogg [Hurl Hrun]]]|[msg [_ Hcases]]].
  { rewrite Hjogg, Hurl in Hj1. discriminate. }
  destruct Hcases as [[data [Hdid [Hurl Hrun]]]|[_ Hcases]].
  { rewrite Hdid in Hd2. congruence. }
  destruct Hcases
    as [[data [Hjogg [Hurl Hrun]]]|[msg' [l [Hmsg' [Hrun [Hp [He Hu]]]]]]].
  { rewrite Hjogg, Hurl in Hj2. discriminate. }
  unfold joggFailureMessage in Hmsg'.
  assert (Hsame : msg' = last) by congruence. subst msg'.
  pose proof (generateAvatarVideo_after_loop w payload userId dialogueId
                templateId videoId tr _ l Hrun) as Hafter.
  assert (Hgen :
            generateAvatarVideo w payload userId dialogueId templateId
              videoId tr
            = (Ok {| videoUrl := "";
                     provider := l_provider l;
                     status := failed;
                     errorMessage :=
                       or_ostring (l_errorMessage l)
                         (Some
                            "Both video providers failed to generate video.");
                     duration := None;
                     providerResponse := None |},
               (tr ++ [Post D_ID; Post JOGG; Post D_ID; Post JOGG])%list)).
  { destruct (l_videoUrl l) as [[|c rest]|]; try exact Hafter.
    discriminate Hu. }
  rewrite Hgen, Hp, He. destruct last; reflexivity.
Qed.

Lemma provider_failure_is_reported_on_JOGG_witness :
  generateAvatarVideo Samples.Video.providersDown Samples.Video.payload
    "user-123" "dialogue-456" "template-789" "video-101" []
  = (Ok {| videoUrl := "";
           provider := JOGG;
           status := failed;
           errorMessage := Some "JOGG API unavailable";
           duration := None;
           providerResponse := None |},
     [Post D_ID; Post JOGG; Post D_ID; Post JOGG]).
Proof.
  exact (provider_failure_is_reported_on_JOGG Samples.Video.providersDown
           Samples.Video.payload "user-123" "dialogue-456" "template-789"
           "video-101" [] "JOGG API unavailable" "JOGG API unavailable"
           eq_refl eq_refl eq_refl eq_refl).
Defined.

(** X15: a run downloads only from a non-empty media URL that one of the
    two providers returned for the payload, and uploads only under
    videos/<userId>/<dialogueId>/, to an object named after a reading of
    the clock. *)
Theorem video_job_stays_within_provider_urls_and_dialogue_folder :
  forall (w : World) (payload : VideoGenerationPayload)
         (userId dialogueId templateId videoId : string) (tr : Trace),
  exists res ext,
    generateAvatarVideo w payload userId dialogueId templateId videoId tr
    = (Ok res, (tr ++ ext)%list)
    /\ Forall
         (fun ev =>
            match ev with
            | Get url => url <> "" /\ providerUrl w payload url
            | UploadBuffer filePath =>
                exists n,
                  filePath
                  = "videos/" ++ userId ++ "/" ++ dialogueId ++ "/"
                    ++ show_N (clock w n) ++ "_avatar.mp4"
            | Now | Post _ => True
            end) ext.
Proof.
  intros w payload userId dialogueId templateId videoId tr.
  destruct (generateAvatarVideo_trace w payload userId dialogueId templateId
              videoId tr)
    as [res [posts [ext [Hgen [Hposts [_ Hend]]]]]].
  exists res, (posts ++ ext)%list. split; [exact Hgen|].
  apply Forall_app. split.
  - destruct Hposts as [Hp|[Hp|[Hp|Hp]]]; subst posts; repeat constructor.
  - destruct Hend as [[Hext _]|[url [Hne [Hprovider [Hshape _]]]]].
    + subst ext. constructor.
    + eapply Forall_impl; [|exact Hshape].
      intros [|p|u|f] Hev; cbn in Hev; auto.
      subst u. auto.
Qed.

(** X16: a 'completed' result is not always free of an error message.
    When the first round fails on both providers and D-ID delivers in the
    second round, the stored video is reported as completed by D-ID
    together with the message of the JOGG failure of the first round. *)
Theorem completed_result_keeps_earlier_JOGG_error :
  forall (w : World) (payload : VideoGenerationPayload)
         (userId dialogueId templateId videoId : string) (tr tr2 : Trace)
         (msg : string) (data : option ProviderData) (c : ascii)
         (rest storageUrl : string),
    didDelivered
      (did_post w (count (is_post D_ID) tr) (didRequestBody payload))
    = false ->
    joggFailureMessage
      (jogg_post w (count (is_post JOGG) tr) (joggRequestBody payload))
    = Some msg ->
    did_post w (S (count (is_post D_ID) tr)) (didRequestBody payload)
    = Ok data ->
    didVideoUrl data = Some (String c rest) ->
    uploadVideoToStorage w (String c rest) userId dialogueId 0
      (tr ++ [Post D_ID; Post JOGG; Post D_ID])%list
    = (Ok storageUrl, tr2) ->
    generateAvatarVideo w payload userId dialogueId templateId videoId tr
    = (Ok {| videoUrl := storageUrl;
             provider := D_ID;
             status := completed;
             errorMessage := Some msg;
             duration := None;
             providerResponse := data |}, tr2).
Proof.
  intros w payload userId dialogueId templateId videoId tr tr2 msg data c
         rest storageUrl Hd1 Hj1 Hd2 Hurl2 Hupload.
  unfold didDelivered, joggFailureMessage in *.
  destruct (providerLoop_cases w payload tr)
    as [[data0 [Hdid [Hurl Hrun]]]|[_ Hcases]].
  { rewrite Hdid in Hd1. congruence. }
  destruct Hcases as [[data0 [Hjogg [Hurl Hrun]]]|[msg0 [Hmsg0 Hcases]]].
  { rewrite Hjogg, Hurl in Hj1. discriminate. }
  unfold joggFailureMessage in Hmsg0.
  assert (Hsame : msg0 = msg) by congruence. subst msg0.
  destruct Hcases as [[data0 [Hdid [Hurl Hrun]]]|[Hfailed _]].
  - assert (Hdata : data0 = data) by congruence. subst data0.
    pose proof (generateAvatarVideo_after_loop w payload userId dialogueId
                  templateId videoId tr _ _ Hrun) as Hafter.
    cbn [l_videoUrl l_provider l_errorMessage l_providerResponse] in Hafter.
    rewrite Hurl2 in Hafter. unfold Trace in *.
    rewrite Hupload in Hafter. exact Hafter.
  - unfold didDelivered in Hfailed. rewrite Hd2, Hurl2 in Hfailed.
    discriminate.
Qed.

Lemma completed_result_keeps_earlier_JOGG_error_witness :
  generateAvatarVideo Samples.Video.didRecovers Samples.Video.payload
    "user-123" "dialogue-456" "template-789" "video-101" []
  = (Ok {| videoUrl := Samples.Video.storageUrl;
           provider := D_ID;
           status := completed;
           errorMessage := Some "JOGG API unavailable";
           duration := None;
           providerResponse :=
             Some {| video_url := Some "https://d-id.com/video123.mp4";
                     download_url := None |} |},
     [Post D_ID; Post JOGG; Post D_ID;
      Get "https://d-id.com/video123.mp4"; Now;
      UploadBuffer
        "videos/user-123/dialogue-456/1700000000000_avatar.mp4"]).
Proof.
  exact (completed_result_keeps_earlier_JOGG_error
           Samples.Video.didRecovers Samples.Video.payload
           "user-123" "dialogue-456" "template-789" "video-101" [] _
           "JOGG API unavailable" _ "h"%char
           "ttps://d-id.com/video123.mp4" _
           eq_refl eq_refl eq_refl eq_refl eq_refl).
Defined.

End VideoGenerationExtras.

(** * The route handlers *)

Module RouteFacts.

Import TemplateSelectorService.

(** A profile that is present always gets a rule-table suggestion. *)
Lemma suggestTemplate_some (m : MoodAnalysis) :
  exists s,
    suggestTemplate (Some m) = Ok s
    /\ fallbackUsed s = false
    /\ truthy_string (templateId s) = true.
Proof.
  unfold suggestTemplate, suggestTemplate_body, try_catch_sync,
    applySelectionLogic.
  eexists. split; [reflexivity|].
  repeat match goal with
         | |- context [if ?c then _ else _] => destruct c
         end; split; reflexivity.
Qed.

Lemma suggestTemplate_risk (m : MoodAnalysis) :
  risk_indicators m <> [] ->
  suggestTemplate (Some m)
  = Ok (suggestion "crisis-support-therapist" 0.95%float
          "Risk indicators detected - using crisis support template").
Proof.
  intros Hrisk.
  unfold suggestTemplate, suggestTemplate_body, try_catch_sync,
    applySelectionLogic.
  cbn [riskIndicators extractSelectionFactors].
  destruct (risk_indicators m); [congruence|reflexivity].
Qed.

Lemma getFallbackTemplateId_listed (availableTemplates : list Template) :
  (exists t, In t availableTemplates /\ is_active t = true) ->
  exists t, In t availableTemplates /\ is_active t = true
            /\ getFallbackTemplateId availableTemplates = id t.
Proof.
  intros Hactive. unfold getFallbackTemplateId.
  destruct (find (fun template =>
                    is_active template && (category template =? "general"))
              availableTemplates) as [general|] eqn:Hgeneral.
  - destruct (find_some _ _ Hgeneral) as [Hin Hprop].
    apply andb_true_iff in Hprop. exists general. tauto.
  - destruct (find_exists (fun template => is_active template)
                availableTemplates Hactive) as [t [Hfind [Hin Hact]]].
    rewrite Hfind. exists t. auto.
Qed.

Lemma find_by_id (templates : list Template) (templateId : string) :
  (exists t, In t templates /\ id t = templateId) ->
  exists t, find (fun t => id t =? templateId) templates = Some t
            /\ In t templates /\ id t = templateId.
Proof.
  intros [t [Hin Hid]].
  destruct (find_exists (fun t => id t =? templateId) templates)
    as [t' [Hfind [Hin' Hid']]].
  - exists t. split; [exact Hin|]. now apply String.eqb_eq.
  - exists t'. apply String.eqb_eq in Hid'. auto.
Qed.

Lemma find_by_id_inv (templates : list Template) (templateId : string)
    (t : Template) :
  find (fun t => id t =? templateId) templates = Some t ->
  In t templates /\ id t = templateId.
Proof.
  intros Hfind. destruct (find_some _ _ Hfind) as [Hin Hid].
  apply String.eqb_eq in Hid. auto.
Qed.

Lemma validateTemplateId_listed (templateId : string)
    (availableTemplates : list Template) :
  validateTemplateId templateId availableTemplates = true ->
  exists t, In t availableTemplates /\ id t = templateId
            /\ is_active t = true.
Proof.
  intros Hvalid.
  destruct templateId as [|c rest]; [discriminate Hvalid|].
  apply (validateTemplateId_nonempty (String c rest) availableTemplates);
    [discriminate|exact Hvalid].
Qed.

Lemma analysisMissing_false (dialogue : Dialogue) :
  analysisMissing dialogue = false ->
  exists m, analysis dialogue = Some m
            /\ analysis_status dialogue = Some "completed".
Proof.
  unfold analysisMissing.
  destruct (analysis dialogue) as [m|]; [|discriminate].
  destruct (analysis_status dialogue) as [status|]; [|discriminate].
  intros Hstatus. apply negb_false_iff, String.eqb_eq in Hstatus.
  subst status. eauto.
Qed.

End RouteFacts.

Section TemplateRouteExtras.

Import TemplateSelectorService RouteFacts.

(** X17: when GET /suggest/:dialogueId answers with a suggestion, the
    dialogue's analysis is complete and the suggestion is the selector's
    own whenever its template is in the list of templates; otherwise the
    template is replaced by the fallback template and fallbackUsed is set,
    while the confidence stays that of the replaced suggestion.  As long
    as the list holds an active template, the template of the answer is
    one of the list. *)
Theorem suggest_route_recommends_from_the_catalogue :
  forall (dialogueQuery : Supabase.Answer Dialogue)
         (templatesQuery : Supabase.Answer (list Template))
         (data : TemplateRoutes.SuggestionData.t),
    TemplateRoutes.suggest dialogueQuery templatesQuery
    = Ok (TemplateRoutes.Success data) ->
    exists dialogue templates m original,
      Supabase.data dialogueQuery = Some dialogue
      /\ analysis dialogue = Some m
      /\ analysis_status dialogue = Some "completed"
      /\ Supabase.data templatesQuery = Some templates
      /\ TemplateRoutes.SuggestionData.availableTemplates data
         = List.length templates
      /\ suggestTemplate (Some m) = Ok original
      /\ confidence (TemplateRoutes.SuggestionData.suggestion data)
         = confidence original
      /\ ((exists t, In t templates /\ id t = templateId original) ->
          TemplateRoutes.SuggestionData.suggestion data = original)
      /\ ((forall t, In t templates -> id t <> templateId original) ->
          templateId (TemplateRoutes.SuggestionData.suggestion data)
          = getFallbackTemplateId templates
          /\ fallbackUsed (TemplateRoutes.SuggestionData.suggestion data)
             = true)
      /\ ((exists t, In t templates /\ is_active t = true) ->
          exists t,
            In t templates
            /\ id t
               = templateId (TemplateRoutes.SuggestionData.suggestion data)).
Proof.
  intros dialogueQuery templatesQuery data Hreply.
  unfold TemplateRoutes.suggest in Hreply.
  destruct (Supabase.error dialogueQuery) as [dialogueError|].
  { destruct (Supabase.code dialogueError =? "PGRST116"); discriminate. }
  destruct (Supabase.data dialogueQuery) as [dialogue|]; [|discriminate].
  destruct (analysisMissing dialogue) eqn:Hmissing; [discriminate|].
  destruct (analysisMissing_false dialogue Hmissing) as [m [Hm Hstatus]].
  destruct (Supabase.error templatesQuery); [discriminate|].
  destruct (Supabase.data templatesQuery) as [[|t0 templates]|];
    try discriminate.
  rewrite Hm in Hreply.
  destruct (suggestTemplate_some m) as [original [Horiginal _]].
  rewrite Horiginal in Hreply. cbv zeta in Hreply.
  exists dialogue, (t0 :: templates), m, original.
  split; [reflexivity|]. split; [exact Hm|]. split; [exact Hstatus|].
  split; [reflexivity|].
  destruct (find (fun t => id t =? templateId original) (t0 :: templates))
    as [suggestedTemplate|] eqn:Hfind;
    inversion Hreply; subst data; clear Hreply;
    cbn [TemplateRoutes.SuggestionData.suggestion
           TemplateRoutes.SuggestionData.availableTemplates
           confidence templateId fallbackUsed].
  - destruct (find_by_id_inv _ _ _ Hfind) as [Hin Hid].
    split; [reflexivity|]. split; [exact Horiginal|].
    split; [reflexivity|]. split; [intros _; reflexivity|].
    split; [intros Habsent; elim (Habsent suggestedTemplate Hin Hid)|].
    intros _. exists suggestedTemplate. auto.
  - split; [reflexivity|]. split; [exact Horiginal|].
    split; [reflexivity|]. split.
    { intros [t [Hin Hid]].
      apply (find_none _ _ Hfind) in Hin.
      apply String.eqb_neq in Hin. contradiction. }
    split; [intros _; split; reflexivity|].
    intros Hactive.
    destruct (getFallbackTemplateId_listed _ Hactive)
      as [t [Hin [_ Hid]]].
    exists t. auto.
Qed.

Lemma suggest_route_recommends_from_the_catalogue_witness :
  exists t, In t Samples.catalogue /\ id t = "general-therapist".
Proof.
  destruct (suggest_route_recommends_from_the_catalogue
              (Samples.Routes.found Samples.Routes.analysedDialogue)
              (Samples.Routes.found Samples.catalogue)
              (TemplateRoutes.SuggestionData.mk
                 {| templateId := "general-therapist";
                    confidence := 0.95%float;
                    reasoning :=
                      "Original suggestion not available, using fallback template";
                    fallbackUsed := true |}
                 3 (Some "completed"))
              eq_refl)
    as [dialogue [templates [m [original
         [_ [_ [_ [Htemplates [_ [_ [_ [_ [_ Hlisted]]]]]]]]]]]]].
  inversion Htemplates; subst templates.
  apply Hlisted. exists (Samples.template "general-therapist" "general" true).
  split; [right; right; now left|reflexivity].
Defined.

End TemplateRouteExtras.

Section GenerateRouteExtras.

Import TemplateSelectorService RouteFacts DialogueRoutes.

(** What [chooseTemplate] does once the request, the dialogue and the
    templates have passed the checks. *)
Lemma chooseTemplate_passed (validationErrors : list string)
    (template_id : option string)
    (dialogueQuery : Supabase.Answer Dialogue)
    (templatesQuery : Supabase.Answer (list Template))
    (choice : TemplateChoice) :
  chooseTemplate validationErrors template_id dialogueQuery templatesQuery
  = Ok (Chosen choice) ->
  exists dialogue m templates original proposed,
    validationErrors = []
    /\ Supabase.data dialogueQuery = Some dialogue
    /\ analysis dialogue = Some m
    /\ analysis_status dialogue = Some "completed"
    /\ Supabase.data templatesQuery = Some templates
    /\ suggestTemplate (Some m) = Ok original
    /\ proposed
       = (if negb (truthy_ostring template_id)
          then (templateId original, fallbackUsed original,
                reasoning original)
          else (match template_id with
                | Some finalTemplateId => finalTemplateId
                | None => ""
                end, false, ""))
    /\ find (fun t =>
               id t =? (if validateTemplateId (fst (fst proposed)) templates
                        then fst (fst proposed)
                        else getFallbackTemplateId templates))
         templates
       = Some (finalTemplate choice)
    /\ finalTemplateId choice
       = (if validateTemplateId (fst (fst proposed)) templates
          then fst (fst proposed)
          else getFallbackTemplateId templates)
    /\ templateFallbackUsed choice
       = (if validateTemplateId (fst (fst proposed)) templates
          then snd (fst proposed) else true)
    /\ templateFallbackReason choice
       = (if validateTemplateId (fst (fst proposed)) templates
          then snd proposed
          else "Invalid template ID provided. Using fallback template: "
               ++ getFallbackTemplateId templates).
Proof.
  intros Hchosen. unfold chooseTemplate in Hchosen.
  destruct validationErrors as [|msg rest]; [|discriminate].
  destruct (Supabase.error dialogueQuery); [discriminate|].
  destruct (Supabase.data dialogueQuery) as [dialogue|]; [|discriminate].
  destruct (analysisMissing dialogue) eqn:Hmissing; [discriminate|].
  destruct (analysisMissing_false dialogue Hmissing) as [m [Hm Hstatus]].
  destruct (Supabase.error templatesQuery); [discriminate|].
  destruct (Supabase.data templatesQuery) as [[|t0 templates]|];
    try discriminate.
  rewrite Hm in Hchosen.
  destruct (suggestTemplate_some m) as [original [Horiginal _]].
  rewrite Horiginal in Hchosen.
  exists dialogue, m, (t0 :: templates), original.
  eexists. split; [reflexivity|]. split; [reflexivity|].
  split; [exact Hm|]. split; [exact Hstatus|]. split; [reflexivity|].
  split; [exact Horiginal|]. split; [reflexivity|].
  destruct (negb (truthy_ostring template_id));
    cbv beta iota zeta delta [fst snd] in *;
    match type of Hchosen with
    | context [find ?f ?l] =>
        destruct (find f l) as [chosen|] eqn:Hfind; [|discriminate]
    end;
    inversion Hchosen; subst choice; cbn; auto.
Qed.

(** X18: when the body of POST /:id/generate names a template, an id that
    passes [validateTemplateId] is used as it is, without fallback; an id
    that does not is replaced by the fallback template of the catalogue,
    with fallbackUsed set, and the mood analysis of the dialogue is not
    consulted.  The template the handler goes on with is always one of the
    available templates and carries the final id. *)
Theorem generate_route_honours_a_valid_template_id :
  forall (validationErrors : list string) (template_id : string)
         (dialogueQuery : Supabase.Answer Dialogue)
         (templatesQuery : Supabase.Answer (list Template))
         (choice : TemplateChoice),
    template_id <> "" ->
    chooseTemplate validationErrors (Some template_id) dialogueQuery
      templatesQuery
    = Ok (Chosen choice) ->
    exists templates,
      Supabase.data templatesQuery = Some templates
      /\ In (finalTemplate choice) templates
      /\ id (finalTemplate choice) = finalTemplateId choice
      /\ (validateTemplateId template_id templates = true ->
          finalTemplateId choice = template_id
          /\ templateFallbackUsed choice = false
          /\ templateFallbackReason choice = "")
      /\ (validateTemplateId template_id templates = false ->
          finalTemplateId choice = getFallbackTemplateId templates
          /\ templateFallbackUsed choice = true
          /\ templateFallbackReason choice
             = "Invalid template ID provided. Using fallback template: "
               ++ getFallbackTemplateId templates).
Proof.
  intros validationErrors template_id dialogueQuery templatesQuery choice
         Hid Hchosen.
  destruct (chooseTemplate_passed _ _ _ _ _ Hchosen)
    as [dialogue [m [templates [original [proposed
         [_ [_ [_ [_ [Htemplates [_ [Hproposed
           [Hfind [Hfinal [Hused Hreason]]]]]]]]]]]]]]].
  assert (Htruthy : truthy_ostring (Some template_id) = true)
    by (destruct template_id; [congruence|reflexivity]).
  rewrite Htruthy in Hproposed. cbn [negb] in Hproposed. subst proposed.
  cbn [fst snd] in *.
  exists templates. split; [exact Htemplates|].
  destruct (find_by_id_inv _ _ _ Hfind) as [Hin Hfid].
  split; [exact Hin|]. split; [congruence|].
  split; intros Hvalid; rewrite Hvalid in *; auto.
Qed.

Lemma generate_route_honours_a_valid_template_id_witness :
  finalTemplateId
    {| finalTemplate := Samples.template "general-therapist" "general" true;
       finalTemplateId := "general-therapist";
       templateFallbackUsed := true;
       templateFallbackReason :=
         "Invalid template ID provided. Using fallback template: general-therapist" |}
  = getFallbackTemplateId Samples.catalogue.
Proof.
  destruct (generate_route_honours_a_valid_template_id []
              "inactive-template"
              (Samples.Routes.found Samples.Routes.analysedDialogue)
              (Samples.Routes.found Samples.catalogue)
              {| finalTemplate :=
                   Samples.template "general-therapist" "general" true;
                 finalTemplateId := "general-therapist";
                 templateFallbackUsed := true;
                 templateFallbackReason :=
                   "Invalid template ID provided. Using fallback template: general-therapist" |}
              ltac:(discriminate) eq_refl)
    as [templates [Htemplates [_ [_ [_ Hinvalid]]]]].
  inversion Htemplates; subst templates.
  apply Hinvalid. reflexivity.
Defined.

(** X19: when the body names no template, the handler takes the
    selector's suggestion for the dialogue's analysis if that template is
    active in the catalogue, keeping its reasoning; in particular a
    dialogue with a risk indicator gets the crisis-support template
    whenever the catalogue has it active.  A suggestion that is not active
    in the catalogue is replaced by the fallback template, with
    fallbackUsed set. *)
Theorem generate_route_follows_the_suggestion :
  forall (dialogueQuery : Supabase.Answer Dialogue)
         (templatesQuery : Supabase.Answer (list Template))
         (choice : TemplateChoice),
    chooseTemplate [] None dialogueQuery templatesQuery
    = Ok (Chosen choice) ->
    exists dialogue m templates original,
      Supabase.data dialogueQuery = Some dialogue
      /\ analysis dialogue = Some m
      /\ Supabase.data templatesQuery = Some templates
      /\ suggestTemplate (Some m) = Ok original
      /\ (validateTemplateId (templateId original) templates = true ->
          finalTemplateId choice = templateId original
          /\ templateFallbackUsed choice = false
          /\ templateFallbackReason choice = reasoning original)
      /\ (validateTemplateId (templateId original) templates = false ->
          finalTemplateId choice = getFallbackTemplateId templates
          /\ templateFallbackUsed choice = true)
      /\ (risk_indicators m <> [] ->
          validateTemplateId "crisis-support-therapist" templates = true ->
          finalTemplateId choice = "crisis-support-therapist"
          /\ id (finalTemplate choice) = "crisis-support-therapist").
Proof.
  intros dialogueQuery templatesQuery choice Hchosen.
  destruct (chooseTemplate_passed _ _ _ _ _ Hchosen)
    as [dialogue [m [templates [original [proposed
         [_ [Hdialogue [Hm [_ [Htemplates [Horiginal [Hproposed
           [Hfind [Hfinal [Hused Hreason]]]]]]]]]]]]]]].
  cbn [truthy_ostring negb] in Hproposed. subst proposed.
  cbn [fst snd] in *.
  destruct (suggestTemplate_some m) as [s [Hs [Hnofallback _]]].
  assert (Hsame : s = original) by congruence. subst s.
  exists dialogue, m, templates, original.
  split; [exact Hdialogue|]. split; [exact Hm|].
  split; [exact Htemplates|]. split; [exact Horiginal|].
  destruct (find_by_id_inv _ _ _ Hfind) as [_ Hfid].
  split; [|split].
  - intros Hvalid. rewrite Hvalid in *. repeat split; congruence.
  - intros Hinvalid. rewrite Hinvalid in *. repeat split; congruence.
  - intros Hrisk Hvalid.
    rewrite (suggestTemplate_risk m Hrisk) in Horiginal.
    inversion Horiginal; subst original. cbn [templateId suggestion] in *.
    rewrite Hvalid in *. split; congruence.
Qed.

Lemma generate_route_follows_the_suggestion_witness :
  finalTemplateId
    {| finalTemplate := Samples.template "general-therapist" "general" true;
       finalTemplateId := "general-therapist";
       templateFallbackUsed := true;
       templateFallbackReason :=
         "Invalid template ID provided. Using fallback template: general-therapist" |}
  = getFallbackTemplateId Samples.catalogue.
Proof.
  destruct (generate_route_follows_the_suggestion
              (Samples.Routes.found Samples.Routes.analysedDialogue)
              (Samples.Routes.found Samples.catalogue)
              {| finalTemplate :=
                   Samples.template "general-therapist" "general" true;
                 finalTemplateId := "general-therapist";
                 templateFallbackUsed := true;
                 templateFallbackReason :=
                   "Invalid template ID provided. Using fallback template: general-therapist" |}
              eq_refl)
    as [dialogue [m [templates [original
         [Hdialogue [Hm [Htemplates [Horiginal [_ [Hinvalid _]]]]]]]]]].
  inversion Htemplates; subst templates.
  inversion Hdialogue; subst dialogue.
  inversion Hm; subst m.
  inversion Horiginal; subst original.
  apply Hinvalid. reflexivity.
Defined.

(** X20: as long as the list of available templates holds an active
    template, POST /:id/generate never answers 'Template configuration
    error': the final id, provided, suggested or fallback, is always found
    in the list. *)
Theorem generate_route_finds_its_template :
  forall (validationErrors : list string) (template_id : option string)
         (dialogueQuery : Supabase.Answer Dialogue)
         (templatesQuery : Supabase.Answer (list Template))
         (templates : list Template),
    Supabase.data templatesQuery = Some templates ->
    (exists t, In t templates /\ is_active t = true) ->
    chooseTemplate validationErrors template_id dialogueQuery templatesQuery
    <> Ok (Failure 500
             "Template configuration error. Please contact support.").
Proof.
  intros validationErrors template_id dialogueQuery templatesQuery templates
         Htemplates Hactive.
  assert (Hfound :
            forall proposedId,
            exists t,
              find (fun t =>
                      id t =? (if validateTemplateId proposedId templates
                               then proposedId
                               else getFallbackTemplateId templates))
                templates = Some t).
  { intros proposedId.
    destruct (validateTemplateId proposedId templates) eqn:Hvalid.
    - destruct (validateTemplateId_listed _ _ Hvalid) as [t [Hin [Hid _]]].
      destruct (find_by_id templates proposedId) as [t' [Hfind _]]; eauto.
    - destruct (getFallbackTemplateId_listed _ Hactive) as [t [Hin [_ Hid]]].
      destruct (find_by_id templates (getFallbackTemplateId templates))
        as [t' [Hfind _]]; eauto. }
  unfold chooseTemplate.
  destruct validationErrors as [|msg rest]; [|discriminate].
  destruct (Supabase.error dialogueQuery); [discriminate|].
  destruct (Supabase.data dialogueQuery) as [dialogue|]; [|discriminate].
  destruct (analysisMissing dialogue) eqn:Hmissing; [discriminate|].
  destruct (analysisMissing_false dialogue Hmissing) as [m [Hm _]].
  destruct (Supabase.error templatesQuery); [discriminate|].
  rewrite Htemplates.
  destruct templates as [|t0 templates]; [discriminate|].
  rewrite Hm.
  destruct (suggestTemplate_some m) as [original [Horiginal _]].
  rewrite Horiginal.
  destruct (negb (truthy_ostring template_id)); cbv beta iota zeta.
  - destruct (Hfound (templateId original)) as [t Hfind].
    rewrite Hfind. discriminate.
  - destruct (Hfound (match template_id with
                      | Some finalTemplateId => finalTemplateId
                      | None => ""
                      end)) as [t Hfind].
    rewrite Hfind. discriminate.
Qed.

Lemma generate_route_finds_its_template_witness :
  chooseTemplate [] (Some "no-such-template")
    (Samples.Routes.found Samples.Routes.analysedDialogue)
    (Samples.Routes.found Samples.catalogue)
  <> Ok (Failure 500
           "Template configuration error. Please contact support.").
Proof.
  apply (generate_route_finds_its_template [] (Some "no-such-template")
           (Samples.Routes.found Samples.Routes.analysedDialogue)
           (Samples.Routes.found Samples.catalogue) Samples.catalogue
           eq_refl).
  exists (Samples.template "general-therapist" "general" true).
  split; [right; right; now left|reflexivity].
Defined.

End GenerateRouteExtras.

Section TriggerAnalysisExtras.

Import SpeechToTextMoodAnalysisService SpeechFacts SpeechExtras.
Import DialogueRoutes.

Lemma analyzeAudio_total (w : World) (audioBuffer : list byte)
    (originalLanguage : option string) (tr : Trace) :
  exists res tr',
    analyzeAudio w audioBuffer originalLanguage tr = (Ok res, tr').
Proof.
  destruct (runProviders_run w audioBuffer 0 (tr ++ [Now])%list)
    as [fb [res0 [tr0 [Hrun _]]]].
  destruct res0 as [r|].
  - destruct (analyzeAudio_success w audioBuffer originalLanguage tr tr0 fb r
                Hrun) as [res [Hres _]].
    eauto.
  - destruct (analyzeAudio_exhausted w audioBuffer originalLanguage tr tr0 fb
                Hrun) as [processingTime Hres].
    eauto.
Qed.

(** X21: on a database that accepts its writes, [triggerAnalysis] returns
    normally after exactly two updates of the dialogue: 'processing', then
    the analysis with analysis_status 'completed'.  'failed' is never
    written, not even when every provider failed: that outcome is stored
    as a completed analysis with an empty transcript and language
    'unknown', and only the dialogue's status is left as it was.  The
    status is set to 'analyzed' exactly when the confidence is above 0. *)
Theorem triggerAnalysis_stores_an_outage_as_completed :
  forall (db : Database) (w : World) (dialogueId : string)
         (audioBuffer : list byte) (originalLanguage : option string)
         (tr : Trace) (log : list DbEvent),
    (forall n id data, dialogues_update db n id data = Ok tt) ->
    exists res tr' stored,
      analyzeAudio w audioBuffer originalLanguage tr = (Ok res, tr')
      /\ triggerAnalysis db w dialogueId audioBuffer originalLanguage
           (tr, log)
         = (Ok tt,
            (tr',
             (log ++ [Update dialogueId processingUpdate; ToISOString;
                      Update dialogueId stored])%list))
      /\ stored
         = completedUpdate res
             (isoClock db (List.length (filter is_reading log)))
      /\ u_analysis_status stored = Some "completed"
      /\ u_transcript stored = Some (AnalysisResult.transcript res)
      /\ u_mood_analysis stored = Some (AnalysisResult.moodAnalysis res)
      /\ (u_status stored = Some "analyzed" <->
          PrimFloat.ltb 0%float (AnalysisResult.confidence res) = true)
      /\ (AnalysisResult.apiUsed res = "fallback" ->
          u_transcript stored = Some ""
          /\ u_language stored = Some "unknown"
          /\ u_status stored = None).
Proof.
  intros db w dialogueId audioBuffer originalLanguage tr log Haccepts.
  destruct (analyzeAudio_total w audioBuffer originalLanguage tr)
    as [res [tr' Hres]].
  exists res, tr'. eexists. split; [exact Hres|].
  split.
  { unfold triggerAnalysis, try_catch, bind, update, lift, toISOString.
    cbn [fst snd]. rewrite Haccepts. cbv beta iota.
    unfold Trace in *. rewrite Hres. cbn [fst snd].
    rewrite Haccepts. rewrite !filter_app, !length_app. cbn.
    rewrite Nat.add_0_r, <- !app_assoc. cbn [app]. reflexivity. }
  split; [reflexivity|]. split; [reflexivity|]. split; [reflexivity|].
  split; [reflexivity|]. split.
  { cbn [completedUpdate u_status].
    destruct (PrimFloat.ltb 0%float (AnalysisResult.confidence res));
      split; intros; congruence. }
  intros Hfallback.
  destruct (analyzeAudio_inversion w audioBuffer originalLanguage tr tr' res
              Hres)
    as [[fb [r [tr0 [pt [_ Hshape]]]]]|[pt Hshape]]; subst res.
  - cbn in Hfallback. destruct fb; discriminate.
  - cbn. repeat split.
Qed.

Lemma triggerAnalysis_stores_an_outage_as_completed_witness :
  exists res tr' stored,
    analyzeAudio Samples.Speech.allDown Samples.Speech.audio
      (Some "english") [] = (Ok res, tr')
    /\ triggerAnalysis Samples.Routes.database Samples.Speech.allDown
         "dialogue-456" Samples.Speech.audio (Some "english") ([], [])
       = (Ok tt,
          (tr',
           [Update "dialogue-456" processingUpdate; ToISOString;
            Update "dialogue-456" stored]))
    /\ u_analysis_status stored = Some "completed".
Proof.
  destruct (triggerAnalysis_stores_an_outage_as_completed
              Samples.Routes.database Samples.Speech.allDown "dialogue-456"
              Samples.Speech.audio (Some "english") [] []
              (fun _ _ _ => eq_refl))
    as [res [tr' [stored [Hres [Hrun [_ [Hstatus _]]]]]]].
  exists res, tr', stored. auto.
Defined.

End TriggerAnalysisExtras.

Section VideoJobExtras.

Import VideoGenerationService VideoFacts VideoExtras.
Import DialogueRoutes.

(** X23: on a database that accepts its writes, the video job of
    POST /:id/generate returns normally after exactly one update of the
    video row, and that update takes the row out of 'processing': it
    stores 'completed' with a URL the blob store handed out, or 'failed'
    with an empty URL and an error message.  The duration it stores is
    always 0. *)
Theorem video_job_finalises_the_video_row :
  forall (videos_update : nat -> string -> VideoUpdate -> Result unit)
         (w : World) (payload : VideoGenerationPayload)
         (userId dialogueId finalTemplateId videoId : string) (tr : Trace)
         (log : list (string * VideoUpdate)),
    (forall n id data, videos_update n id data = Ok tt) ->
    exists res tr',
      generateAvatarVideo w payload userId dialogueId finalTemplateId videoId
        tr = (Ok res, tr')
      /\ videoJob videos_update w payload userId dialogueId finalTemplateId
           videoId (tr, log)
         = (Ok tt,
            (tr',
             (log ++ [(videoId,
                       Finished (videoUrl res) (status res) (provider res)
                         0%float (errorMessage res)
                         (providerResponse res))])%list))
      /\ ((status res = completed /\ storageBacked w (videoUrl res))
          \/ (status res = failed /\ videoUrl res = ""
              /\ exists msg, errorMessage res = Some msg)).
Proof.
  intros videos_update w payload userId dialogueId finalTemplateId videoId
         tr log Haccepts.
  destruct (generateAvatarVideo_trace w payload userId dialogueId
              finalTemplateId videoId tr)
    as [res [posts [ext [Hgen [_ [Hduration Hend]]]]]].
  exists res. eexists. split; [exact Hgen|]. split.
  - unfold videoJob, try_catch, bind, lift, updateVideo.
    cbn [fst snd]. unfold Trace in *. rewrite Hgen. cbn [fst snd].
    rewrite Haccepts, Hduration. reflexivity.
  - destruct Hend
      as [[_ [_ [Hstatus [_ [Hurl [_ [msg [Hmsg _]]]]]]]]
         |[url [_ [_ [_ [_ [_ [Hcompleted|Hfailed]]]]]]]].
    + right. eauto.
    + left. exact Hcompleted.
    + right. destruct Hfailed as [Hstatus [Hurl [_ Hmsg]]]. auto.
Qed.

Lemma video_job_finalises_the_video_row_witness :
  exists res tr',
    generateAvatarVideo Samples.Video.providersDown Samples.Video.payload
      "user-123" "dialogue-456" "template-789" "video-101" []
    = (Ok res, tr')
    /\ videoJob (fun _ _ _ => Ok tt) Samples.Video.providersDown
         Samples.Video.payload "user-123" "dialogue-456" "template-789"
         "video-101" ([], [])
       = (Ok tt,
          (tr',
           [("video-101",
             Finished (videoUrl res) (status res) (provider res) 0%float
               (errorMessage res) (providerResponse res))])).
Proof.
  destruct (video_job_finalises_the_video_row (fun _ _ _ => Ok tt)
              Samples.Video.providersDown Samples.Video.payload
              "user-123" "dialogue-456" "template-789" "video-101" [] []
              (fun _ _ _ => eq_refl))
    as [res [tr' [Hgen [Hjob _]]]].
  exists res, tr'. auto.
Defined.

End VideoJobExtras.

Section StorageExtras.

Import StorageService.

(** A directory is created on a best-effort basis: whatever the upload
    does, [createDirectory] returns normally after that one call. *)
Lemma createDirectory_run (w : World) (path : string) (tr : Trace) :
  createDirectory w path tr
  = (Ok tt,
     (tr ++ [Upload bucketName (path ++ "/.keep")
               "application/octet-stream"])%list).
Proof.
  unfold createDirectory, try_catch, bind, upload, throw, ret.
  destruct (storage_upload w (List.length (filter is_upload tr)) bucketName
              (path ++ "/.keep") "application/octet-stream")
    as [answer|e]; [|reflexivity].
  destruct (error answer) as [e|]; [|reflexivity].
  destruct (negb (string_includes (message e) "already exists"));
    reflexivity.
Qed.

Lemma directories_run (w : World) (tr : Trace) :
  bind (createDirectory w "audio")
    (fun _ =>
       bind (createDirectory w "video")
         (fun _ =>
            bind (createDirectory w "avatars")
              (fun _ => createDirectory w "transcripts"))) tr
  = (Ok tt, (tr ++ directoryUploads)%list).
Proof.
  unfold bind. rewrite !createDirectory_run.
  rewrite <- !app_assoc. reflexivity.
Qed.

(** X24: once the buckets have been listed, [initializeBuckets] creates
    only what is missing and can fail only on the bucket.  When the bucket
    is listed it is not created again; when it is not, it is created with
    the fixed options.  After that the four placeholder uploads are made
    in a fixed order and, whatever they answer, the function returns
    normally.  When the creation of a missing bucket fails, the function
    throws that error and makes no upload.  [isStorageAvailable] is true
    exactly when the listing names the bucket. *)
Theorem initializeBuckets_creates_only_what_is_missing :
  forall (w : World) (tr : Trace) (buckets : list Bucket),
    storage_listBuckets w (List.length (filter is_list tr))
    = Ok {| data := Some buckets; error := None |} ->
    (existsb (fun bucket => name bucket =? bucketName) buckets = true ->
     initializeBuckets w tr
     = (Ok tt, (tr ++ ListBuckets :: directoryUploads)%list)
     /\ isStorageAvailable w tr = (Ok true, (tr ++ [ListBuckets])%list))
    /\ (existsb (fun bucket => name bucket =? bucketName) buckets = false ->
        isStorageAvailable w tr = (Ok false, (tr ++ [ListBuckets])%list)
        /\ (forall created,
              storage_createBucket w (List.length (filter is_create tr))
                bucketName
                {| public := false;
                   allowedMimeTypes :=
                     ["audio/*"; "video/*"; "image/*"; "text/*"];
                   fileSizeLimit := 104857600%N |}
              = Ok {| data := created; error := None |} ->
              initializeBuckets w tr
            = (Ok tt,
               (tr ++ ListBuckets
                   :: CreateBucket bucketName
                        {| public := false;
                           allowedMimeTypes :=
                             ["audio/*"; "video/*"; "image/*"; "text/*"];
                           fileSizeLimit := 104857600%N |}
                   :: directoryUploads)%list))
        /\ (forall createError anything,
              storage_createBucket w (List.length (filter is_create tr))
                bucketName
                {| public := false;
                   allowedMimeTypes :=
                     ["audio/*"; "video/*"; "image/*"; "text/*"];
                   fileSizeLimit := 104857600%N |}
              = Ok {| data := anything; error := Some createError |}
              \/ storage_createBucket w
                    (List.length (filter is_create tr)) bucketName
                    {| public := false;
                       allowedMimeTypes :=
                         ["audio/*"; "video/*"; "image/*"; "text/*"];
                       fileSizeLimit := 104857600%N |}
                  = Throw createError ->
              initializeBuckets w tr
              = (Throw createError,
                 (tr ++ [ListBuckets;
                         CreateBucket bucketName
                           {| public := false;
                              allowedMimeTypes :=
                                ["audio/*"; "video/*"; "image/*"; "text/*"];
                              fileSizeLimit := 104857600%N |}])%list))).
Proof.
  intros w tr buckets Hlist.
  assert (Hcreates :
            List.length (filter is_create (tr ++ [ListBuckets])%list)
            = List.length (filter is_create tr))
    by (rewrite filter_app, length_app; cbn; lia).
  split; [|intros Habsent; split; [|split]].
  - intros Hpresent. split.
    + unfold initializeBuckets, try_catch.
      unfold bind at 1. unfold listBuckets. rewrite Hlist.
      cbn [error data]. rewrite Hpresent. cbn [negb].
      unfold bind at 1. unfold ret at 1.
      rewrite directories_run, <- app_assoc. reflexivity.
    + unfold isStorageAvailable, try_catch, bind, listBuckets, ret.
      rewrite Hlist. cbn [error data]. rewrite Hpresent. reflexivity.
  - unfold isStorageAvailable, try_catch, bind, listBuckets, ret.
    rewrite Hlist. cbn [error data]. rewrite Habsent. reflexivity.
  - intros created Hcreated.
    unfold initializeBuckets, try_catch.
    unfold bind at 1. unfold listBuckets. rewrite Hlist.
    cbn [error data]. rewrite Habsent. cbn [negb].
    unfold bind at 1. unfold bind at 1. unfold createBucket.
    rewrite Hcreates.
    change (100 * 1024 * 1024)%N with 104857600%N.
    rewrite Hcreated. cbn [error]. unfold ret at 1.
    rewrite directories_run, <- !app_assoc. reflexivity.
  - intros createError anything Hrejected.
    unfold initializeBuckets, try_catch.
    unfold bind at 1. unfold listBuckets. rewrite Hlist.
    cbn [error data]. rewrite Habsent. cbn [negb].
    unfold bind at 1. unfold bind at 1. unfold createBucket.
    rewrite Hcreates.
    change (100 * 1024 * 1024)%N with 104857600%N.
    destruct Hrejected as [Hrejected|Hrejected]; rewrite Hrejected;
      cbn [error]; unfold throw; rewrite <- !app_assoc; reflexivity.
Qed.

Lemma initializeBuckets_creates_only_what_is_missing_witness :
  initializeBuckets Samples.Storage.bucketPresent []
  = (Ok tt, ListBuckets :: directoryUploads)
  /\ initializeBuckets Samples.Storage.bucketMissing []
     = (Ok tt,
        ListBuckets
        :: CreateBucket bucketName
             {| public := false;
                allowedMimeTypes :=
                  ["audio/*"; "video/*"; "image/*"; "text/*"];
                fileSizeLimit := 104857600%N |}
        :: directoryUploads)
  /\ isStorageAvailable Samples.Storage.bucketMissing []
     = (Ok false, [ListBuckets]).
Proof.
  split.
  - destruct (initializeBuckets_creates_only_what_is_missing
                Samples.Storage.bucketPresent []
                [mkBucket "avatars"; mkBucket "devplan-video-therapy"]
                eq_refl) as [Hpresent _].
    destruct (Hpresent eq_refl) as [Hrun _]. exact Hrun.
  - destruct (initializeBuckets_creates_only_what_is_missing
                Samples.Storage.bucketMissing [] [mkBucket "avatars"]
                eq_refl) as [_ Habsent].
    destruct (Habsent eq_refl) as [Havailable [Hcreated _]].
    split; [|exact Havailable].
    exact (Hcreated (Some tt) eq_refl).
Defined.

End StorageExtras.
